(** * Student performance predictor: training and inference pipeline

    A shallow embedding of [backend/app/ml/train.py],
    [backend/app/ml/predictor.py] and the threshold helper of
    [backend/app/main.py], with the properties of the design document
    stated over it.

    Conventions of the embedding.
    - A Python float is a rational ([Q]); the values that are not
      rationals (nan, inf) appear only where the code can meet them before
      a range check ([pyfloat]).  Equality of floats is [Qeq].
    - A raised exception is the [Raise] case of [result]; [try/except] is
      a match on it.
    - numpy, pandas and scikit-learn are not part of the repository: the
      few operations the code uses are written out (broadcasting, mean,
      median, F1) or taken as an interface ([Runtime], [Sklearn]).
    - The file system is the pair of artifacts the code reads and writes
      ([FS]); the only environment variable that matters is
      [PRED_THRESHOLD]. *)

From Stdlib Require Import QArith Qminmax Qround Qabs Lqa Sorted.
From stdpp Require Import gmap strings list fin_maps pretty.

Local Open Scope Q_scope.

(** ** Python values and exceptions *)

Module Py.

(** A float as Python holds it. [0.0 < x < 1.0] and
    [lo <= x <= hi] are false on every value that is not finite and in
    range, so that the checked value is always a rational. *)
Inductive pyfloat : Type :=
  | Finite (q : Q)
  | PosInf
  | NegInf
  | NaN.

(** An argument as a caller may pass it: [None], a float, or an object
    on which [float()] raises [TypeError] or [ValueError]. *)
Inductive pyval : Type :=
  | PNone
  | PFloat (x : pyfloat)
  | PNonNumeric.

(** The four validated fields; [FEATURES] are the first three. *)
Inductive field : Type :=
  | attendance
  | marks
  | internal_score
  | final_exam_score.

(** One element of the list given to [predict_batch]: the keys the code
    reads with [item.get]. *)
Record BatchItem : Type := {
  student_id : option Z;
  course_id : option Z;
  item_attendance : pyval;
  item_marks : pyval;
  item_internal_score : pyval;
  item_final_exam_score : pyval;
}.

Inductive invalid_msg : Type :=
  | Required (name : field)                      (* "'name' is required" *)
  | MustBeNumber (name : field)                  (* "'name' must be a number" *)
  | OutOfRange (name : field) (lo hi : Q) (received : pyfloat)
  | InvalidBatchItem (item : BatchItem)
                     (inner : invalid_msg).      (* "Invalid batch item {item}: {exc}" *)

Inductive value_msg : Type :=
  | NotAFloat                                    (* float("abc") *)
  | InsufficientData (got : nat)                 (* "... Need at least 10 samples, got {n}" *)
  | NeedTwoClasses                               (* "Training requires at least two classes ..." *)
  | MissingColumns (cols : list string)
  | CannotBroadcast (n m : nat)                  (* numpy: operands could not be broadcast *)
  | Expected2D                                   (* sklearn: Expected 2D array *)
  | InputContainsNaN                             (* sklearn / astype(int) on a missing value *)
  | Library (what : string).                     (* any other ValueError of a library *)

Inductive exn : Type :=
  | InvalidInputError (m : invalid_msg)
  | ValueError (m : value_msg)
  | KeyError (key : string)
  | FileNotFoundError
  | JSONDecodeError
  | TypeError
  | AttributeError
  | IndexError
  | ZeroDivisionError.

Inductive result (A : Type) : Type :=
  | Ok (a : A)
  | Raise (e : exn).
Arguments Ok {A} a.
Arguments Raise {A} e.

#[global] Instance result_ret : MRet result := @Ok.

#[global] Instance result_bind : MBind result := λ A B k r,
  match r with
  | Ok a => k a
  | Raise e => Raise e
  end.

Definition is_ok {A} (r : result A) : bool :=
  match r with Ok _ => true | Raise _ => false end.

(** [l[i]] *)
Definition index {A} (l : list A) (i : nat) : result A :=
  match l !! i with
  | Some x => Ok x
  | None => Raise IndexError
  end.

(** [enumerate(l)] *)
Definition enumerate {A} (l : list A) : list (nat * A) :=
  zip (seq 0 (length l)) l.

(** A loop that builds a list and stops at the first exception. *)
Fixpoint forM {A B} (f : A → result B) (l : list A) : result (list B) :=
  match l with
  | [] => Ok []
  | x :: l' => y ← f x; ys ← forM f l'; Ok (y :: ys)
  end.

Definition Qltb (x y : Q) : bool := negb (Qle_bool y x).

(** [x / y] on Python floats: raises on a zero divisor. *)
Definition py_div (x y : Q) : result Q :=
  if Qeq_bool y 0 then Raise ZeroDivisionError else Ok (x / y).

(** [int(round(x))]: Python 3 rounds halves to the even integer. *)
Definition py_round (x : Q) : Z :=
  let f := Qfloor x in
  let r := x - inject_Z f in
  if Qltb r (1 # 2) then f
  else if Qltb (1 # 2) r then (f + 1)%Z
  else if Z.even f then f else (f + 1)%Z.

(** A stable sort, as [list.sort] and [sorted] are: [before a b] says
    that [a]'s key is strictly smaller than [b]'s; elements whose keys
    compare equal keep their order. *)
Section Sort.
Context {A : Type} (before : A → A → bool).

Fixpoint insert_stable (x : A) (l : list A) : list A :=
  match l with
  | [] => [x]
  | y :: l' => if before y x then y :: insert_stable x l' else x :: y :: l'
  end.

Fixpoint sort_stable (l : list A) : list A :=
  match l with
  | [] => []
  | x :: l' => insert_stable x (sort_stable l')
  end.
End Sort.

End Py.

Export Py.


(** ** JSON documents and the numpy operations of the predictor *)

Module Json.

#[warnings="-register-all"]
Inductive json : Type :=
  | JNull
  | JBool (b : bool)
  | JNum (q : Q)
  | JStr (s : string)
  | JArr (xs : list json)
  | JObj (m : gmap string json).

(** [json.load] of a file: the text is a JSON value or it is not. *)
Inductive file : Type :=
  | Corrupt
  | Doc (j : json).

(** [d.get(k) if isinstance(d, dict) else None] *)
Definition dict_get (d : json) (k : string) : option json :=
  match d with
  | JObj m => m !! k
  | _ => None
  end.

(** [d.get(k, dflt) if isinstance(d, dict) else dflt] *)
Definition dict_get_or (d : json) (k : string) (dflt : json) : json :=
  default dflt (dict_get d k).

(** [d.get(k, dflt)] on a value that was not checked to be a dict. *)
Definition py_get (d : json) (k : string) (dflt : json) : result json :=
  match d with
  | JObj m => Ok (default dflt (m !! k))
  | _ => Raise AttributeError
  end.

(** [float(v)] on a JSON value. A string is taken as non-numeric. *)
Definition py_float (v : json) : result Q :=
  match v with
  | JNum q => Ok q
  | JBool b => Ok (if b then 1 else 0)
  | JStr _ => Raise (ValueError NotAFloat)
  | _ => Raise TypeError
  end.

(** Truth value of a JSON value, as [x or y] tests it. *)
Definition truthy (v : json) : bool :=
  match v with
  | JNull => false
  | JBool b => b
  | JNum q => negb (Qeq_bool q 0)
  | JStr s => negb (String.eqb s "")
  | JArr xs => negb (Nat.eqb (length xs) 0)
  | JObj m => negb (Nat.eqb (size m) 0)
  end.

Definition nums (l : list Q) : json := JArr (JNum <$> l).

(** [np.array(v)]: only one-dimensional arrays of numbers are modelled;
    anything else is rejected here. *)
Definition np_array (v : json) : result (list Q) :=
  match v with
  | JArr xs => forM py_float xs
  | _ => Raise TypeError
  end.

(** Element-wise binary operation on one-dimensional arrays, with
    numpy's broadcasting: equal lengths, or one side of length one. *)
Definition np_broadcast (f : Q → Q → Q) (xs ys : list Q) : result (list Q) :=
  if Nat.eqb (length xs) (length ys) then Ok (zip_with f xs ys)
  else match xs, ys with
       | [x], _ => Ok (f x <$> ys)
       | _, [y] => Ok ((λ x, f x y) <$> xs)
       | _, _ => Raise (ValueError (CannotBroadcast (length xs) (length ys)))
       end.

(** [np.where(scale == 0, 1.0, scale)] *)
Definition np_where_zero_one (scale : list Q) : list Q :=
  (λ s, if Qeq_bool s 0 then 1 else s) <$> scale.

(** [xs / ys] on arrays. numpy answers inf or nan (with a warning) on a
    zero divisor; these are not rationals, so the case is kept apart as
    [ZeroDivisionError]. *)
Definition np_divide (xs ys : list Q) : result (list Q) :=
  if forallb (λ y, negb (Qeq_bool y 0)) ys
  then np_broadcast Qdiv xs ys
  else Raise ZeroDivisionError.

End Json.

Export Json.

(** ** [app/ml/train.py] *)

Module train.

Definition FEATURES : list field := [attendance; marks; internal_score].

Definition name_of (f : field) : string :=
  match f with
  | attendance => "attendance"
  | marks => "marks"
  | internal_score => "internal_score"
  | final_exam_score => "final_exam_score"
  end.

(** The deployed artifact (a fitted [CalibratedClassifierCV]), seen
    through the one method the code calls: the probability of the
    positive class for one row of features. *)
Record Model : Type := { predict_proba_row : list Q → Q }.

(** [model.predict_proba(X)[:, 1]]; scikit-learn refuses an array that
    is not two-dimensional, which is what [np.array([])] is. *)
Definition predict_proba (m : Model) (X : list (list Q)) : result (list Q) :=
  match X with
  | [] => Raise (ValueError Expected2D)
  | _ => Ok (predict_proba_row m <$> X)
  end.

(** The two artifacts at [model_path] and [metadata_path]. *)
Record FS : Type := {
  model_file : option Model;
  metadata_file : option file;
}.

(** *** The training frame *)

Record Enrollment : Type := {
  e_attendance : option Q;
  e_marks : option Q;
  e_internal_score : option Q;
  e_result : option Z;
}.

(** A [pandas.DataFrame] built from such records: the column labels and
    the rows. A missing cell is [None]. *)
Record DataFrame : Type := {
  columns : list string;
  rows : list Enrollment;
}.

Definition cell (col : field) (r : Enrollment) : option Q :=
  match col with
  | attendance => e_attendance r
  | marks => e_marks r
  | internal_score => e_internal_score r
  | final_exam_score => None
  end.

(** [pd.DataFrame(records)]: the columns are the keys of the records, so
    a frame built from no record has no column at all. *)
Definition pd_DataFrame (records : list Enrollment) : DataFrame :=
  {| columns := match records with
                | [] => []
                | _ => ["attendance"; "marks"; "internal_score"; "result"]
                end;
     rows := records |}.

(** [df.dropna(subset=["result"])]: pandas raises [KeyError] when the
    label is not a column of the frame. *)
Definition dropna_result (df : DataFrame) : result DataFrame :=
  if bool_decide ("result" ∈ columns df)
  then Ok {| columns := columns df;
             rows := filter (λ r, is_Some (e_result r)) (rows df) |}
  else Raise (KeyError "result").

Definition _validate_columns (df : DataFrame) : result unit :=
  let missing_cols :=
    filter (λ col, col ∉ columns df) ((name_of <$> FEATURES) ++ ["result"]) in
  match missing_cols with
  | [] => Ok ()
  | _ => Raise (ValueError (MissingColumns missing_cols))
  end.

(** [Series.median()]: the middle of the sorted present values, the
    mean of the two middle ones for an even count, nan ([None]) when
    every value is missing. *)
Definition median (values : list Q) : option Q :=
  let sorted := sort_stable Qltb values in
  let n := length sorted in
  if Nat.eqb n 0 then None
  else if Nat.even n
       then Some ((nth (n / 2 - 1) sorted 0 + nth (n / 2) sorted 0) / 2)
       else Some (nth (n / 2) sorted 0).

Definition prepare_column (df : DataFrame) (col : field)
  : list (option Q) * (string * json) :=
  let values := cell col <$> rows df in
  let missing := length (filter (λ v, v = None) values) in
  if Nat.ltb 0 missing then
    let median_val := median (omap id values) in
    ((λ v, match v with Some q => Some q | None => median_val end) <$> values,
     (name_of col,
      JObj (<["imputed_count" := JNum (inject_Z (Z.of_nat missing))]>
            (<["median_used" := from_option JNum JNull median_val]> ∅))))
  else
    (values,
     (name_of col, JObj (<["imputed_count" := JNum 0]> ∅))).

(** The frame of features, column by column, and the imputation
    statistics. *)
Definition _prepare_features (df : DataFrame)
  : list (list (option Q)) * gmap string json :=
  let prepared := prepare_column df <$> FEATURES in
  (fst <$> prepared, list_to_map (snd <$> prepared)).

(** *** scikit-learn *)

(** A fitted [Pipeline(StandardScaler, LogisticRegression)]: the
    attributes the code reads. *)
Record Pipeline : Type := {
  coef_ : list Q;
  intercept_ : Q;
  mean_ : list Q;
  scale_ : list Q;
}.

Record Scores : Type := {
  test_accuracy : Q;
  test_precision : Q;
  test_recall : Q;
  test_f1 : Q;
}.

(** Rows of features and their labels. *)
Definition Dataset : Type := list (list Q) * list Z.

Class Sklearn : Type := {
  (** [_build_base_pipeline(random_state).fit(X, y)] *)
  fit : Z → Dataset → result Pipeline;
  (** the [cv=5] partition of [cross_validate]: (train, test) pairs *)
  kfold : Dataset → result (list (Dataset * Dataset));
  (** the four scorers on a test fold *)
  score : Pipeline → Dataset → Scores;
  (** [CalibratedClassifierCV(base, cv=5, method="sigmoid").fit(X, y)] *)
  fit_calibrated : Z → Dataset → result Model;
  roc_auc_score : list Z → list Q → Q;
  (** the thresholds of [roc_curve(y, y_scores)] *)
  roc_curve : list Z → list Q → list Q;
  (** [permutation_importance(...).importances_mean], or the exception *)
  permutation_importance : Pipeline → Dataset → result (list Q);
}.

Section Training.
Context `{Sklearn}.

Definition Qsum (l : list Q) : Q := foldr Qplus 0 l.

(** [np.mean(l)]. numpy answers nan for an empty list; the case is
    kept apart as an exception. *)
Definition np_mean (l : list Q) : result Q :=
  py_div (Qsum l) (inject_Z (Z.of_nat (length l))).

(** [np.mean(vs, axis=0)] for a list of vectors of one length. *)
Definition np_mean_axis0 (vs : list (list Q)) : result (list Q) :=
  match vs with
  | [] => Raise ZeroDivisionError
  | v :: _ =>
      if forallb (λ w, Nat.eqb (length w) (length v)) vs
      then forM (λ i, np_mean ((λ w, nth i w 0) <$> vs)) (seq 0 (length v))
      else Raise (ValueError (Library "inhomogeneous shape"))
  end.

(** [cross_validate(base_pipeline, X, y, cv=5, scoring=...,
    return_estimator=True, error_score="raise")]: a clone of the
    pipeline is fitted on the training part of each fold and scored on
    its test part. *)
Definition cross_validate (random_state : Z) (data : Dataset)
  : result (list (Pipeline * Scores)) :=
  folds ← kfold data;
  forM (λ '(train_part, test_part),
          estimator ← fit random_state train_part;
          Ok (estimator, score estimator test_part))
       folds.

Record Metrics : Type := {
  accuracy : Q;
  precision : Q;
  recall : Q;
  f1 : Q;
}.

Definition _compute_metrics (data : Dataset) (random_state : Z)
  : result (Metrics * list Q * Q) :=
  cv_results ← cross_validate random_state data;
  accuracy ← np_mean (test_accuracy ∘ snd <$> cv_results);
  precision ← np_mean (test_precision ∘ snd <$> cv_results);
  recall ← np_mean (test_recall ∘ snd <$> cv_results);
  f1 ← np_mean (test_f1 ∘ snd <$> cv_results);
  (* Average coefficients across folds for reference *)
  coefficients ← np_mean_axis0 (coef_ ∘ fst <$> cv_results);
  intercept ← np_mean (intercept_ ∘ fst <$> cv_results);
  Ok ({| accuracy := accuracy; precision := precision;
         recall := recall; f1 := f1 |},
      coefficients, intercept).

Definition _train_calibrated_model (data : Dataset) (random_state : Z)
  : result Model :=
  fit_calibrated random_state data.

Definition feature_dict (values : list Q) : json :=
  JObj (list_to_map (zip (name_of <$> FEATURES) (JNum <$> values))).

Definition _compute_permutation_importance (model : Pipeline) (data : Dataset)
  : json :=
  match permutation_importance model data with
  | Ok importances =>
      let total := Qsum (Qabs <$> importances) in
      let normalized :=
        if Qeq_bool total 0 then importances
        else (λ v, v / total) <$> importances in
      feature_dict normalized
  | Raise _ => feature_dict [0; 0; 0]
  end.

(** [_save_metadata]: the document at [metadata_path] is replaced by
    [metadata]; when the old document is a dict with a
    ["user_threshold"] and [metadata] has none, the entry is first
    copied into [metadata] (the caller's dict is updated in place, so
    the updated dict is returned as well). A file that cannot be
    read or parsed only produces a warning. *)
Definition _save_metadata (fs : FS) (metadata : gmap string json)
  : FS * gmap string json :=
  let metadata :=
    match metadata_file fs with
    | Some (Doc (JObj existing_metadata)) =>
        match existing_metadata !! "user_threshold",
              metadata !! "user_threshold" with
        | Some kept, None => <["user_threshold" := kept]> metadata
        | _, _ => metadata
        end
    | _ => metadata
    end in
  ({| model_file := model_file fs;
      metadata_file := Some (Doc (JObj metadata)) |},
   metadata).

(** [f1_score(y, preds, zero_division=0)] for the positive class 1. *)
Definition f1_score (y preds : list Z) : Q :=
  let pairs := zip y preds in
  let count (P : Z * Z → bool) := Z.of_nat (length (List.filter P pairs)) in
  let tp := count (λ '(t, p), Z.eqb t 1 && Z.eqb p 1) in
  let fp := count (λ '(t, p), negb (Z.eqb t 1) && Z.eqb p 1) in
  let fn := count (λ '(t, p), Z.eqb t 1 && negb (Z.eqb p 1)) in
  let denominator := (2 * tp + fp + fn)%Z in
  if Z.eqb denominator 0 then 0
  else inject_Z (2 * tp) / inject_Z denominator.

(** [(y_scores >= threshold).astype(int)] *)
Definition predictions_at (y_scores : list Q) (threshold : Q) : list Z :=
  (λ s, if Qle_bool threshold s then 1%Z else 0%Z) <$> y_scores.

(** One round of the loop over [thresholds]; the state is
    [(best_threshold, best_f1)]. *)
Definition threshold_step (y : list Z) (y_scores : list Q)
    (best : Q * Q) (threshold : Q) : Q * Q :=
  let current_f1 := f1_score y (predictions_at y_scores threshold) in
  if Qltb (snd best) current_f1 then (threshold, current_f1) else best.

Definition scan_thresholds (y : list Z) (y_scores thresholds : list Q) : Q * Q :=
  fold_left (threshold_step y y_scores) thresholds (3 # 5, - (1)).

Definition recommended_threshold (y : list Z) (y_scores thresholds : list Q) : Q :=
  Qmax (fst (scan_thresholds y y_scores thresholds)) (3 # 5).

(** [y.value_counts().to_dict()], keys as [json.dump] writes them. *)
Definition value_counts (y : list Z) : list (Z * nat) :=
  (λ cls, (cls, length (filter (λ v, v = cls) y))) <$> remove_dups y.

Definition require_finite (X : list (list (option Q))) : result (list (list Q)) :=
  forM (forM (λ v, match v with
                   | Some q => Ok q
                   | None => Raise (ValueError InputContainsNaN)
                   end)) X.

(** Columns to rows. *)
Definition rows_of (n : nat) (cols : list (list (option Q)))
  : list (list (option Q)) :=
  (λ i, (λ c, nth i c None) <$> cols) <$> seq 0 n.

(** The [metadata] dict literal of [train_model]. *)
Definition metadata_document (now : string) (class_counts : list (Z * nat))
    (class_distribution : list (string * json)) (imputation_stats : gmap string json)
    (coefficients : list Q) (intercept : Q) (permutation_importances : json)
    (metrics : Metrics) (roc_auc best_threshold : Q) (base_pipeline : Pipeline)
  : gmap string json :=
  <["generated_at" := JStr now]>
  (<["feature_names" := JArr (JStr ∘ name_of <$> FEATURES)]>
  (<["class_counts" :=
       JObj (list_to_map
         ((λ '(cls, count), (pretty cls, JNum (inject_Z (Z.of_nat count))))
            <$> class_counts))]>
  (<["class_distribution" := JObj (list_to_map class_distribution)]>
  (<["imputation" := JObj imputation_stats]>
  (<["coefficients" := feature_dict coefficients]>
  (<["intercept" := JNum intercept]>
  (<["permutation_importance" := permutation_importances]>
  (<["metrics_cv" :=
       JObj (<["accuracy" := JNum (accuracy metrics)]>
            (<["precision" := JNum (precision metrics)]>
            (<["recall" := JNum (recall metrics)]>
            (<["f1_score" := JNum (f1 metrics)]> ∅))))]>
  (<["roc_auc" := JNum roc_auc]>
  (<["recommended_threshold" := JNum best_threshold]>
  (<["scaler" :=
       JObj (<["mean" := nums (mean_ base_pipeline)]>
            (<["scale" := nums (scale_ base_pipeline)]> ∅))]>
   ∅))))))))))).

(** [train_model]. [now] is [datetime.utcnow().isoformat() + "Z"].
    Nothing is written before both fits have succeeded. *)
Definition train_model (now : string) (data : DataFrame) (fs : FS)
    (random_state : Z)
  : FS * result (Model * Metrics * gmap string json) :=
  let fitted :=
    _ ← _validate_columns data;
    let '(X_cols, imputation_stats) := _prepare_features data in
    (* y = data["result"].astype(int) *)
    y ← forM (λ r, match e_result r with
                   | Some v => Ok v
                   | None => Raise (ValueError InputContainsNaN)
                   end) (rows data);
    if Nat.ltb (length (remove_dups y)) 2
    then Raise (ValueError NeedTwoClasses)
    else
      let class_counts := value_counts y in
      class_distribution ←
        forM (λ '(cls, count),
                share ← py_div (inject_Z (Z.of_nat count))
                               (inject_Z (Z.of_nat (length y)));
                Ok (pretty cls, JNum share)) class_counts;
      X ← require_finite (rows_of (length (rows data)) X_cols);
      '(metrics, coefficients, intercept) ← _compute_metrics (X, y) random_state;
      base_pipeline ← fit random_state (X, y);
      calibrated_model ← _train_calibrated_model (X, y) random_state;
      y_scores ← predict_proba calibrated_model X;
      let roc_auc := roc_auc_score y y_scores in
      let thresholds := roc_curve y y_scores in
      let best_threshold := recommended_threshold y y_scores thresholds in
      let permutation_importances :=
        _compute_permutation_importance base_pipeline (X, y) in
      let metadata :=
        metadata_document now class_counts class_distribution imputation_stats
          coefficients intercept permutation_importances metrics roc_auc
          best_threshold base_pipeline in
      Ok (calibrated_model, metrics, metadata) in
  match fitted with
  | Raise e => (fs, Raise e)
  | Ok (calibrated_model, metrics, metadata) =>
      (* joblib.dump(calibrated_model, model_path) *)
      let fs := {| model_file := Some calibrated_model;
                   metadata_file := metadata_file fs |} in
      let '(fs, metadata) := _save_metadata fs metadata in
      (fs, Ok (calibrated_model, metrics, metadata))
  end.

Definition _to_dataframe_from_enrollments (enrollments : list Enrollment)
  : result DataFrame :=
  let df := pd_DataFrame enrollments in
  dropna_result df.

Definition train_from_db (now : string) (enrollments : list Enrollment) (fs : FS)
  : FS * result (Model * Metrics * gmap string json) :=
  match _to_dataframe_from_enrollments enrollments with
  | Raise e => (fs, Raise e)
  | Ok df =>
      if Nat.ltb (length (rows df)) 10
      then (fs, Raise (ValueError (InsufficientData (length (rows df)))))
      else train_model now df fs 42
  end.

(** The [(X, y)] that [train_model] hands to scikit-learn: the imputed
    features and the labels of the whole frame. *)
Definition training_set (data : DataFrame) : result Dataset :=
  y ← forM (λ r, match e_result r with
                 | Some v => Ok v
                 | None => Raise (ValueError InputContainsNaN)
                 end) (rows data);
  X ← require_finite (rows_of (length (rows data)) (fst (_prepare_features data)));
  Ok (X, y).

End Training.

End train.

Export train.

(** ** [app/ml/predictor.py] *)

Module predictor.

(** What the module takes from the Python runtime and numpy. *)
Class Runtime : Type := {
  (** [float(s)] on a string: [None] when it raises [ValueError] *)
  float_of_str : string → option pyfloat;
  np_exp : Q → Q;
  np_log : Q → Q;
}.

Definition BOUNDS (name : field) : Q * Q :=
  match name with
  | attendance => (0, 100)
  | marks => (0, 100)
  | internal_score => (0, 100)
  | final_exam_score => (0, 100)
  end.

(** The instance after [__init__]: [self.model] is never [None] then. *)
Record Predictor : Type := {
  model : Model;
  metadata : json;
  threshold : Q;
}.

(** [features]: the dict with the three fixed keys. *)
Record Features : Type := {
  f_attendance : Q;
  f_marks : Q;
  f_internal_score : Q;
}.

(** [[features[feat] for feat in FEATURES]] *)
Definition raw_vector_of (features : Features) : list Q :=
  [f_attendance features; f_marks features; f_internal_score features].

Inductive Priority : Type := high | medium | low.

(** The text of [suggested_change], by its parts:
    "Increase {feature} by {by} {unit} ({from} → {to})". *)
Record Change : Type := {
  change_by : Z;
  change_unit : string;
  change_from : Z;
  change_to : Z;
}.

Record Suggestion : Type := {
  feature : field;
  current_value : Q;
  suggested_change : Change;
  estimated_probability_gain : Q;
  new_probability_estimate : Q;
  priority : Priority;
  explanation_tip : string;
}.

Inductive Effect : Type := increase | decrease | neutral.

Record Reason : Type := {
  reason_feature : field;
  effect : Effect;
  contribution : Q;
}.

Record Explanation : Type := {
  top_reasons : list Reason;
  feature_importances : json;
  coefficients : json;
}.

(** The sentences of [feedback_paragraph], in order. *)
Inductive Sentence : Type :=
  | Opening (passed : bool) (proba : Q)
  | LowAttendance
  | LowMarks
  | LowInternalScore
  | NextStep (change : Change) (gain new_probability : Q)
  | UnusualInputs
  | Closing.

Record Response : Type := {
  predicted_result : Z;
  probability : Q;
  threshold_used : Q;
  suspicious_input : bool;
  explanation : Explanation;
  feedback : list Suggestion;
  feedback_paragraph : list Sentence;
  suspicious_reasons : option (list string);
  notes : option string;
  response_final_exam_score : option Q;
}.

Record BatchResult : Type := {
  b_student_id : option Z;
  b_course_id : option Z;
  b_predicted_result : Z;
  b_probability : Q;
  b_threshold_used : Q;
  b_suspicious_input : bool;
  b_explanation : Explanation;
  b_suspicious_reasons : option (list string);
}.

(** A call of a public method: the matrices passed to
    [model.predict_proba], in order, and how the call ended. *)
Record Call (A : Type) : Type := {
  inferences : list (list (list Q));
  outcome : result A;
}.
Arguments inferences {A} _.
Arguments outcome {A} _.

Section Methods.
Context `{Runtime}.

(** [0.0 < x < 1.0] *)
Definition in_open_unit (q : Q) : bool := Qltb 0 q && Qltb q 1.

Definition py_float_str (s : string) : result pyfloat :=
  match float_of_str s with
  | Some x => Ok x
  | None => Raise (ValueError NotAFloat)
  end.

(** [threshold if 0.0 < threshold < 1.0]: nan and the infinities fail
    the comparison. *)
Definition float_in_open_unit (x : pyfloat) : option Q :=
  match x with
  | Finite q => if in_open_unit q then Some q else None
  | _ => None
  end.

(** The [PRED_THRESHOLD] block shared by [Predictor._resolve_threshold]
    and [main._resolve_threshold_with_source]: [Some t] when the
    function returns [t] from it, [None] when control falls through. *)
Definition env_override (env_threshold : option string) : result (option Q) :=
  match env_threshold with
  | None => Ok None
  | Some s =>
      if String.eqb s "" then Ok None
      else
        match threshold ← py_float_str s; Ok (float_in_open_unit threshold) with
        | Raise (ValueError _) => Ok None      (* except ValueError: warning *)
        | r => r
        end
  end.

(** [isinstance(v, (float, int)) and 0.0 < float(v) < 1.0]; a bool is
    an int for [isinstance]. *)
Definition metadata_threshold (v : option json) : option Q :=
  match v with
  | Some (JNum q) => if in_open_unit q then Some q else None
  | Some (JBool b) =>
      let q := if b then 1 else 0 in
      if in_open_unit q then Some q else None
  | _ => None
  end.

Definition _resolve_threshold (env_threshold : option string) (metadata : json)
  : result Q :=
  from_env ← env_override env_threshold;
  match from_env with
  | Some threshold => Ok threshold
  | None =>
      let user_defined := dict_get metadata "user_threshold" in
      match metadata_threshold user_defined with
      | Some t => Ok t
      | None =>
          let recommended := dict_get metadata "recommended_threshold" in
          match metadata_threshold recommended with
          | Some t => Ok t
          | None => Ok (3 # 5)
          end
      end
  end.

(** [Predictor(model_path, metadata_path)] *)
Definition _load_model_and_metadata (env_threshold : option string) (fs : FS)
  : result Predictor :=
  match model_file fs with
  | None => Raise FileNotFoundError
  | Some loaded =>
      metadata ← match metadata_file fs with
                 | Some (Doc j) => Ok j
                 | Some Corrupt => Raise JSONDecodeError
                 | None => Ok (JObj ∅)
                 end;
      threshold ← _resolve_threshold env_threshold metadata;
      Ok {| model := loaded; metadata := metadata; threshold := threshold |}
  end.

Definition _validate_range (name : field) (value : pyval) : result Q :=
  match value with
  | PNone => Raise (InvalidInputError (Required name))
  | PNonNumeric => Raise (InvalidInputError (MustBeNumber name))
  | PFloat numeric_value =>
      let '(lo, hi) := BOUNDS name in
      match numeric_value with
      | Finite q =>
          if Qle_bool lo q && Qle_bool q hi then Ok q
          else Raise (InvalidInputError (OutOfRange name lo hi numeric_value))
      | _ => Raise (InvalidInputError (OutOfRange name lo hi numeric_value))
      end
  end.

Definition note_zero_marks : string :=
  "Marks are zero while internal score is high; please verify scores.".
Definition note_low_attendance : string :=
  "Attendance is very low compared to high marks. Double-check attendance entry.".
Definition note_low_final : string :=
  "Final exam score is low despite high overall marks; confirm final exam data.".

Definition _collect_suspicion_markers (features : Features)
    (final_exam_score : option Q) : list string :=
  (if Qeq_bool (f_marks features) 0 && Qle_bool 60 (f_internal_score features)
   then [note_zero_marks] else [])
  ++ (if Qltb (f_attendance features) 40 && Qle_bool 80 (f_marks features)
      then [note_low_attendance] else [])
  ++ (match final_exam_score with
      | Some final =>
          if Qltb final 20 && Qle_bool 70 (f_marks features)
          then [note_low_final] else []
      | None => []
      end).

Definition _standardize (metadata : json) (raw_features : list Q)
  : result (list Q) :=
  let scaler := dict_get_or metadata "scaler" (JObj ∅) in
  mean_json ← py_get scaler "mean" (nums [0; 0; 0]);
  mean ← np_array mean_json;
  scale_json ← py_get scaler "scale" (nums [1; 1; 1]);
  scale ← np_array scale_json;
  let scale := np_where_zero_one scale in
  centered ← np_broadcast Qminus raw_features mean;
  np_divide centered scale.

Definition _derive_top_reasons (contributions : list (field * Q)) : list Reason :=
  let ranked :=
    sort_stable (λ a b, Qltb (Qabs (snd b)) (Qabs (snd a))) contributions in
  (λ '(feature, value),
     {| reason_feature := feature;
        effect := if Qltb 0 value then increase
                  else if Qltb value 0 then decrease else neutral;
        contribution := value |}) <$> take 3 ranked.

Definition _build_explanation (metadata : json) (raw_vector : list Q)
  : result Explanation :=
  let coefficients := dict_get_or metadata "coefficients" (JObj ∅) in
  let permutation_importance := dict_get metadata "permutation_importance" in
  standardized ← _standardize metadata raw_vector;
  contributions ←
    forM (λ '(idx, feature),
            weight_json ← py_get coefficients (name_of feature) (JNum 0);
            weight ← py_float weight_json;
            value ← index standardized idx;
            Ok (feature, value * weight))
         (enumerate FEATURES);
  let top_reasons := _derive_top_reasons contributions in
  let absolute :=
    JObj (list_to_map ((λ '(feature, value), (name_of feature, JNum (Qabs value)))
                         <$> contributions)) in
  let feature_importances :=
    match permutation_importance with
    | Some v => if truthy v then v else absolute
    | None => absolute
    end in
  Ok {| top_reasons := top_reasons;
        feature_importances := feature_importances;
        coefficients := coefficients |}.

Definition _sigmoid (z : Q) : result Q :=
  py_div 1 (1 + np_exp (- z)).

Definition _logit (p : Q) : result Q :=
  let eps := 1 # 1000000 in
  let p := Qmin (Qmax p eps) (1 - eps) in
  odds ← py_div p (1 - p);
  Ok (np_log odds).

Definition _feature_tip (feature : field) : string :=
  match feature with
  | marks =>
      "Practice previous year papers, focus on weak chapters, get 1-on-1 tutoring."
  | attendance =>
      "Attend more lectures and labs, attend office hours, increase attendance by up to +10%."
  | internal_score =>
      "Submit all assignments, improve assignment quality, discuss rubrics with teacher, up to +10 points."
  | final_exam_score => "Focus improvement efforts on this area."
  end.

Definition _build_feedback_paragraph (features : Features) (proba : Q)
    (passed : bool) (suggestions : list Suggestion) (suspicion_notes : list string)
  : list Sentence :=
  [Opening passed proba]
  ++ (if Qltb (f_attendance features) 60 then [LowAttendance] else [])
  ++ (if Qltb (f_marks features) 60 then [LowMarks] else [])
  ++ (if Qltb (f_internal_score features) 60 then [LowInternalScore] else [])
  ++ (match suggestions with
      | top :: _ => [NextStep (suggested_change top)
                              (estimated_probability_gain top)
                              (new_probability_estimate top)]
      | [] => []
      end)
  ++ (match suspicion_notes with _ :: _ => [UnusualInputs] | [] => [] end)
  ++ [Closing].

(** Max suggested increases per feature (caps) *)
Definition max_increase (feature : field) : result Q :=
  match feature with
  | attendance => Ok 10
  | marks => Ok 15
  | internal_score => Ok 10
  | final_exam_score => Raise (KeyError "final_exam_score")
  end.

Definition priority_rank (p : Priority) : nat :=
  match p with high => 0 | medium => 1 | low => 2 end.

(** The sort key [(priority_rank[s["priority"]], -gain)], compared as
    Python compares tuples. *)
Definition suggestion_before (a b : Suggestion) : bool :=
  let ra := priority_rank (priority a) in
  let rb := priority_rank (priority b) in
  Nat.ltb ra rb
  || (Nat.eqb ra rb
      && Qltb (- estimated_probability_gain a) (- estimated_probability_gain b)).

(** The body of the loop over [enumerate(FEATURES)]: [None] is
    [continue]. *)
Definition suggest (coefficients : json) (scales : list Q) (raw_vector : list Q)
    (base_prob base_logit : Q) (idx : nat) (feature : field)
  : result (option Suggestion) :=
  current_value ← index raw_vector idx;
  cap ← max_increase feature;
  let delta_value := Qmin cap (100 - current_value) in
  if Qle_bool delta_value 0 then Ok None
  else
    coef_json ← py_get coefficients (name_of feature) (JNum 0);
    coef ← py_float coef_json;
    let scale := if Nat.ltb idx (length scales) then nth idx scales 1 else 1 in
    delta_scaled ← py_div delta_value (if Qeq_bool scale 0 then 1 else scale);
    let delta_log_odds := coef * delta_scaled in
    new_prob ← _sigmoid (base_logit + delta_log_odds);
    let gain := Qmax 0 (new_prob - base_prob) in
    let priority :=
      if Qltb gain (1 # 200) then low
      else if Qltb gain (1 # 10) then medium
      else high in
    let unit := match feature with attendance => "%" | _ => "points" end in
    Ok (Some {| feature := feature;
                current_value := current_value;
                suggested_change :=
                  {| change_by := py_round delta_value;
                     change_unit := unit;
                     change_from := py_round current_value;
                     change_to := py_round (current_value + delta_value) |};
                estimated_probability_gain := gain;
                new_probability_estimate := new_prob;
                priority := priority;
                explanation_tip := _feature_tip feature |}).

Definition _compute_feedback (metadata : json) (raw_vector : list Q) (base_prob : Q)
  : result (list Suggestion) :=
  let coefficients := dict_get_or metadata "coefficients" (JObj ∅) in
  let scaler := dict_get_or metadata "scaler" (JObj ∅) in
  scales_json ← py_get scaler "scale" (nums [1; 1; 1]);
  scales ← np_array scales_json;
  base_logit ← _logit base_prob;
  found ← forM (λ '(idx, feature),
                  suggest coefficients scales raw_vector base_prob base_logit
                          idx feature)
               (enumerate FEATURES);
  let suggestions := omap id found in
  (* Sort by priority then by gain desc *)
  Ok (sort_stable suggestion_before suggestions).

(** The three features, then [final_exam_score] when it is given. *)
Definition validate_features (attendance marks internal_score : pyval)
  : result Features :=
  a ← _validate_range Py.attendance attendance;
  m ← _validate_range Py.marks marks;
  i ← _validate_range Py.internal_score internal_score;
  Ok {| f_attendance := a; f_marks := m; f_internal_score := i |}.

Definition validate_final (final_exam_score : pyval) : result (option Q) :=
  match final_exam_score with
  | PNone => Ok None
  | v => q ← _validate_range Py.final_exam_score v; Ok (Some q)
  end.

Definition label_of (proba threshold : Q) : Z :=
  if Qle_bool threshold proba then 1%Z else 0%Z.

Definition predict (self : Predictor)
    (attendance marks internal_score final_exam_score : pyval) : Call Response :=
  match features ← validate_features attendance marks internal_score;
        final ← validate_final final_exam_score;
        Ok (features, final) with
  | Raise e => {| inferences := []; outcome := Raise e |}
  | Ok (features, final) =>
      let suspicion_notes := _collect_suspicion_markers features final in
      let raw_vector := raw_vector_of features in
      {| inferences := [[raw_vector]];
         outcome :=
           scores ← predict_proba (model self) [raw_vector];
           proba ← index scores 0;
           let prediction := label_of proba (threshold self) in
           explanation ← _build_explanation (metadata self) raw_vector;
           feedback ← _compute_feedback (metadata self) raw_vector proba;
           let feedback_paragraph :=
             _build_feedback_paragraph features proba (Z.eqb prediction 1)
                                       feedback suspicion_notes in
           let flagged := match suspicion_notes with [] => false | _ => true end in
           Ok {| predicted_result := prediction;
                 probability := proba;
                 threshold_used := threshold self;
                 suspicious_input := flagged;
                 explanation := explanation;
                 feedback := feedback;
                 feedback_paragraph := feedback_paragraph;
                 suspicious_reasons :=
                   if flagged then Some suspicion_notes else None;
                 notes :=
                   if flagged
                   then Some "Inputs inconsistent: please verify values (e.g., zero marks with high internal score)."
                   else None;
                 response_final_exam_score := final |} |}
  end.

(** The first loop of [predict_batch], for one item. *)
Definition process_item (item : BatchItem)
  : result (BatchItem * Features * list string) :=
  features ←
    match validate_features (item_attendance item) (item_marks item)
                            (item_internal_score item) with
    | Raise (InvalidInputError exc) =>
        Raise (InvalidInputError (InvalidBatchItem item exc))
    | r => r
    end;
  final ← validate_final (item_final_exam_score item);
  let suspicion_notes := _collect_suspicion_markers features final in
  Ok (item, features, suspicion_notes).

(** The second loop, for one processed item. *)
Definition batch_result (self : Predictor) (predictions : list Q)
    (idx : nat) (processed : BatchItem * Features * list string)
  : result BatchResult :=
  let '(meta, features, item_notes) := processed in
  proba ← index predictions idx;
  let label := label_of proba (threshold self) in
  explanation ← _build_explanation (metadata self) (raw_vector_of features);
  let flagged := match item_notes with [] => false | _ => true end in
  Ok {| b_student_id := student_id meta;
        b_course_id := course_id meta;
        b_predicted_result := label;
        b_probability := proba;
        b_threshold_used := threshold self;
        b_suspicious_input := flagged;
        b_explanation := explanation;
        b_suspicious_reasons := if flagged then Some item_notes else None |}.

Definition predict_batch (self : Predictor) (data : list BatchItem)
  : Call (list BatchResult) :=
  match forM process_item data with
  | Raise e => {| inferences := []; outcome := Raise e |}
  | Ok processed_inputs =>
      let features_matrix := (λ p, raw_vector_of (snd (fst p))) <$> processed_inputs in
      {| inferences := [features_matrix];
         outcome :=
           predictions ← predict_proba (model self) features_matrix;
           forM (λ '(idx, processed), batch_result self predictions idx processed)
                (enumerate processed_inputs) |}
  end.

End Methods.

End predictor.

Export predictor.

(** ** [app/main.py]: the threshold reported by [GET /api/settings/threshold] *)

Module main.

Inductive Source : Type :=
  | from_env
  | from_metadata_user
  | from_metadata_recommended
  | from_default.

Section Threshold.
Context `{Runtime}.

Definition _resolve_threshold_with_source (env_threshold : option string) (fs : FS)
  : result (Q * Source) :=
  (* the block has no warning for a value out of range, and is the
     same otherwise *)
  override ← env_override env_threshold;
  match override with
  | Some threshold => Ok (threshold, from_env)
  | None =>
      match metadata_file fs with
      | Some (Doc (JObj metadata)) =>
          match metadata_threshold (metadata !! "user_threshold") with
          | Some t => Ok (t, from_metadata_user)
          | None =>
              match metadata_threshold (metadata !! "recommended_threshold") with
              | Some t => Ok (t, from_metadata_recommended)
              | None => Ok (3 # 5, from_default)
              end
          end
      | _ => Ok (3 # 5, from_default)
      end
  end.
End Threshold.

End main.

Export main.

(** ** A concrete runtime, learner and data set

    Stand-ins for the libraries, small enough to evaluate: they are used
    to run the functions above on concrete inputs. *)

Module fixture.

(** [float()] on the few strings used below. *)
Definition demo_float (s : string) : option pyfloat :=
  if String.eqb s "0.5" then Some (Finite (1 # 2))
  else if String.eqb s "0.75" then Some (Finite (3 # 4))
  else if String.eqb s "1.5" then Some (Finite (3 # 2))
  else if String.eqb s "nan" then Some NaN
  else if String.eqb s "inf" then Some PosInf
  else None.

(** A positive, increasing stand-in for the exponential and its
    inverse. *)
Definition demo_exp (z : Q) : Q :=
  if Qltb z 0 then 1 / (1 - z) else 1 + z.

Definition demo_log (x : Q) : Q :=
  if Qltb x 1 then 1 - 1 / x else x - 1.

#[export] Instance demo_runtime : Runtime := {|
  float_of_str := demo_float;
  np_exp := demo_exp;
  np_log := demo_log;
|}.

Definition dot (u v : list Q) : Q := Qsum (zip_with Qmult u v).

(** [1/2 + z / (2 (1 + |z|))], a value strictly between 0 and 1. *)
Definition squash (z : Q) : Q := (1 # 2) + z / (2 * (1 + Qabs z)).

Definition column_means (X : list (list Q)) : list Q :=
  (λ i, Qsum ((λ r, nth i r 0) <$> X) / inject_Z (Z.of_nat (length X))) <$> seq 0 3.

Definition rows_of_class (cls : Z) (data : Dataset) : list (list Q) :=
  fst <$> List.filter (λ p, Z.eqb (snd p) cls) (zip (fst data) (snd data)).

(** A centroid learner: the weight of a feature is the gap between its
    mean among the passes and its mean among the fails, in units of 100
    points. *)
Definition demo_fit (random_state : Z) (data : Dataset) : result Pipeline :=
  let passes := rows_of_class 1 data in
  let fails := rows_of_class 0 data in
  match passes, fails with
  | _ :: _, _ :: _ =>
      let mu := column_means (fst data) in
      let w := zip_with (λ a b, (a - b) / 100) (column_means passes) (column_means fails) in
      Ok {| coef_ := w; intercept_ := - dot w mu; mean_ := mu; scale_ := [1; 1; 1] |}
  | _, _ => Raise (ValueError (Library "one class"))
  end.

Definition demo_decision (p : Pipeline) (x : list Q) : Q :=
  dot (coef_ p) (zip_with Qminus x (mean_ p)).

Definition demo_fit_calibrated (random_state : Z) (data : Dataset) : result Model :=
  p ← demo_fit random_state data;
  Ok {| predict_proba_row := λ x, squash (demo_decision p x) |}.

(** Five folds of consecutive rows. *)
Definition demo_kfold (data : Dataset) : result (list (Dataset * Dataset)) :=
  let n := length (fst data) in
  let k := (n / 5)%nat in
  if Nat.eqb k 0 then Raise (ValueError (Library "n_splits=5 greater than the number of samples"))
  else
    Ok ((λ i,
           let part {A} (l : list A) := (take (i * k) l ++ drop (i * k + k) l,
                                         take k (drop (i * k) l)) in
           ((fst (part (fst data)), fst (part (snd data))),
            (snd (part (fst data)), snd (part (snd data))))) <$> seq 0 5).

Definition ratio (a b : nat) : Q :=
  if Nat.eqb b 0 then 0 else inject_Z (Z.of_nat a) / inject_Z (Z.of_nat b).

Definition demo_score (p : Pipeline) (test : Dataset) : Scores :=
  let preds := (λ x, if Qle_bool 0 (demo_decision p x) then 1%Z else 0%Z) <$> fst test in
  let pairs := zip (snd test) preds in
  let count (P : Z * Z → bool) := length (List.filter P pairs) in
  let tp := count (λ '(t, q), Z.eqb t 1 && Z.eqb q 1) in
  let fp := count (λ '(t, q), negb (Z.eqb t 1) && Z.eqb q 1) in
  let fn := count (λ '(t, q), Z.eqb t 1 && negb (Z.eqb q 1)) in
  {| test_accuracy := ratio (count (λ '(t, q), Z.eqb t q)) (length pairs);
     test_precision := ratio tp (tp + fp);
     test_recall := ratio tp (tp + fn);
     test_f1 := f1_score (snd test) preds |}.

(** The share of (pass, fail) pairs that the scores order correctly. *)
Definition demo_roc_auc (y : list Z) (scores : list Q) : Q :=
  let pos := snd <$> List.filter (λ p, Z.eqb (fst p) 1) (zip y scores) in
  let neg := snd <$> List.filter (λ p, negb (Z.eqb (fst p) 1)) (zip y scores) in
  let wins := length (List.filter (λ '(a, b), Qltb b a) (list_prod pos neg)) in
  ratio wins (length pos * length neg).

(** A sentinel above every score, then the scores from the highest
    down. *)
Definition demo_roc_curve (y : list Z) (scores : list Q) : list Q :=
  let sorted := sort_stable (λ a b, Qltb b a) scores in
  match sorted with
  | [] => []
  | top :: _ => (top + 1) :: sorted
  end.

#[export] Instance demo_sklearn : Sklearn := {|
  fit := demo_fit;
  kfold := demo_kfold;
  score := demo_score;
  fit_calibrated := demo_fit_calibrated;
  roc_auc_score := demo_roc_auc;
  roc_curve := demo_roc_curve;
  permutation_importance := λ p _, Ok (Qabs <$> coef_ p);
|}.

Definition enrollment (a m i : Q) (r : Z) : Enrollment :=
  {| e_attendance := Some a; e_marks := Some m;
     e_internal_score := Some i; e_result := Some r |}.

Definition demo_enrollments : list Enrollment :=
  [ enrollment 35 20 14 0; enrollment 45 40 38 0;
    enrollment 55 60 62 0; enrollment 95 95 100 1;
    enrollment 56 0 70 0;  enrollment 85 80 94 1;
    enrollment 75 60 70 1; enrollment 92 88 84 1;
    enrollment 65 20 26 0; enrollment 65 80 86 1 ].

Definition empty_fs : FS := {| model_file := None; metadata_file := None |}.

Definition demo_now : string := "2024-01-01T00:00:00Z".

Definition item (a m i fin : pyval) : BatchItem :=
  {| student_id := Some 1%Z; course_id := Some 7%Z;
     item_attendance := a; item_marks := m;
     item_internal_score := i; item_final_exam_score := fin |}.

Definition num (q : Q) : pyval := PFloat (Finite q).

Definition demo_frame : DataFrame := pd_DataFrame demo_enrollments.

(** A first training run on an empty directory, by its parts. *)
Definition demo_fs : FS := fst (train_model demo_now demo_frame empty_fs 42).

Definition demo_model : Model :=
  match snd (train_model demo_now demo_frame empty_fs 42) with
  | Ok (m, _, _) => m
  | Raise _ => {| predict_proba_row := λ _, 0 |}
  end.

Definition demo_metrics : Metrics :=
  match snd (train_model demo_now demo_frame empty_fs 42) with
  | Ok (_, metrics, _) => metrics
  | Raise _ => {| accuracy := 0; precision := 0; recall := 0; f1 := 0 |}
  end.

Definition demo_metadata : gmap string json :=
  match snd (train_model demo_now demo_frame empty_fs 42) with
  | Ok (_, _, md) => md
  | Raise _ => ∅
  end.




(** The same directory after an administrator has set a threshold. *)
Definition admin_metadata : gmap string json :=
  <["user_threshold" := JNum (2 # 5)]> demo_metadata.

Definition admin_fs : FS :=
  {| model_file := model_file demo_fs;
     metadata_file := Some (Doc (JObj admin_metadata)) |}.

(** The run that follows. *)
Definition retrained_fs : FS := fst (train_model demo_now demo_frame admin_fs 42).

Definition retrained_metadata : gmap string json :=
  match snd (train_model demo_now demo_frame admin_fs 42) with
  | Ok (_, _, md) => md
  | Raise _ => ∅
  end.

Definition retrained_model : Model :=
  match snd (train_model demo_now demo_frame admin_fs 42) with
  | Ok (m, _, _) => m
  | Raise _ => {| predict_proba_row := λ _, 0 |}
  end.

Definition retrained_metrics : Metrics :=
  match snd (train_model demo_now demo_frame admin_fs 42) with
  | Ok (_, metrics, _) => metrics
  | Raise _ => {| accuracy := 0; precision := 0; recall := 0; f1 := 0 |}
  end.

(** The predictor loaded from the first run, without [PRED_THRESHOLD]. *)
Definition demo_predictor : Predictor :=
  match _load_model_and_metadata None demo_fs with
  | Ok self => self
  | Raise _ => {| model := demo_model; metadata := JNull; threshold := 0 |}
  end.

(** The same predictor over a document whose scale vector has lost an
    entry. *)
Definition short_scale_predictor : Predictor :=
  {| model := demo_model;
     metadata :=
       JObj (<["scaler" := JObj (<["mean" := nums [60; 50; 60]]>
                                (<["scale" := nums [20; 25]]> ∅))]>
             demo_metadata);
     threshold := 3 # 5 |}.

End fixture.

(** ** Vocabulary of the properties *)

Module spec.

(** F1 of the labels [y] against the scores cut at [threshold]. *)
Definition f1_at (y : list Z) (y_scores : list Q) (threshold : Q) : Q :=
  f1_score y (predictions_at y_scores threshold).

(** The enrollments with a result. *)
Definition labeled (enrollments : list Enrollment) : list Enrollment :=
  filter (λ r, is_Some (e_result r)) enrollments.





(** *** Threshold precedence, in the words of the design document *)






(** *** Suggestions *)

(** The validated value of a feature. *)
Definition value_of (features : Features) (feat : field) : option Q :=
  match feat with
  | attendance => Some (f_attendance features)
  | marks => Some (f_marks features)
  | internal_score => Some (f_internal_score features)
  | final_exam_score => None
  end.

(** The increase a suggestion may propose: the cap of the feature
    (attendance 10, marks 15, internal score 10), and never beyond
    100. *)
Definition allowed_increase (feat : field) (current : Q) : Q :=
  match feat with
  | attendance => Qmin 10 (100 - current)
  | marks => Qmin 15 (100 - current)
  | internal_score => Qmin 10 (100 - current)
  | final_exam_score => 0
  end.

(** High before medium before low; within a priority, the larger gain
    first. *)
Definition suggestion_le (a b : Suggestion) : Prop :=
  (priority_rank (priority a) < priority_rank (priority b))%nat
  ∨ (priority a = priority b
     ∧ estimated_probability_gain b <= estimated_probability_gain a).

(** *** The three rules of the suspicion detector *)

Definition rule_zero_marks (features : Features) : Prop :=
  f_marks features == 0 ∧ 60 <= f_internal_score features.

Definition rule_low_attendance (features : Features) : Prop :=
  f_attendance features < 40 ∧ 80 <= f_marks features.

Definition rule_low_final (features : Features) (final : option Q) : Prop :=
  ∃ score, final = Some score ∧ score < 20 ∧ 70 <= f_marks features.

(** *** Metadata documents the predictor can explain with

    The scaler, when there is one, is a dict whose mean and scale, when
    present, are vectors of three numbers; the coefficients, when
    present, are a dict that maps features to numbers. *)
Definition vector3 (scaler : gmap string json) (key : string) : Prop :=
  scaler !! key = None
  ∨ ∃ l, scaler !! key = Some (nums l) ∧ length l = 3%nat.

Definition well_formed (md : json) : Prop :=
  (∃ scaler, dict_get_or md "scaler" (JObj ∅) = JObj scaler
             ∧ vector3 scaler "mean" ∧ vector3 scaler "scale")
  ∧ (∃ weights, dict_get_or md "coefficients" (JObj ∅) = JObj weights
                ∧ ∀ feat, weights !! name_of feat = None
                          ∨ ∃ q, weights !! name_of feat = Some (JNum q)).

(** What [predict] and [predict_batch] promise about one result. *)
Definition consistent (threshold proba threshold_used : Q) (label : Z) : Prop :=
  0 <= proba ∧ proba <= 1
  ∧ threshold_used = threshold
  ∧ (label = 1%Z ∨ label = 0%Z)
  ∧ (label = 1%Z ↔ threshold_used <= proba).

End spec.

Export spec.

(** ** [app/crud.py]: the queries the endpoints use *)

Module crud.

(** A row of the [enrollments] table. *)
Record EnrollmentRow : Type := {
  row_student_id : Z;
  row_course_id : Z;
  row_marks : option Q;
  row_attendance : option Q;
  row_internal_score : option Q;
  row_final_exam_score : option Q;
  row_result : option Z;
}.

Record Student : Type := {
  s_student_id : Z;
  s_name : string;
  s_dept_id : option Z;
}.

(** [get_training_data]: the rows whose three features and result are
    all present. *)
Definition get_training_data (db : list EnrollmentRow) : list EnrollmentRow :=
  List.filter (λ e, bool_decide (is_Some (row_attendance e))
                    && bool_decide (is_Some (row_marks e))
                    && bool_decide (is_Some (row_internal_score e))
                    && bool_decide (is_Some (row_result e))) db.

Definition get_all_enrollments_for_batch_prediction (db : list EnrollmentRow)
  : list EnrollmentRow := db.

(** [.offset(skip).limit(limit).all()] on the default SQLite database: a
    negative offset counts as zero, a negative limit as no limit. *)
Definition offset_limit {A} (skip limit : Z) (table : list A) : list A :=
  let rest := drop (Z.to_nat skip) table in
  if (limit <? 0)%Z then rest else take (Z.to_nat limit) rest.

(** [get_students]: one page and the number of students. *)
Definition get_students (students : list Student) (skip limit : Z)
  : list Student * Z :=
  (offset_limit skip limit students, Z.of_nat (length students)).

End crud.

(** ** [app/main.py]: the endpoints *)

Module endpoints.

Import crud.

(** The [detail] of an [HTTPException], by its parts. *)
Inductive detail : Type :=
  | OfException (e : exn)                     (* str(exc) *)
  | ModelNotTrained                           (* "Model not trained yet. ..." *)
  | PredictionError (e : exn)                 (* "Prediction error: {exc}" *)
  | NoCompleteEnrollments                     (* "No enrollments with complete data ..." *)
  | BatchPredictionError (e : exn)            (* "Batch prediction error: {exc}" *)
  | BatchPredictionErrorOf (status : nat) (inner : detail)
                                              (* the same, around an HTTPException *)
  | InsufficientTrainingData (got : nat)      (* "... Need at least 10 samples ..., got {n}" *)
  | TrainingError (e : exn)                   (* "Training error: {e}" *)
  | ThresholdOutOfRange                       (* "Threshold must be between 0 and 1." *)
  | AuthorizationHeaderMissing                (* "Authorization header missing" *)
  | InvalidAdminToken                         (* "Invalid admin token" *)
  | InvalidAuthorizationHeaderFormat.         (* "Invalid authorization header format" *)

(** How a handler ends: a body, an [HTTPException], or an exception that
    nothing in the handler catches. *)
Inductive http (A : Type) : Type :=
  | Respond (body : A)
  | HTTPException (status : nat) (d : detail)
  | Unhandled (e : exn).
Arguments Respond {A} body.
Arguments HTTPException {A} status d.
Arguments Unhandled {A} e.

(** [isinstance(e, ValueError)]: [InvalidInputError] and
    [json.JSONDecodeError] are subclasses. *)
Definition is_ValueError (e : exn) : bool :=
  match e with
  | ValueError _ | InvalidInputError _ | JSONDecodeError => true
  | _ => false
  end.

(** [schemas.PredictRequest], as pydantic hands it over. *)
Record PredictRequest : Type := {
  req_attendance : pyfloat;
  req_marks : pyfloat;
  req_internal_score : pyfloat;
  req_final_exam_score : option pyfloat;
}.

Record RetrainResponse : Type := {
  r_accuracy : Q;
  r_precision : Q;
  r_recall : Q;
  r_f1_score : Q;
  r_roc_auc : option json;
  r_timestamp : string;
  r_samples_used : nat;
  r_class_distribution : json;
  r_class_counts : json;
  r_recommended_threshold : json;
  r_metrics_cv : json;
  r_user_threshold : option json;
}.

Record PaginatedStudents : Type := {
  items : list Student;
  total : Z;
  page : Z;
  limit : Z;
  pages : Z;
}.

(** [s.replace(old, new)] for a non-empty [old]: the occurrences of
    [old] are replaced from left to right, without overlap. [skip] counts
    the characters of a matched occurrence that are still to be passed. *)
Fixpoint replace_from (old new : string) (skip : nat) (s : string) : string :=
  match s with
  | EmptyString => EmptyString
  | String c rest =>
      match skip with
      | S n => replace_from old new n rest
      | O =>
          if String.prefix old s
          then String.append new (replace_from old new (String.length old - 1) rest)
          else String c (replace_from old new O rest)
      end
  end.

Definition str_replace (old new s : string) : string := replace_from old new 0 s.

(** [verify_admin_token]. The [HTTPException] for a wrong token is
    raised inside the [try] and so meets [except Exception]. *)
Definition verify_admin_token (ADMIN_TOKEN : string) (authorization : option string)
  : http unit :=
  match authorization with
  | None => HTTPException 401 AuthorizationHeaderMissing
  | Some authorization =>
      if String.eqb authorization ""
      then HTTPException 401 AuthorizationHeaderMissing
      else
        let attempt : http unit :=
          let token := str_replace "Bearer " "" authorization in
          if negb (String.eqb token ADMIN_TOKEN)
          then HTTPException 401 InvalidAdminToken
          else Respond () in
        match attempt with
        | Respond r => Respond r
        | _ => HTTPException 401 InvalidAuthorizationHeaderFormat
        end
  end.

Section Handlers.
Context `{Runtime} `{Sklearn}.

(** The [except] clauses of [predict]. *)
Definition predict_failure {A} (e : exn) : http A :=
  match e with
  | InvalidInputError _ => HTTPException 400 (OfException e)
  | FileNotFoundError => HTTPException 503 ModelNotTrained
  | _ => HTTPException 500 (PredictionError e)
  end.

(** [POST /api/predict] *)
Definition predict (env_threshold : option string) (fs : FS) (request : PredictRequest)
  : http Response :=
  match _load_model_and_metadata env_threshold fs with
  | Raise e => predict_failure e
  | Ok predictor =>
      match outcome (predictor.predict predictor
                       (PFloat (req_attendance request))
                       (PFloat (req_marks request))
                       (PFloat (req_internal_score request))
                       (from_option PFloat PNone (req_final_exam_score request))) with
      | Ok result => Respond result
      | Raise e => predict_failure e
      end
  end.

(** The item built from a row that has its three features. *)
Definition prediction_item (enrollment : EnrollmentRow) : option BatchItem :=
  match row_attendance enrollment, row_marks enrollment,
        row_internal_score enrollment with
  | Some a, Some m, Some i =>
      Some {| student_id := Some (row_student_id enrollment);
              course_id := Some (row_course_id enrollment);
              item_attendance := PFloat (Finite a);
              item_marks := PFloat (Finite m);
              item_internal_score := PFloat (Finite i);
              item_final_exam_score := PNone |}
  | _, _, _ => None
  end.

(** The [except] clauses of [predict_batch]. *)
Definition predict_batch_failure {A} (e : exn) : http A :=
  match e with
  | InvalidInputError _ => HTTPException 400 (OfException e)
  | FileNotFoundError => HTTPException 503 ModelNotTrained
  | _ => HTTPException 500 (BatchPredictionError e)
  end.

(** [POST /api/predict_batch]. The [HTTPException] for an empty list is
    raised inside the [try] and so meets [except Exception]. *)
Definition predict_batch (env_threshold : option string) (fs : FS)
    (db : list EnrollmentRow) : http (list BatchResult * nat) :=
  match _load_model_and_metadata env_threshold fs with
  | Raise e => predict_batch_failure e
  | Ok predictor =>
      let enrollments := get_all_enrollments_for_batch_prediction db in
      let prediction_data := omap prediction_item enrollments in
      match prediction_data with
      | [] => HTTPException 500 (BatchPredictionErrorOf 400 NoCompleteEnrollments)
      | _ =>
          match outcome (predictor.predict_batch predictor prediction_data) with
          | Ok predictions => Respond (predictions, length predictions)
          | Raise e => predict_batch_failure e
          end
      end
  end.

(** The enrollment as [_to_dataframe_from_enrollments] reads it. *)
Definition training_record (enrollment : EnrollmentRow) : Enrollment :=
  {| e_attendance := row_attendance enrollment;
     e_marks := row_marks enrollment;
     e_internal_score := row_internal_score enrollment;
     e_result := row_result enrollment |}.

(** [POST /api/retrain]. [now] and [timestamp] are the two readings of
    the clock. *)
Definition retrain (now timestamp : string) (fs : FS) (db : list EnrollmentRow)
  : FS * http RetrainResponse :=
  let enrollments := get_training_data db in
  if Nat.ltb (length enrollments) 10
  then (fs, HTTPException 400 (InsufficientTrainingData (length enrollments)))
  else
    match train_from_db now (training_record <$> enrollments) fs with
    | (fs', Ok (_, metrics, metadata)) =>
        (fs',
         Respond {| r_accuracy := accuracy metrics;
                    r_precision := precision metrics;
                    r_recall := recall metrics;
                    r_f1_score := f1 metrics;
                    r_roc_auc := metadata !! "roc_auc";
                    r_timestamp := timestamp;
                    r_samples_used := length enrollments;
                    r_class_distribution :=
                      default (JObj ∅) (metadata !! "class_distribution");
                    r_class_counts := default (JObj ∅) (metadata !! "class_counts");
                    r_recommended_threshold :=
                      default (JNum (3 # 5)) (metadata !! "recommended_threshold");
                    r_metrics_cv := default (JObj ∅) (metadata !! "metrics_cv");
                    r_user_threshold := metadata !! "user_threshold" |})
    | (fs', Raise e) =>
        (fs',
         if is_ValueError e then HTTPException 400 (OfException e)
         else HTTPException 500 (TrainingError e))
    end.

(** [POST /api/settings/threshold]; [now] is the reading of the clock. *)
Definition update_threshold (now : string) (threshold : Q) (fs : FS)
  : FS * http (Q * string) :=
  if negb (in_open_unit threshold)
  then (fs, HTTPException 400 ThresholdOutOfRange)
  else
    let metadata : gmap string json :=
      match metadata_file fs with
      | Some (Doc (JObj loaded)) => loaded
      | _ => ∅
      end in
    let metadata := <["user_threshold" := JNum threshold]> metadata in
    (* metadata.setdefault("recommended_threshold", max(0.6, threshold)) *)
    let metadata :=
      match metadata !! "recommended_threshold" with
      | Some _ => metadata
      | None => <["recommended_threshold" := JNum (Qmax (3 # 5) threshold)]> metadata
      end in
    let metadata := <["user_threshold_set_at" := JStr now]> metadata in
    ({| model_file := model_file fs;
        metadata_file := Some (Doc (JObj metadata)) |},
     Respond (threshold, "metadata")).

(** [GET /api/settings/threshold] *)
Definition get_threshold (env_threshold : option string) (fs : FS)
  : http (Q * Source) :=
  match _resolve_threshold_with_source env_threshold fs with
  | Ok r => Respond r
  | Raise e => Unhandled e
  end.

End Handlers.

(** [x // y] on Python integers. *)
Definition py_floordiv (x y : Z) : result Z :=
  if (y =? 0)%Z then Raise ZeroDivisionError else Ok (x / y)%Z.

(** [GET /api/students] *)
Definition get_students (students : list Student) (page limit : Z)
  : http PaginatedStudents :=
  let skip := ((page - 1) * limit)%Z in
  let '(found, total) := crud.get_students students skip limit in
  match py_floordiv (total + limit - 1) limit with
  | Ok pages =>
      Respond {| items := found; total := total; page := page;
                 limit := limit; pages := pages |}
  | Raise e => Unhandled e
  end.

End endpoints.

(** ** More vocabulary *)

Module spec_more.

(** The median of the present cells of a column, and a cell after
    imputation. *)
Definition column_median (data : DataFrame) (col : field) : option Q :=
  median (omap id (cell col <$> rows data)).

Definition imputed (data : DataFrame) (col : field) (r : Enrollment) : option Q :=
  match cell col r with
  | Some q => Some q
  | None => column_median data col
  end.



(** The test of the loop of [predict_batch]: the three features are
    not [None]. *)
Definition has_features (row : crud.EnrollmentRow) : bool :=
  bool_decide (is_Some (crud.row_attendance row))
  && bool_decide (is_Some (crud.row_marks row))
  && bool_decide (is_Some (crud.row_internal_score row)).




(** [old in s] *)
Fixpoint occurs (old s : string) : bool :=
  String.prefix old s
  || match s with
     | EmptyString => false
     | String _ rest => occurs old rest
     end.

End spec_more.

Export spec_more.

(** ** [app/schemas.py]: the bounds of the response models *)

Module schemas.



End schemas.

(** ** More concrete data *)

Module fixture_more.

Import fixture crud.

(** A frame in which every feature column misses one cell. *)
Definition gappy_frame : DataFrame :=
  {| columns := ["attendance"; "marks"; "internal_score"; "result"];
     rows := [ {| e_attendance := Some 80; e_marks := None;
                  e_internal_score := Some 70; e_result := Some 1%Z |};
               {| e_attendance := Some 60; e_marks := Some 50;
                  e_internal_score := None; e_result := Some 0%Z |};
               {| e_attendance := None; e_marks := Some 90;
                  e_internal_score := Some 90; e_result := Some 1%Z |};
               {| e_attendance := Some 40; e_marks := Some 20;
                  e_internal_score := Some 30; e_result := Some 0%Z |} ] |}.

Definition db_row (sid cid : Z) (e : Enrollment) : EnrollmentRow :=
  {| row_student_id := sid; row_course_id := cid;
     row_marks := e_marks e; row_attendance := e_attendance e;
     row_internal_score := e_internal_score e;
     row_final_exam_score := None; row_result := e_result e |}.

(** The ten enrollments of [demo_enrollments] as rows of the table, and
    one row without marks. *)
Definition demo_db : list EnrollmentRow :=
  zip_with (λ sid e, db_row sid 7 e) [1; 2; 3; 4; 5; 6; 7; 8; 9; 10]%Z demo_enrollments
  ++ [ {| row_student_id := 11; row_course_id := 7; row_marks := None;
          row_attendance := Some 50; row_internal_score := Some 50;
          row_final_exam_score := None; row_result := None |} ].

Definition demo_students : list Student :=
  (λ k, {| s_student_id := k; s_name := "Student"; s_dept_id := None |})
    <$> [1; 2; 3; 4; 5; 6; 7]%Z.

End fixture_more.

(** * Properties *)

(** ** Comparisons, the exception monad and the stable sort *)

Lemma Qltb_lt (x y : Q) : Qltb x y = true ↔ x < y.
Proof.
  unfold Qltb. rewrite negb_true_iff. split.
  - intros E. apply Qnot_le_lt. intros L. apply Qle_bool_iff in L. congruence.
  - intros L. destruct (Qle_bool y x) eqn:E; [|reflexivity].
    apply Qle_bool_iff in E. lra.
Qed.

Lemma Qltb_ge (x y : Q) : Qltb x y = false ↔ y <= x.
Proof.
  unfold Qltb. rewrite negb_false_iff. apply Qle_bool_iff.
Qed.

Lemma Qle_bool_gt (x y : Q) : Qle_bool x y = false ↔ y < x.
Proof.
  split.
  - intros E. apply Qnot_le_lt. intros L. apply Qle_bool_iff in L. congruence.
  - intros L. destruct (Qle_bool x y) eqn:E; [|reflexivity].
    apply Qle_bool_iff in E. lra.
Qed.

Lemma Qeq_bool_false (x y : Q) : Qeq_bool x y = false ↔ ¬ x == y.
Proof.
  split; [apply Qeq_bool_neq|].
  intros N. destruct (Qeq_bool x y) eqn:E; [|reflexivity].
  apply Qeq_bool_iff in E. contradiction.
Qed.

Lemma bind_Ok {A B} (r : result A) (k : A → result B) (b : B) :
  r ≫= k = Ok b ↔ ∃ a, r = Ok a ∧ k a = Ok b.
Proof.
  destruct r as [a|e]; simpl; split.
  - intros E. exists a. auto.
  - intros (a' & [= ->] & E). exact E.
  - discriminate.
  - intros (a' & E & _). discriminate.
Qed.

Lemma py_div_Ok (x y : Q) : ¬ y == 0 → py_div x y = Ok (x / y).
Proof.
  intros N. unfold py_div. apply Qeq_bool_false in N. rewrite N. reflexivity.
Qed.

Lemma py_div_inv (x y q : Q) : py_div x y = Ok q → ¬ y == 0 ∧ q = x / y.
Proof.
  unfold py_div. destruct (Qeq_bool y 0) eqn:E; [discriminate|].
  intros [= <-]. split; [by apply Qeq_bool_false|reflexivity].
Qed.

Lemma forM_Ok_length {A B} (f : A → result B) (l : list A) (out : list B) :
  forM f l = Ok out → length out = length l.
Proof.
  revert out. induction l as [|x l IH]; intros out; simpl.
  - intros [= <-]. reflexivity.
  - destruct (f x) as [y|]; simpl; [|discriminate].
    destruct (forM f l) as [ys|]; simpl; [|discriminate].
    intros [= <-]. simpl. f_equal. by apply IH.
Qed.

Lemma forM_Ok_Forall2 {A B} (f : A → result B) (l : list A) (out : list B) :
  forM f l = Ok out ↔ Forall2 (λ x y, f x = Ok y) l out.
Proof.
  revert out. induction l as [|x l IH]; intros out; simpl.
  - split.
    + intros [= <-]. constructor.
    + intros F. inversion F. reflexivity.
  - split.
    + destruct (f x) as [y|] eqn:E; simpl; [|discriminate].
      destruct (forM f l) as [ys|]; simpl; [|discriminate].
      intros [= <-]. constructor; [exact E|]. by apply IH.
    + intros F. inversion F as [|x' y' l' ys E F']; subst.
      rewrite E. simpl. apply IH in F'. rewrite F'. reflexivity.
Qed.

Lemma forM_Raise_first {A B} (f : A → result B) (l : list A) (e : exn) :
  forM f l = Raise e →
  ∃ good x rest, l = good ++ x :: rest ∧ f x = Raise e ∧
                 Forall (λ z, is_ok (f z) = true) good.
Proof.
  induction l as [|x l IH]; simpl; [discriminate|].
  destruct (f x) as [y|e'] eqn:E; simpl.
  - destruct (forM f l) as [ys|e''] eqn:E'; simpl; [discriminate|].
    intros [= ->]. destruct (IH eq_refl) as (good & x' & rest & -> & Ex & F).
    exists (x :: good), x', rest. repeat split; [exact Ex|].
    constructor; [by rewrite E | exact F].
  - intros [= ->]. exists [], x, l. repeat split; [exact E | constructor].
Qed.

Section SortFacts.
Context {A : Type} (before : A → A → bool) (le : A → A → Prop).
Hypothesis before_le : ∀ a b, before a b = true → le a b.
Hypothesis not_before_le : ∀ a b, before a b = false → le b a.
Hypothesis le_trans : ∀ a b c, le a b → le b c → le a c.

Lemma insert_stable_elem (x y : A) (l : list A) :
  y ∈ insert_stable before x l ↔ y = x ∨ y ∈ l.
Proof.
  induction l as [|z l IH]; simpl.
  - rewrite elem_of_cons, elem_of_nil. tauto.
  - destruct (before z x); rewrite !elem_of_cons, ?IH; tauto.
Qed.

Lemma sort_stable_elem (y : A) (l : list A) :
  y ∈ sort_stable before l ↔ y ∈ l.
Proof.
  induction l as [|z l IH]; simpl; [reflexivity|].
  rewrite insert_stable_elem, elem_of_cons, IH. tauto.
Qed.

Lemma insert_stable_sorted (x : A) (l : list A) :
  StronglySorted le l → StronglySorted le (insert_stable before x l).
Proof.
  induction 1 as [|z l S IH F]; simpl.
  - repeat constructor.
  - destruct (before z x) eqn:E.
    + constructor; [exact IH|].
      apply Forall_forall. intros y Hy. apply insert_stable_elem in Hy.
      destruct Hy as [->|Hy]; [by apply before_le|].
      rewrite Forall_forall in F. by apply F.
    + apply not_before_le in E.
      constructor; [by constructor|].
      constructor; [exact E|].
      eapply Forall_impl; [exact F|]. intros y L. by eapply le_trans.
Qed.

Lemma sort_stable_sorted (l : list A) : StronglySorted le (sort_stable before l).
Proof.
  induction l as [|x l IH]; simpl; [constructor|].
  by apply insert_stable_sorted.
Qed.
End SortFacts.

(** ** Training: the threshold scan *)

Section Scan.
Variables (y : list Z) (y_scores : list Q).

Lemma f1_score_nonneg (preds : list Z) : 0 <= f1_score y preds.
Proof.
  unfold f1_score.
  set (tp := Z.of_nat (length (List.filter _ (zip y preds)))).
  set (fp := Z.of_nat (length (List.filter _ (zip y preds)))).
  set (fn := Z.of_nat (length (List.filter _ (zip y preds)))).
  assert (0 ≤ tp)%Z by apply Nat2Z.is_nonneg.
  assert (0 ≤ fp)%Z by apply Nat2Z.is_nonneg.
  assert (0 ≤ fn)%Z by apply Nat2Z.is_nonneg.
  destruct (Z.eqb_spec (2 * tp + fp + fn) 0) as [|N]; [lra|].
  apply Qle_shift_div_l.
  - replace 0 with (inject_Z 0) by reflexivity. rewrite <- Zlt_Qlt. lia.
  - rewrite Qmult_0_l. replace 0 with (inject_Z 0) by reflexivity.
    rewrite <- Zle_Qle. lia.
Qed.

(** What the loop maintains: the running best F1 never decreases, it
    dominates every threshold seen, and the running threshold is the
    initial one or a threshold seen, paired with its own F1. *)
Lemma scan_invariant (thresholds : list Q) (b0 f0 : Q) :
  let r := fold_left (threshold_step y y_scores) thresholds (b0, f0) in
  f0 <= snd r
  ∧ (∀ t, t ∈ thresholds → f1_at y y_scores t <= snd r)
  ∧ (r = (b0, f0) ∨ (fst r ∈ thresholds ∧ snd r = f1_at y y_scores (fst r))).
Proof.
  revert b0 f0. induction thresholds as [|t ts IH]; intros b0 f0; simpl.
  - split; [lra|]. split; [|by left].
    intros t Ht. by apply elem_of_nil in Ht.
  - replace (threshold_step y y_scores (b0, f0) t)
      with (if Qltb f0 (f1_at y y_scores t) then (t, f1_at y y_scores t) else (b0, f0)) by reflexivity.
    destruct (Qltb f0 (f1_at y y_scores t)) eqn:E.
    + apply Qltb_lt in E.
      destruct (IH t (f1_at y y_scores t)) as (M & D & W).
      split; [lra|]. split.
      * intros u Hu. apply elem_of_cons in Hu as [->|Hu]; [exact M | by apply D].
      * right. destruct W as [W|[W1 W2]].
        -- rewrite W. simpl. split; [apply elem_of_cons; by left | reflexivity].
        -- split; [apply elem_of_cons; by right | exact W2].
    + apply Qltb_ge in E.
      destruct (IH b0 f0) as (M & D & W).
      split; [exact M|]. split.
      * intros u Hu. apply elem_of_cons in Hu as [->|Hu]; [lra | by apply D].
      * destruct W as [W|[W1 W2]]; [by left|].
        right. split; [apply elem_of_cons; by right | exact W2].
Qed.

Lemma scan_thresholds_best (thresholds : list Q) :
  thresholds ≠ [] →
  let best := fst (scan_thresholds y y_scores thresholds) in
  best ∈ thresholds ∧ ∀ t, t ∈ thresholds → f1_at y y_scores t <= f1_at y y_scores best.
Proof.
  intros NE. unfold scan_thresholds.
  destruct (scan_invariant thresholds (3 # 5) (- (1))) as (M & D & W).
  simpl in *.
  destruct thresholds as [|t0 ts]; [done|].
  assert (P : 0 <= snd (fold_left (threshold_step y y_scores) (t0 :: ts) (3 # 5, - (1)))).
  { pose proof (f1_score_nonneg (predictions_at y_scores t0)).
    pose proof (D t0 ltac:(apply elem_of_cons; by left)). unfold f1_at in *. lra. }
  destruct W as [W|[W1 W2]].
  - rewrite W in P. simpl in P. lra.
  - split; [exact W1|]. intros t Ht. rewrite <- W2. by apply D.
Qed.

Lemma recommended_threshold_floor (thresholds : list Q) :
  3 # 5 <= recommended_threshold y y_scores thresholds.
Proof. unfold recommended_threshold. apply Q.le_max_r. Qed.
End Scan.

(** ** Training: what [train_model] computes and writes *)

Section TrainFacts.
Context `{Sklearn}.

#[local] Arguments _save_metadata : simpl never.
#[local] Arguments _prepare_features : simpl never.
#[local] Arguments metadata_document : simpl never.
#[local] Arguments _compute_metrics : simpl never.
#[local] Arguments require_finite : simpl never.
#[local] Arguments predict_proba : simpl never.

Lemma metadata_document_lookups now cc cd imp coefficients intercept pi metrics
    roc_auc best base :
  let produced := metadata_document now cc cd imp coefficients intercept pi metrics
                    roc_auc best base in
  produced !! "user_threshold" = None
  ∧ produced !! "coefficients" = Some (feature_dict coefficients)
  ∧ produced !! "intercept" = Some (JNum intercept)
  ∧ produced !! "recommended_threshold" = Some (JNum best)
  ∧ produced !! "scaler" =
      Some (JObj (<["mean" := nums (mean_ base)]>
                 (<["scale" := nums (scale_ base)]> ∅))).
Proof.
  unfold metadata_document. repeat split; by simplify_map_eq.
Qed.

(** A successful [train_model], step by step. *)
Lemma train_model_Ok now data fs rs fs' m metrics md :
  train_model now data fs rs = (fs', Ok (m, metrics, md)) →
  ∃ X y coefficients intercept base y_scores produced,
    training_set data = Ok (X, y)
    ∧ _compute_metrics (X, y) rs = Ok (metrics, coefficients, intercept)
    ∧ fit rs (X, y) = Ok base
    ∧ fit_calibrated rs (X, y) = Ok m
    ∧ predict_proba m X = Ok y_scores
    ∧ produced !! "user_threshold" = None
    ∧ produced !! "coefficients" = Some (feature_dict coefficients)
    ∧ produced !! "intercept" = Some (JNum intercept)
    ∧ produced !! "recommended_threshold" =
        Some (JNum (recommended_threshold y y_scores (roc_curve y y_scores)))
    ∧ produced !! "scaler" =
        Some (JObj (<["mean" := nums (mean_ base)]>
                   (<["scale" := nums (scale_ base)]> ∅)))
    ∧ _save_metadata {| model_file := Some m; metadata_file := metadata_file fs |}
                     produced = (fs', md).
Proof.
  unfold train_model, training_set.
  destruct (_validate_columns data) as [[]|]; cbn [mbind result_bind]; [|congruence].
  destruct (_prepare_features data) as [X_cols imputation_stats] eqn:EP.
  destruct (forM _ (rows data)) as [y|]; cbn [mbind result_bind]; [|congruence].
  destruct (length (remove_dups y) <? 2)%nat; [congruence|].
  destruct (forM _ (value_counts y)) as [class_distribution|]; cbn [mbind result_bind]; [|congruence].
  destruct (require_finite _) as [X|]; cbn [mbind result_bind]; [|congruence].
  destruct (_compute_metrics (X, y) rs) as [[[met coefficients] intercept]|] eqn:EM;
    cbn [mbind result_bind]; [|congruence].
  destruct (fit rs (X, y)) as [base|] eqn:EF; cbn [mbind result_bind]; [|congruence].
  unfold _train_calibrated_model.
  destruct (fit_calibrated rs (X, y)) as [cal|] eqn:EC; cbn [mbind result_bind]; [|congruence].
  destruct (predict_proba cal X) as [y_scores|] eqn:ES; cbn [mbind result_bind]; [|congruence].
  match goal with
  | |- context [_save_metadata ?f ?p] => destruct (_save_metadata f p) as [fs2 md2] eqn:EW
  end.
  intros [= <- <- <- <-].
  match type of EW with
  | _save_metadata _ ?p = _ => exists X, y, coefficients, intercept, base, y_scores, p
  end.
  pose proof (metadata_document_lookups now (value_counts y) class_distribution
    imputation_stats coefficients intercept
    (_compute_permutation_importance base (X, y)) met (roc_auc_score y y_scores)
    (recommended_threshold y y_scores (roc_curve y y_scores)) base) as (L1 & L2 & L3 & L4 & L5).
  repeat split; try assumption; try reflexivity.
Qed.


Lemma save_metadata_carry fs metadata existing kept :
  metadata_file fs = Some (Doc (JObj existing)) →
  existing !! "user_threshold" = Some kept →
  metadata !! "user_threshold" = None →
  _save_metadata fs metadata =
    ({| model_file := model_file fs;
        metadata_file := Some (Doc (JObj (<["user_threshold" := kept]> metadata))) |},
     <["user_threshold" := kept]> metadata).
Proof.
  intros E1 E2 E3. unfold _save_metadata. rewrite E1, E2, E3. reflexivity.
Qed.

Lemma train_from_db_insufficient now enrollments fs :
  enrollments ≠ [] →
  (length (labeled enrollments) < 10)%nat →
  train_from_db now enrollments fs =
    (fs, Raise (ValueError (InsufficientData (length (labeled enrollments))))).
Proof.
  intros NE Hlt. unfold train_from_db, _to_dataframe_from_enrollments, pd_DataFrame.
  destruct enrollments as [|e es]; [done|].
  unfold dropna_result. simpl columns.
  rewrite bool_decide_eq_true_2 by (rewrite !elem_of_cons; tauto).
  cbn [rows]. fold (labeled (e :: es)).
  apply Nat.ltb_lt in Hlt. rewrite Hlt. reflexivity.
Qed.



Lemma save_metadata_frame fs produced fs' md :
  _save_metadata fs produced = (fs', md) →
  metadata_file fs' = Some (Doc (JObj md))
  ∧ model_file fs' = model_file fs
  ∧ ∀ k, k ≠ "user_threshold" → md !! k = produced !! k.
Proof.
  unfold _save_metadata. intros [= <- <-]. repeat split.
  intros k Hk. destruct (metadata_file fs) as [[|[]]|]; try reflexivity.
  destruct (m !! "user_threshold"); [|reflexivity].
  destruct (produced !! "user_threshold"); [reflexivity|].
  by rewrite lookup_insert_ne.
Qed.

(** C4: when the metadata document already at the path is a dict with
    a ["user_threshold"], [_save_metadata] writes any new document that
    has none with that entry added and every other key as given; and
    a successful [train_model] therefore persists (and returns) a
    document that carries the old ["user_threshold"], whose other keys
    are those training produced. *)
Theorem user_threshold_survives_retrain fs existing kept :
  metadata_file fs = Some (Doc (JObj existing)) →
  existing !! "user_threshold" = Some kept →
  (∀ metadata : gmap string json, metadata !! "user_threshold" = None →
     ∃ fs' md, _save_metadata fs metadata = (fs', md)
       ∧ metadata_file fs' = Some (Doc (JObj md))
       ∧ md !! "user_threshold" = Some kept
       ∧ ∀ k, k ≠ "user_threshold" → md !! k = metadata !! k)
  ∧ (∀ now data rs fs' m metrics md,
       train_model now data fs rs = (fs', Ok (m, metrics, md)) →
       ∃ produced : gmap string json,
         produced !! "user_threshold" = None
         ∧ metadata_file fs' = Some (Doc (JObj md))
         ∧ md !! "user_threshold" = Some kept
         ∧ ∀ k, k ≠ "user_threshold" → md !! k = produced !! k).
Proof.
  intros E1 E2. split.
  - intros metadata E3. eexists _, _.
    split; [by eapply save_metadata_carry|].
    split; [reflexivity|]. split; [apply lookup_insert_eq|].
    intros k Hk. by rewrite lookup_insert_ne.
  - intros now data rs fs' m metrics md E.
    apply train_model_Ok in E
      as (X & y & cs & b & base & scores & produced & _ & _ & _ & _ & _ & L & _ & _ & _ & _ & W).
    exists produced. split; [exact L|].
    erewrite save_metadata_carry in W by (simpl; eassumption).
    injection W as <- <-. simpl.
    split; [reflexivity|]. split; [apply lookup_insert_eq|].
    intros k Hk. by rewrite lookup_insert_ne.
Qed.

(** C6: after a successful [train_model], the recommended threshold in
    the persisted document is [max(best, 0.6)], where [best] is a
    threshold of the ROC curve of the calibrated model's scores on the
    training set whose F1 no other threshold of the curve exceeds; in
    particular it is at least 0.6. *)
Theorem recommended_threshold_maximizes_f1 now data fs rs fs' m metrics md :
  train_model now data fs rs = (fs', Ok (m, metrics, md)) →
  ∃ X y y_scores best,
    training_set data = Ok (X, y)
    ∧ predict_proba m X = Ok y_scores
    ∧ (roc_curve y y_scores ≠ [] →
         best ∈ roc_curve y y_scores
         ∧ ∀ t, t ∈ roc_curve y y_scores → f1_at y y_scores t <= f1_at y y_scores best)
    ∧ (roc_curve y y_scores = [] → best = 3 # 5)
    ∧ metadata_file fs' = Some (Doc (JObj md))
    ∧ md !! "recommended_threshold" = Some (JNum (Qmax best (3 # 5)))
    ∧ 3 # 5 <= Qmax best (3 # 5).
Proof.
  intros E.
  apply train_model_Ok in E
    as (X & y & cs & b & base & scores & produced & ET & _ & _ & _ & ES & _ & _ & _ & LR & _ & W).
  apply save_metadata_frame in W as (W1 & _ & W3).
  exists X, y, scores, (fst (scan_thresholds y scores (roc_curve y scores))).
  split; [exact ET|]. split; [exact ES|].
  split; [intros NE; by apply scan_thresholds_best|].
  split; [intros ->; reflexivity|].
  split; [exact W1|].
  split; [rewrite W3 by done; exact LR|].
  apply Q.le_max_r.
Qed.


End TrainFacts.

(** ** The helpers on small inputs *)

Example py_round_half_even :
  (py_round (5 # 2), py_round (7 # 2), py_round (- (5 # 2)), py_round (13 # 5))
  = (2, 4, -2, 3)%Z.
Proof. reflexivity. Qed.

Example sort_stable_keeps_ties :
  sort_stable (λ a b : nat * string, Nat.ltb (fst a) (fst b))
    [(2, "a"); (1, "b"); (2, "c"); (1, "d")]%nat
  = [(1, "b"); (1, "d"); (2, "a"); (2, "c")]%nat.
Proof. reflexivity. Qed.

Example median_of_four : option_map Qred (median [3; 1; 4; 2]) = Some (5 # 2).
Proof. reflexivity. Qed.

Example broadcast_one_against_three :
  np_broadcast Qminus [1; 2; 3] [1] = Ok [1 - 1; 2 - 1; 3 - 1].
Proof. reflexivity. Qed.

Example broadcast_two_against_three :
  np_broadcast Qminus [1; 2; 3] [1; 2] = Raise (ValueError (CannotBroadcast 3 2)).
Proof. reflexivity. Qed.

Example f1_of_one_miss :
  Qred (f1_score [1; 1; 0; 0]%Z [1; 0; 0; 0]%Z) = 2 # 3.
Proof. reflexivity. Qed.

(** ** The training properties on the concrete run *)

Import fixture.

Lemma demo_trained_eq :
  train_model demo_now demo_frame empty_fs 42
  = (demo_fs, Ok (demo_model, demo_metrics, demo_metadata)).
Proof.
  assert (O : is_ok (snd (train_model demo_now demo_frame empty_fs 42)) = true)
    by (vm_compute; reflexivity).
  unfold demo_fs, demo_model, demo_metrics, demo_metadata.
  destruct (train_model demo_now demo_frame empty_fs 42) as [fs' [[[m met] md]|e]];
    [reflexivity | discriminate].
Qed.

Lemma retrained_eq :
  train_model demo_now demo_frame admin_fs 42
  = (retrained_fs, Ok (retrained_model, retrained_metrics, retrained_metadata)).
Proof.
  assert (O : is_ok (snd (train_model demo_now demo_frame admin_fs 42)) = true)
    by (vm_compute; reflexivity).
  unfold retrained_fs, retrained_model, retrained_metrics, retrained_metadata.
  destruct (train_model demo_now demo_frame admin_fs 42) as [fs' [[[m met] md]|e]];
    [reflexivity | discriminate].
Qed.



Lemma user_threshold_survives_retrain_witness :
  metadata_file admin_fs = Some (Doc (JObj admin_metadata))
  ∧ admin_metadata !! "user_threshold" = Some (JNum (2 # 5))
  ∧ train_model demo_now demo_frame admin_fs 42 =
      (retrained_fs, Ok (retrained_model, retrained_metrics, retrained_metadata))
  ∧ ∃ produced : gmap string json,
      produced !! "user_threshold" = None
      ∧ metadata_file retrained_fs = Some (Doc (JObj retrained_metadata))
      ∧ retrained_metadata !! "user_threshold" = Some (JNum (2 # 5))
      ∧ ∀ k, k ≠ "user_threshold" → retrained_metadata !! k = produced !! k.
Proof.
  assert (H1 : metadata_file admin_fs = Some (Doc (JObj admin_metadata)))
    by reflexivity.
  assert (H2 : admin_metadata !! "user_threshold" = Some (JNum (2 # 5)))
    by apply lookup_insert_eq.
  split; [exact H1|]. split; [exact H2|]. split; [exact retrained_eq|].
  exact (proj2 (user_threshold_survives_retrain admin_fs admin_metadata (JNum (2 # 5)) H1 H2)
           demo_now demo_frame 42%Z _ _ _ _ retrained_eq).
Defined.

Lemma recommended_threshold_maximizes_f1_witness :
  train_model demo_now demo_frame empty_fs 42 =
    (demo_fs, Ok (demo_model, demo_metrics, demo_metadata))
  ∧ ∃ X y y_scores best,
      training_set demo_frame = Ok (X, y)
      ∧ predict_proba demo_model X = Ok y_scores
      ∧ (roc_curve y y_scores ≠ [] →
           best ∈ roc_curve y y_scores
           ∧ ∀ t, t ∈ roc_curve y y_scores → f1_at y y_scores t <= f1_at y y_scores best)
      ∧ (roc_curve y y_scores = [] → best = 3 # 5)
      ∧ metadata_file demo_fs = Some (Doc (JObj demo_metadata))
      ∧ demo_metadata !! "recommended_threshold" = Some (JNum (Qmax best (3 # 5)))
      ∧ 3 # 5 <= Qmax best (3 # 5).
Proof.
  split; [exact demo_trained_eq|].
  exact (recommended_threshold_maximizes_f1 demo_now demo_frame empty_fs 42%Z _ _ _ _
           demo_trained_eq).
Defined.



Example nine_enrollments_are_not_enough :
  train_from_db demo_now (take 9 demo_enrollments) empty_fs
  = (empty_fs, Raise (ValueError (InsufficientData 9))).
Proof. reflexivity. Qed.

Example one_class_is_not_enough :
  train_from_db demo_now (replicate 12 (enrollment 80 70 75 1)) empty_fs
  = (empty_fs, Raise (ValueError NeedTwoClasses)).
Proof. vm_compute. reflexivity. Qed.

(** C5, the case the code misses: with no enrollment at all the frame has
    no ["result"] column, [dropna] raises [KeyError] and the
    insufficient-data error with its count is never reached. Nothing is
    written. *)
Theorem train_from_db_no_enrollment (now : string) (fs : FS) :
  train_from_db now [] fs = (fs, Raise (KeyError "result")).
Proof. reflexivity. Qed.

(** ** The predictor *)

Section PredictorFacts.
Context `{Runtime}.

#[local] Arguments _build_explanation : simpl never.
#[local] Arguments _compute_feedback : simpl never.
#[local] Arguments _collect_suspicion_markers : simpl never.
#[local] Arguments _build_feedback_paragraph : simpl never.
#[local] Arguments validate_features : simpl never.
#[local] Arguments validate_final : simpl never.
#[local] Arguments raw_vector_of : simpl never.
#[local] Arguments label_of : simpl never.

Lemma validate_range_Ok name v q :
  _validate_range name v = Ok q → v = PFloat (Finite q) ∧ 0 <= q ∧ q <= 100.
Proof.
  unfold _validate_range. destruct v as [|[x| | |]|]; try (destruct name; discriminate).
  destruct name; simpl;
    (destruct (Qle_bool 0 x) eqn:E1; destruct (Qle_bool x 100) eqn:E2; simpl;
     try discriminate; intros [= <-];
     apply Qle_bool_iff in E1; apply Qle_bool_iff in E2; auto).
Qed.


Lemma validate_features_Ok a m i features :
  validate_features a m i = Ok features →
  (a = PFloat (Finite (f_attendance features))
   ∧ m = PFloat (Finite (f_marks features))
   ∧ i = PFloat (Finite (f_internal_score features)))
  ∧ (0 <= f_attendance features ∧ f_attendance features <= 100)
  ∧ (0 <= f_marks features ∧ f_marks features <= 100)
  ∧ (0 <= f_internal_score features ∧ f_internal_score features <= 100).
Proof.
  unfold validate_features.
  destruct (_validate_range attendance a) as [qa|] eqn:Ea; [|discriminate].
  destruct (_validate_range marks m) as [qm|] eqn:Em; [|discriminate].
  destruct (_validate_range internal_score i) as [qi|] eqn:Ei; [|discriminate].
  simpl. intros [= <-]. simpl.
  apply validate_range_Ok in Ea as (-> & ? & ?).
  apply validate_range_Ok in Em as (-> & ? & ?).
  apply validate_range_Ok in Ei as (-> & ? & ?).
  repeat split; assumption.
Qed.

Lemma label_of_spec (proba threshold : Q) :
  (label_of proba threshold = 1%Z ∨ label_of proba threshold = 0%Z)
  ∧ (label_of proba threshold = 1%Z ↔ threshold <= proba).
Proof.
  unfold label_of. destruct (Qle_bool threshold proba) eqn:E.
  - apply Qle_bool_iff in E. split; [by left|]. split; auto.
  - apply Qle_bool_gt in E. split; [by right|]. split; [discriminate|lra].
Qed.

(** A successful [predict], step by step. *)
Lemma predict_Ok self a m i fin resp :
  outcome (predict self a m i fin) = Ok resp →
  ∃ features final,
    validate_features a m i = Ok features
    ∧ validate_final fin = Ok final
    ∧ inferences (predict self a m i fin) = [[raw_vector_of features]]
    ∧ probability resp = predict_proba_row (model self) (raw_vector_of features)
    ∧ predicted_result resp = label_of (probability resp) (threshold self)
    ∧ threshold_used resp = threshold self
    ∧ suspicious_input resp =
        match _collect_suspicion_markers features final with
        | [] => false
        | _ => true
        end
    ∧ suspicious_reasons resp =
        match _collect_suspicion_markers features final with
        | [] => None
        | notes => Some notes
        end
    ∧ _build_explanation (metadata self) (raw_vector_of features) = Ok (explanation resp)
    ∧ _compute_feedback (metadata self) (raw_vector_of features) (probability resp)
        = Ok (feedback resp).
Proof.
  unfold predict.
  destruct (validate_features a m i) as [features|]; simpl; [|discriminate].
  destruct (validate_final fin) as [final|]; simpl; [|discriminate].
  unfold index. simpl.
  destruct (_build_explanation _ _) as [expl|] eqn:EE; simpl; [|discriminate].
  destruct (_compute_feedback _ _ _) as [fb|] eqn:EF; simpl; [|discriminate].
  intros [= <-]. exists features, final. simpl.
  repeat split; try assumption.
  - destruct (_collect_suspicion_markers features final); reflexivity.
Qed.

(** A successful [predict_batch]: every item was validated, the model
    was asked once, and each result is computed from its own row. *)
Lemma predict_batch_Ok self data results :
  outcome (predict_batch self data) = Ok results →
  ∃ processed,
    forM process_item data = Ok processed
    ∧ Forall2 (λ p r,
                 b_probability r =
                   predict_proba_row (model self) (raw_vector_of (snd (fst p)))
                 ∧ b_predicted_result r = label_of (b_probability r) (threshold self)
                 ∧ b_threshold_used r = threshold self
                 ∧ b_student_id r = student_id (fst (fst p))
                 ∧ b_course_id r = course_id (fst (fst p))
                 ∧ b_suspicious_input r =
                     match snd p with [] => false | _ => true end)
              processed results.
Proof.
  unfold predict_batch.
  destruct (forM process_item data) as [processed|]; simpl; [|discriminate].
  intros E. exists processed. split; [reflexivity|].
  unfold predict_proba in E.
  destruct (_ <$> processed) as [|row0 rows0] eqn:EM; [discriminate|].
  rewrite <- EM in E. clear EM row0 rows0. cbn [mbind result_bind] in E.
  apply forM_Ok_Forall2 in E.
  set (predictions := (predict_proba_row (model self) <$> _)) in E.
  assert (G : ∀ (base : nat) (ps : list (BatchItem * Features * list string)) rs,
            (∀ k p, ps !! k = Some p →
               predictions !! (base + k)%nat =
                 Some (predict_proba_row (model self) (raw_vector_of (snd (fst p))))) →
            Forall2 (λ x y, (let '(idx, q) := x in batch_result self predictions idx q) = Ok y)
                    (zip (seq base (length ps)) ps) rs →
            Forall2 (λ p r,
                 b_probability r =
                   predict_proba_row (model self) (raw_vector_of (snd (fst p)))
                 ∧ b_predicted_result r = label_of (b_probability r) (threshold self)
                 ∧ b_threshold_used r = threshold self
                 ∧ b_student_id r = student_id (fst (fst p))
                 ∧ b_course_id r = course_id (fst (fst p))
                 ∧ b_suspicious_input r =
                     match snd p with [] => false | _ => true end) ps rs).
  { intros base ps. revert base. induction ps as [|p ps IH]; intros base rs L F.
    - inversion F. constructor.
    - simpl in F. inversion F as [|x r l rs' E1 F']; subst.
      constructor.
      + destruct p as [[meta features] item_notes]. unfold batch_result in E1.
        unfold index in E1. specialize (L 0%nat _ eq_refl).
        rewrite Nat.add_0_r in L. rewrite L in E1. simpl in E1.
        destruct (_build_explanation _ _); simpl in E1; [|discriminate].
        injection E1 as <-. simpl. repeat split.
      + apply (IH (S base)); [|exact F'].
        intros k q Hk. specialize (L (S k) q Hk).
        by rewrite Nat.add_succ_r in L. }
  apply (G 0%nat processed results); [|exact E].
  intros k p Hk. unfold predictions. simpl.
  rewrite list_lookup_fmap, list_lookup_fmap, Hk. reflexivity.
Qed.

(** *** Suggestions *)

Lemma py_round_le (x : Q) (n : Z) : x <= inject_Z n → (py_round x ≤ n)%Z.
Proof.
  intros L. unfold py_round.
  pose proof (Qfloor_le x) as F.
  assert (B : (Qfloor x ≤ n)%Z) by (rewrite Zle_Qle; lra).
  destruct (Qltb (x - inject_Z (Qfloor x)) (1 # 2)) eqn:E1; [exact B|].
  apply Qltb_ge in E1.
  assert (S : (Qfloor x < n)%Z) by (rewrite Zlt_Qlt; lra).
  destruct (Qltb (1 # 2) (x - inject_Z (Qfloor x))); [lia|].
  destruct (Z.even (Qfloor x)); lia.
Qed.

Lemma sigmoid_range (z p : Q) :
  (∀ t, 0 <= np_exp t) → _sigmoid z = Ok p → 0 < p ∧ p <= 1.
Proof.
  intros Hexp E. unfold _sigmoid in E. apply py_div_inv in E as [N ->].
  specialize (Hexp (- z)).
  assert (P : 0 < 1 + np_exp (- z)) by lra.
  split.
  - apply Qlt_shift_div_l; [exact P | lra].
  - apply Qle_shift_div_r; [exact P | lra].
Qed.

Lemma sigmoid_total (z : Q) : (∀ t, 0 <= np_exp t) → ∃ p, _sigmoid z = Ok p.
Proof.
  intros Hexp. eexists. unfold _sigmoid. apply py_div_Ok.
  specialize (Hexp (- z)). lra.
Qed.

Lemma logit_total (p : Q) : ∃ l, _logit p = Ok l.
Proof.
  unfold _logit.
  set (c := Qmin (Qmax p (1 # 1000000)) (1 - (1 # 1000000))).
  assert (U : c <= 1 - (1 # 1000000)) by apply Q.le_min_r.
  rewrite py_div_Ok by lra. simpl. eauto.
Qed.

Lemma suggest_Some coefficients scales raw base_prob base_logit idx feat s :
  (∀ t, 0 <= np_exp t) →
  suggest coefficients scales raw base_prob base_logit idx feat = Ok (Some s) →
  feature s = feat
  ∧ raw !! idx = Some (current_value s)
  ∧ 0 < allowed_increase feat (current_value s)
  ∧ change_by (suggested_change s) = py_round (allowed_increase feat (current_value s))
  ∧ change_from (suggested_change s) = py_round (current_value s)
  ∧ change_to (suggested_change s) =
      py_round (current_value s + allowed_increase feat (current_value s))
  ∧ (0 < new_probability_estimate s ∧ new_probability_estimate s <= 1)
  ∧ estimated_probability_gain s = Qmax 0 (new_probability_estimate s - base_prob).
Proof.
  intros Hexp. unfold suggest, index.
  destruct (raw !! idx) as [cur|]; simpl; [|discriminate].
  destruct (max_increase feat) as [cap|] eqn:EC; simpl; [|discriminate].
  assert (EA : Qmin cap (100 - cur) = allowed_increase feat cur).
  { destruct feat; simpl in EC; try discriminate; injection EC as <-; reflexivity. }
  rewrite EA. clear EA EC cap.
  destruct (Qle_bool (allowed_increase feat cur) 0) eqn:ED; [discriminate|].
  apply Qle_bool_gt in ED.
  destruct (py_get coefficients (name_of feat) (JNum 0)) as [cj|]; simpl; [|discriminate].
  destruct (py_float cj) as [coef|]; simpl; [|discriminate].
  destruct (py_div _ _) as [ds|]; simpl; [|discriminate].
  destruct (_sigmoid _) as [np|] eqn:ES; simpl; [|discriminate].
  apply (sigmoid_range _ _ Hexp) in ES.
  intros [= <-]. simpl. repeat split; try reflexivity; tauto.
Qed.

Lemma suggest_None coefficients scales raw base_prob base_logit idx feat :
  suggest coefficients scales raw base_prob base_logit idx feat = Ok None →
  ∃ cur, raw !! idx = Some cur ∧ allowed_increase feat cur <= 0.
Proof.
  unfold suggest, index.
  destruct (raw !! idx) as [cur|]; simpl; [|discriminate].
  destruct (max_increase feat) as [cap|] eqn:EC; simpl; [|discriminate].
  assert (EA : Qmin cap (100 - cur) = allowed_increase feat cur).
  { destruct feat; simpl in EC; try discriminate; injection EC as <-; reflexivity. }
  rewrite EA. clear EA EC cap.
  destruct (Qle_bool (allowed_increase feat cur) 0) eqn:ED.
  - apply Qle_bool_iff in ED. eauto.
  - destruct (py_get coefficients (name_of feat) (JNum 0)) as [cj|]; simpl; [|discriminate].
    destruct (py_float cj) as [coef|]; simpl; [|discriminate].
    destruct (py_div _ _) as [ds|]; simpl; [|discriminate].
    destruct (_sigmoid _) as [np|]; simpl; discriminate.
Qed.

(** A successful [_compute_feedback]: the sorted list of what the three
    rounds of the loop produced. *)
Lemma compute_feedback_Ok metadata raw base_prob out :
  _compute_feedback metadata raw base_prob = Ok out →
  ∃ coefficients scales base_logit o1 o2 o3,
    suggest coefficients scales raw base_prob base_logit 0 attendance = Ok o1
    ∧ suggest coefficients scales raw base_prob base_logit 1 marks = Ok o2
    ∧ suggest coefficients scales raw base_prob base_logit 2 internal_score = Ok o3
    ∧ out = sort_stable suggestion_before (omap id [o1; o2; o3]).
Proof.
  unfold _compute_feedback.
  destruct (py_get _ "scale" _) as [sj|]; simpl; [|discriminate].
  destruct (np_array sj) as [scales|]; simpl; [|discriminate].
  destruct (_logit base_prob) as [bl|]; simpl; [|discriminate].
  destruct (suggest _ _ _ _ _ 0 attendance) as [o1|] eqn:E1; simpl; [|discriminate].
  destruct (suggest _ _ _ _ _ 1 marks) as [o2|] eqn:E2; simpl; [|discriminate].
  destruct (suggest _ _ _ _ _ 2 internal_score) as [o3|] eqn:E3; simpl; [|discriminate].
  intros [= <-]. eexists _, _, _, o1, o2, o3. repeat split; eassumption.
Qed.

Lemma suggestion_before_le (a b : Suggestion) :
  suggestion_before a b = true → suggestion_le a b.
Proof.
  unfold suggestion_before, suggestion_le.
  destruct (priority a), (priority b); simpl; try discriminate;
    try (intros _; left; lia);
    (intros E; apply Qltb_lt in E; right; split; [reflexivity | lra]).
Qed.

Lemma suggestion_not_before_le (a b : Suggestion) :
  suggestion_before a b = false → suggestion_le b a.
Proof.
  unfold suggestion_before, suggestion_le.
  destruct (priority a), (priority b); simpl; try discriminate;
    try (intros _; left; lia);
    (intros E; apply Qltb_ge in E; right; split; [reflexivity | lra]).
Qed.

Lemma suggestion_le_trans (a b c : Suggestion) :
  suggestion_le a b → suggestion_le b c → suggestion_le a c.
Proof.
  unfold suggestion_le. intros [L1|[E1 G1]] [L2|[E2 G2]].
  - left. lia.
  - left. rewrite <- E2. exact L1.
  - left. rewrite E1. exact L2.
  - right. split; [congruence | lra].
Qed.

Lemma feedback_members metadata raw base_prob out s :
  _compute_feedback metadata raw base_prob = Ok out →
  s ∈ out →
  ∃ coefficients scales base_logit idx feat,
    FEATURES !! idx = Some feat
    ∧ suggest coefficients scales raw base_prob base_logit idx feat = Ok (Some s).
Proof.
  intros E Hs.
  apply compute_feedback_Ok in E as (cs & sc & bl & o1 & o2 & o3 & E1 & E2 & E3 & ->).
  apply sort_stable_elem in Hs.
  exists cs, sc, bl.
  destruct o1 as [s1|], o2 as [s2|], o3 as [s3|]; simpl in Hs;
    repeat (apply elem_of_cons in Hs as [->|Hs]);
    try (by apply elem_of_nil in Hs);
    first [ by exists 0%nat, attendance
          | by exists 1%nat, marks
          | by exists 2%nat, internal_score ].
Qed.

Lemma feedback_sorted metadata raw base_prob out :
  _compute_feedback metadata raw base_prob = Ok out →
  StronglySorted suggestion_le out.
Proof.
  intros E.
  apply compute_feedback_Ok in E as (cs & sc & bl & o1 & o2 & o3 & _ & _ & _ & ->).
  apply (sort_stable_sorted suggestion_before suggestion_le).
  - apply suggestion_before_le.
  - apply suggestion_not_before_le.
  - apply suggestion_le_trans.
Qed.

(** C3: in every response of [predict], each suggestion is about a
    feature at its validated value, proposes the increase
    [min(cap, 100 - value)], which is positive and keeps the value at or
    below 100 (also as displayed), and estimates a gain between 0 and
    [1 - probability]; a feature whose allowed increase is not positive
    has no suggestion; the list is ordered by priority, then by
    descending gain. *)
Theorem suggestions_bounded_and_ranked self a m i fin resp :
  (∀ t, 0 <= np_exp t) →
  (∀ x, 0 <= predict_proba_row (model self) x ∧ predict_proba_row (model self) x <= 1) →
  outcome (predict self a m i fin) = Ok resp →
  ∃ features,
    validate_features a m i = Ok features
    ∧ Forall (λ s,
        value_of features (feature s) = Some (current_value s)
        ∧ 0 < allowed_increase (feature s) (current_value s)
        ∧ current_value s + allowed_increase (feature s) (current_value s) <= 100
        ∧ change_by (suggested_change s) =
            py_round (allowed_increase (feature s) (current_value s))
        ∧ change_to (suggested_change s) =
            py_round (current_value s + allowed_increase (feature s) (current_value s))
        ∧ (change_to (suggested_change s) ≤ 100)%Z
        ∧ 0 <= estimated_probability_gain s
        ∧ estimated_probability_gain s <= 1 - probability resp) (feedback resp)
    ∧ (∀ feat v, value_of features feat = Some v → allowed_increase feat v <= 0 →
         Forall (λ s, feature s ≠ feat) (feedback resp))
    ∧ StronglySorted suggestion_le (feedback resp).
Proof.
  intros Hexp Hmodel E.
  apply predict_Ok in E
    as (features & final & EV & _ & _ & EP & _ & _ & _ & _ & _ & EF).
  exists features. split; [exact EV|].
  assert (M : ∀ s, s ∈ feedback resp →
            value_of features (feature s) = Some (current_value s)
            ∧ 0 < allowed_increase (feature s) (current_value s)
            ∧ change_by (suggested_change s) =
                py_round (allowed_increase (feature s) (current_value s))
            ∧ change_to (suggested_change s) =
                py_round (current_value s + allowed_increase (feature s) (current_value s))
            ∧ (0 < new_probability_estimate s ∧ new_probability_estimate s <= 1)
            ∧ estimated_probability_gain s =
                Qmax 0 (new_probability_estimate s - probability resp)).
  { intros s Hs.
    destruct (feedback_members _ _ _ _ _ EF Hs) as (cs & sc & bl & idx & feat & Hf & ES).
    apply (suggest_Some _ _ _ _ _ _ _ _ Hexp) in ES
      as (Efeat & Eraw & Hpos & Eby & _ & Eto & Hnew & Egain).
    rewrite Efeat.
    assert (V : value_of features feat = Some (current_value s)).
    { destruct idx as [|[|[|idx]]]; simpl in Hf; try discriminate;
        injection Hf as <-; exact Eraw. }
    repeat split; try assumption; tauto. }
  split; [|split].
  - apply Forall_forall. intros s Hs.
    destruct (M s Hs) as (V & Hpos & Eby & Eto & [Hn0 Hn1] & Egain).
    assert (Hcap : current_value s + allowed_increase (feature s) (current_value s) <= 100).
    { destruct (feature s); simpl in *; try lra;
        match goal with
        | |- context [Qmin ?c ?d] => pose proof (Q.le_min_r c d); lra
        end. }
    destruct (Hmodel (raw_vector_of features)) as [P0 P1]. rewrite <- EP in P0, P1.
    repeat split; try assumption.
    + rewrite Eto. apply py_round_le. exact Hcap.
    + rewrite Egain. apply Q.le_max_l.
    + rewrite Egain. apply Q.max_lub; lra.
  - intros feat v Hv Hle. apply Forall_forall. intros s Hs Efeat.
    destruct (M s Hs) as (V & Hpos & _).
    rewrite Efeat, Hv in V. injection V as ->.
    rewrite Efeat in Hpos. lra.
  - by eapply feedback_sorted.
Qed.

(** *** Divisors and totality *)

Lemma np_array_nums (l : list Q) : np_array (nums l) = Ok l.
Proof.
  unfold np_array, nums. induction l as [|q l IH]; [reflexivity|].
  rewrite fmap_cons. cbn [forM py_float mbind result_bind].
  rewrite IH. reflexivity.
Qed.

(** After [np.where(scale == 0, 1.0, scale)] no divisor is zero. *)
Lemma where_zero_one_nonzero (scale : list Q) :
  forallb (λ y, negb (Qeq_bool y 0)) (np_where_zero_one scale) = true.
Proof.
  unfold np_where_zero_one. induction scale as [|q l IH]; [reflexivity|].
  rewrite fmap_cons. cbn [forallb]. rewrite IH.
  destruct (Qeq_bool q 0) eqn:E; [reflexivity|].
  rewrite E. reflexivity.
Qed.

Lemma where_zero_one_length (scale : list Q) :
  length (np_where_zero_one scale) = length scale.
Proof. unfold np_where_zero_one. apply length_fmap. Qed.

Lemma np_broadcast_same (f : Q → Q → Q) (xs ys : list Q) :
  length xs = length ys → np_broadcast f xs ys = Ok (zip_with f xs ys).
Proof.
  intros E. unfold np_broadcast. rewrite E, Nat.eqb_refl. reflexivity.
Qed.

Lemma np_array_no_zero_division (v : json) : np_array v ≠ Raise ZeroDivisionError.
Proof.
  unfold np_array. destruct v; try discriminate.
  induction xs as [|x xs IH]; cbn [forM]; [discriminate|].
  destruct (py_float x) as [q|e] eqn:E; cbn [mbind result_bind].
  - destruct (forM py_float xs); cbn [mbind result_bind]; [discriminate | exact IH].
  - destruct x; simpl in E; congruence.
Qed.

Lemma np_broadcast_no_zero_division f xs ys :
  np_broadcast f xs ys ≠ Raise ZeroDivisionError.
Proof.
  unfold np_broadcast.
  destruct (length xs =? length ys)%nat; [discriminate|].
  destruct xs as [|? [|]], ys as [|? [|]]; discriminate.
Qed.

(** The divisor of [_standardize] is never zero: the function either
    returns or stops for another reason (a shape that cannot be
    broadcast, a value that is not a number). *)
Lemma standardize_never_divides_by_zero metadata raw :
  _standardize metadata raw ≠ Raise ZeroDivisionError.
Proof.
  unfold _standardize.
  destruct (py_get _ "mean" _) as [mj|e] eqn:E1; cbn [mbind result_bind].
  2:{ unfold py_get in E1. destruct (dict_get_or _ _ _); congruence. }
  destruct (np_array mj) as [mean|e] eqn:EM; cbn [mbind result_bind].
  2:{ intros [= ->]. by apply np_array_no_zero_division in EM. }
  destruct (py_get _ "scale" _) as [sj|e] eqn:E2; cbn [mbind result_bind].
  2:{ unfold py_get in E2. destruct (dict_get_or _ _ _); congruence. }
  destruct (np_array sj) as [scale|e] eqn:ES; cbn [mbind result_bind].
  2:{ intros [= ->]. by apply np_array_no_zero_division in ES. }
  destruct (np_broadcast Qminus raw mean) as [centered|e] eqn:EB; cbn [mbind result_bind].
  2:{ intros [= ->]. by apply np_broadcast_no_zero_division in EB. }
  unfold np_divide. rewrite where_zero_one_nonzero.
  apply np_broadcast_no_zero_division.
Qed.

Lemma default_vector3 (scaler : gmap string json) (key : string) (dflt : list Q) :
  length dflt = 3%nat → vector3 scaler key →
  ∃ l, default (nums dflt) (scaler !! key) = nums l ∧ length l = 3%nat.
Proof.
  intros Hd [E|(l & E & Hl)]; rewrite E; simpl; eauto.
Qed.

Lemma standardize_total metadata raw :
  well_formed metadata → length raw = 3%nat →
  ∃ z, _standardize metadata raw = Ok z ∧ length z = 3%nat.
Proof.
  intros [(scaler & ES & Vm & Vs) _] Hraw. unfold _standardize. rewrite ES. simpl.
  destruct (default_vector3 scaler "mean" [0; 0; 0] eq_refl Vm) as (mean & -> & Hm).
  destruct (default_vector3 scaler "scale" [1; 1; 1] eq_refl Vs) as (scale & -> & Hs).
  rewrite !np_array_nums. simpl.
  rewrite np_broadcast_same by congruence. simpl.
  unfold np_divide. rewrite where_zero_one_nonzero.
  assert (L : length (zip_with Qminus raw mean) = 3%nat)
    by (rewrite length_zip_with; lia).
  rewrite np_broadcast_same by (rewrite where_zero_one_length; congruence).
  eexists. split; [reflexivity|].
  rewrite length_zip_with, where_zero_one_length. lia.
Qed.

Lemma weight_total (weights : gmap string json) (feat : field) :
  (∀ f, weights !! name_of f = None ∨ ∃ q, weights !! name_of f = Some (JNum q)) →
  ∃ q, (weight_json ← py_get (JObj weights) (name_of feat) (JNum 0);
        py_float weight_json) = Ok q.
Proof.
  intros W. simpl. destruct (W feat) as [E|(q & E)]; rewrite E; simpl; eauto.
Qed.

Lemma build_explanation_total metadata raw :
  well_formed metadata → length raw = 3%nat →
  ∃ e, _build_explanation metadata raw = Ok e.
Proof.
  intros WF Hraw.
  destruct (standardize_total metadata raw WF Hraw) as (z & EZ & Hz).
  destruct WF as [_ (weights & EW & W)].
  unfold _build_explanation. rewrite EZ, EW. cbn [mbind result_bind].
  destruct z as [|z0 [|z1 [|z2 [|]]]]; try discriminate.
  unfold enumerate, FEATURES. cbn [length seq zip zip_with forM].
  destruct (weight_total weights attendance W) as (w0 & E0).
  destruct (weight_total weights marks W) as (w1 & E1).
  destruct (weight_total weights internal_score W) as (w2 & E2).
  cbn [mbind result_bind py_get] in E0, E1, E2 |- *.
  destruct (py_float (default (JNum 0) (weights !! name_of attendance)));
    [|discriminate].
  destruct (py_float (default (JNum 0) (weights !! name_of marks)));
    [|discriminate].
  destruct (py_float (default (JNum 0) (weights !! name_of internal_score)));
    [|discriminate].
  cbn [mbind result_bind index lookup list_lookup]. eauto.
Qed.

Lemma suggest_total (weights : gmap string json) scales raw base_prob base_logit
    idx feat cur :
  (∀ t, 0 <= np_exp t) →
  (∀ f, weights !! name_of f = None ∨ ∃ q, weights !! name_of f = Some (JNum q)) →
  raw !! idx = Some cur → feat ≠ final_exam_score →
  ∃ o, suggest (JObj weights) scales raw base_prob base_logit idx feat = Ok o.
Proof.
  intros Hexp W Hcur Hfeat. unfold suggest, index. rewrite Hcur.
  cbn [mbind result_bind].
  destruct (max_increase feat) as [cap|] eqn:EC; [|by destruct feat].
  cbn [mbind result_bind].
  destruct (Qle_bool (Qmin cap (100 - cur)) 0); [eauto|].
  destruct (weight_total weights feat W) as (w & EW).
  cbn [mbind result_bind py_get] in EW |- *.
  destruct (py_float (default (JNum 0) (weights !! name_of feat))) as [coef|];
    [|discriminate].
  cbn [mbind result_bind].
  set (scale := if (idx <? length scales)%nat then nth idx scales 1 else 1).
  rewrite py_div_Ok.
  2:{ destruct (Qeq_bool scale 0) eqn:E; [lra | by apply Qeq_bool_false]. }
  cbn [mbind result_bind].
  destruct (sigmoid_total (base_logit + coef * (Qmin cap (100 - cur)
             / (if Qeq_bool scale 0 then 1 else scale))) Hexp) as (p & ->).
  cbn [mbind result_bind]. eauto.
Qed.

Lemma compute_feedback_total metadata raw base_prob :
  (∀ t, 0 <= np_exp t) → well_formed metadata → length raw = 3%nat →
  ∃ out, _compute_feedback metadata raw base_prob = Ok out.
Proof.
  intros Hexp [(scaler & ES & _ & Vs) (weights & EW & W)] Hraw.
  unfold _compute_feedback. rewrite ES, EW. cbn [py_get mbind result_bind].
  destruct (default_vector3 scaler "scale" [1; 1; 1] eq_refl Vs) as (scale & -> & Hs).
  rewrite np_array_nums. cbn [mbind result_bind].
  destruct (logit_total base_prob) as (bl & ->). cbn [mbind result_bind].
  destruct raw as [|r0 [|r1 [|r2 [|]]]]; try discriminate.
  unfold enumerate, FEATURES. cbn [length seq zip zip_with forM].
  destruct (suggest_total weights scale [r0; r1; r2] base_prob bl 0 attendance r0
              Hexp W eq_refl ltac:(discriminate)) as (o1 & ->).
  destruct (suggest_total weights scale [r0; r1; r2] base_prob bl 1 marks r1
              Hexp W eq_refl ltac:(discriminate)) as (o2 & ->).
  destruct (suggest_total weights scale [r0; r1; r2] base_prob bl 2 internal_score r2
              Hexp W eq_refl ltac:(discriminate)) as (o3 & ->).
  cbn [mbind result_bind]. eauto.
Qed.

(** [predict] returns on every validated input when the metadata is
    well formed. *)
Lemma predict_total self a m i fin features final :
  (∀ t, 0 <= np_exp t) → well_formed (metadata self) →
  validate_features a m i = Ok features →
  validate_final fin = Ok final →
  ∃ resp, outcome (predict self a m i fin) = Ok resp.
Proof.
  intros Hexp WF EV EF. unfold predict. rewrite EV, EF. simpl.
  unfold index. simpl.
  destruct (build_explanation_total (metadata self) (raw_vector_of features) WF eq_refl)
    as (e & ->).
  destruct (compute_feedback_total (metadata self) (raw_vector_of features)
              (predict_proba_row (model self) (raw_vector_of features)) Hexp WF eq_refl)
    as (out & ->).
  simpl. eauto.
Qed.

(** [_compute_feedback] never divides by zero either: a zero or absent
    scale is replaced by 1, and the denominators of the logit and of
    the sigmoid are positive. *)
Lemma suggest_never_divides_by_zero coefficients scales raw base_prob base_logit
    idx feat :
  (∀ t, 0 <= np_exp t) →
  suggest coefficients scales raw base_prob base_logit idx feat
    ≠ Raise ZeroDivisionError.
Proof.
  intros Hexp. unfold suggest, index.
  destruct (raw !! idx) as [cur|]; cbn [mbind result_bind]; [|discriminate].
  destruct (max_increase feat) as [cap|] eqn:EC; cbn [mbind result_bind].
  2:{ destruct feat; simpl in EC; congruence. }
  destruct (Qle_bool (Qmin cap (100 - cur)) 0); [discriminate|].
  destruct (py_get coefficients _ _) as [cj|e] eqn:EG; cbn [mbind result_bind].
  2:{ destruct coefficients; simpl in EG; congruence. }
  destruct (py_float cj) as [coef|e] eqn:EP; cbn [mbind result_bind].
  2:{ destruct cj; simpl in EP; congruence. }
  set (scale := if (idx <? length scales)%nat then nth idx scales 1 else 1).
  rewrite py_div_Ok.
  2:{ destruct (Qeq_bool scale 0) eqn:E; [lra | by apply Qeq_bool_false]. }
  cbn [mbind result_bind].
  destruct (sigmoid_total (base_logit + coef * (Qmin cap (100 - cur)
             / (if Qeq_bool scale 0 then 1 else scale))) Hexp) as (p & ->).
  discriminate.
Qed.

Lemma compute_feedback_never_divides_by_zero metadata raw base_prob :
  (∀ t, 0 <= np_exp t) →
  _compute_feedback metadata raw base_prob ≠ Raise ZeroDivisionError.
Proof.
  intros Hexp. unfold _compute_feedback.
  destruct (py_get _ "scale" _) as [sj|e] eqn:E1; cbn [mbind result_bind].
  2:{ unfold py_get in E1. destruct (dict_get_or _ "scaler" _); congruence. }
  destruct (np_array sj) as [scales|e] eqn:ES; cbn [mbind result_bind].
  2:{ intros [= ->]. by apply np_array_no_zero_division in ES. }
  destruct (logit_total base_prob) as (bl & ->). cbn [mbind result_bind].
  unfold enumerate, FEATURES. cbn [length seq zip zip_with forM].
  repeat match goal with
         | |- context [suggest ?c ?s ?r ?b ?l ?i ?f] =>
             let E := fresh "E" in
             destruct (suggest c s r b l i f) as [?|?] eqn:E; cbn [mbind result_bind];
             [| intros [= ->]; by apply (suggest_never_divides_by_zero _ _ _ _ _ _ _ Hexp) in E ]
         end.
  discriminate.
Qed.

(** *** Suspicion markers *)

Lemma suspicion_markers_spec features final :
  _collect_suspicion_markers features final ≠ []
  ↔ rule_zero_marks features ∨ rule_low_attendance features
    ∨ rule_low_final features final.
Proof.
  unfold _collect_suspicion_markers, rule_zero_marks, rule_low_attendance,
    rule_low_final.
  destruct (Qeq_bool (f_marks features) 0) eqn:E1;
    [apply Qeq_bool_iff in E1 | apply Qeq_bool_false in E1];
  (destruct (Qle_bool 60 (f_internal_score features)) eqn:E2;
    [apply Qle_bool_iff in E2 | apply Qle_bool_gt in E2]);
  (destruct (Qltb (f_attendance features) 40) eqn:E3;
    [apply Qltb_lt in E3 | apply Qltb_ge in E3]);
  (destruct (Qle_bool 80 (f_marks features)) eqn:E4;
    [apply Qle_bool_iff in E4 | apply Qle_bool_gt in E4]);
  simpl; try (split; [intros _; tauto | discriminate]);
  (destruct final as [score|];
   [ destruct (Qltb score 20) eqn:E5;
       [apply Qltb_lt in E5 | apply Qltb_ge in E5];
     (destruct (Qle_bool 70 (f_marks features)) eqn:E6;
       [apply Qle_bool_iff in E6 | apply Qle_bool_gt in E6]);
     simpl;
     first
       [ split; [intros _; right; right; exists score; tauto | discriminate]
       | split; [congruence |];
         intros [[? ?]|[[? ?]|(s & [= <-] & ? & ?)]]; lra ]
   | split; [congruence |];
     intros [[? ?]|[[? ?]|(s & ? & _)]]; try lra; discriminate ]).
Qed.

(** C9: on validated input the detector raises a note exactly when one
    of the three rules fires; the response is flagged exactly when there
    is a note, and then carries the notes; the probability and the label
    are those of the features alone, so the same call with any other
    final exam score returns the same probability and label. *)
Theorem suspicion_is_advisory self a m i fin features final resp :
  validate_features a m i = Ok features →
  validate_final fin = Ok final →
  outcome (predict self a m i fin) = Ok resp →
  (_collect_suspicion_markers features final ≠ []
     ↔ rule_zero_marks features ∨ rule_low_attendance features
       ∨ rule_low_final features final)
  ∧ (suspicious_input resp = true ↔ _collect_suspicion_markers features final ≠ [])
  ∧ (_collect_suspicion_markers features final ≠ [] →
       suspicious_reasons resp = Some (_collect_suspicion_markers features final))
  ∧ probability resp = predict_proba_row (model self) (raw_vector_of features)
  ∧ predicted_result resp =
      label_of (predict_proba_row (model self) (raw_vector_of features)) (threshold self)
  ∧ (∀ fin' resp', outcome (predict self a m i fin') = Ok resp' →
       probability resp' = probability resp
       ∧ predicted_result resp' = predicted_result resp).
Proof.
  intros EV EF E.
  apply predict_Ok in E
    as (features' & final' & EV' & EF' & _ & EP & EL & _ & ES & ER & _ & _).
  rewrite EV in EV'. injection EV' as <-.
  rewrite EF in EF'. injection EF' as <-.
  split; [apply suspicion_markers_spec|].
  split; [|split; [|split; [exact EP|split]]].
  - rewrite ES. destruct (_collect_suspicion_markers features final);
      split; congruence.
  - intros NE. rewrite ER.
    destruct (_collect_suspicion_markers features final); congruence.
  - rewrite EL, EP. reflexivity.
  - intros fin' resp' E'.
    apply predict_Ok in E'
      as (features' & final' & EV' & _ & _ & EP' & EL' & _).
    rewrite EV in EV'. injection EV' as <-.
    rewrite EL', EL, EP', EP. split; reflexivity.
Qed.

(** *** Probability, label and threshold *)

(** C1: when the model's probabilities lie in [0,1], every response of
    [predict] and every result of [predict_batch] carries a probability
    in [0,1], the predictor's threshold as [threshold_used], and a label
    that is 1 exactly when the probability reaches that threshold (0
    otherwise); the predictor's threshold is the one resolved when it
    was loaded. *)
Theorem probability_and_label self :
  (∀ x, 0 <= predict_proba_row (model self) x ∧ predict_proba_row (model self) x <= 1) →
  (∀ a m i fin resp, outcome (predict self a m i fin) = Ok resp →
     consistent (threshold self) (probability resp) (threshold_used resp)
                (predicted_result resp))
  ∧ (∀ data results, outcome (predict_batch self data) = Ok results →
       length results = length data
       ∧ Forall (λ r, consistent (threshold self) (b_probability r)
                                 (b_threshold_used r) (b_predicted_result r)) results)
  ∧ (∀ env fs, _load_model_and_metadata env fs = Ok self →
       _resolve_threshold env (metadata self) = Ok (threshold self)).
Proof.
  intros Hmodel. split; [|split].
  - intros a m i fin resp E.
    apply predict_Ok in E as (features & final & _ & _ & _ & EP & EL & ET & _).
    destruct (Hmodel (raw_vector_of features)) as [P0 P1].
    destruct (label_of_spec (probability resp) (threshold self)) as [L1 L2].
    unfold consistent. rewrite EL, ET, EP in *. tauto.
  - intros data results E.
    apply predict_batch_Ok in E as (processed & EPr & F).
    split.
    + apply forM_Ok_length in EPr. apply Forall2_length in F. congruence.
    + clear EPr. induction F as [|p r ps rs (EP & EL & ET & _) F IH]; constructor.
      * destruct (Hmodel (raw_vector_of (snd (fst p)))) as [P0 P1].
        destruct (label_of_spec (b_probability r) (threshold self)) as [L1 L2].
        unfold consistent. rewrite EL, ET, EP in *. tauto.
      * exact IH.
  - intros env fs E. unfold _load_model_and_metadata in E.
    destruct (model_file fs); [|discriminate].
    destruct (match metadata_file fs with
              | Some Corrupt => _ | Some (Doc j) => _ | None => _ end) as [md|];
      cbn [mbind result_bind] in E; [|discriminate].
    destruct (_resolve_threshold env md) as [t|] eqn:ER;
      cbn [mbind result_bind] in E; [|discriminate].
    injection E as <-. exact ER.
Qed.

(** *** Threshold resolution *)






(** *** Batches *)

Lemma forM_fails {A B} (f : A → result B) (l : list A) (x : A) :
  x ∈ l → is_ok (f x) = false →
  ∃ y e, y ∈ l ∧ f y = Raise e ∧ forM f l = Raise e.
Proof.
  induction l as [|z l IH]; intros Hx Hf; [by apply elem_of_nil in Hx|].
  cbn [forM]. destruct (f z) as [b|e] eqn:E; cbn [mbind result_bind].
  - apply elem_of_cons in Hx as [->|Hx]; [rewrite E in Hf; discriminate|].
    destruct (IH Hx Hf) as (y & e & Hy & Ey & ->).
    exists y, e. split; [apply elem_of_cons; by right|]. split; [exact Ey|reflexivity].
  - exists z, e. split; [apply elem_of_cons; by left|]. split; [exact E|reflexivity].
Qed.

Lemma validate_range_Raise name v e :
  _validate_range name v = Raise e → ∃ msg, e = InvalidInputError msg.
Proof.
  unfold _validate_range. destruct v as [|[q| | |]|], name; simpl;
    try (intros [= <-]; eauto);
    (destruct (Qle_bool 0 q && Qle_bool q 100); [discriminate | intros [= <-]; eauto]).
Qed.

Lemma validate_features_Raise a m i e :
  validate_features a m i = Raise e → ∃ msg, e = InvalidInputError msg.
Proof.
  unfold validate_features.
  destruct (_validate_range attendance a) eqn:E1; cbn [mbind result_bind];
    [|intros [= <-]; by eapply validate_range_Raise].
  destruct (_validate_range marks m) eqn:E2; cbn [mbind result_bind];
    [|intros [= <-]; by eapply validate_range_Raise].
  destruct (_validate_range internal_score i) eqn:E3; cbn [mbind result_bind];
    [discriminate|intros [= <-]; by eapply validate_range_Raise].
Qed.

(** An item that fails on one of the three features is reported with
    the item itself; one that fails on [final_exam_score] is reported by
    the bare validation message. *)
Lemma process_item_Raise item e :
  process_item item = Raise e →
  (∃ exc, validate_features (item_attendance item) (item_marks item)
                            (item_internal_score item) = Raise (InvalidInputError exc)
          ∧ e = InvalidInputError (InvalidBatchItem item exc))
  ∨ (∃ features, validate_features (item_attendance item) (item_marks item)
                                   (item_internal_score item) = Ok features
                 ∧ validate_final (item_final_exam_score item) = Raise e
                 ∧ ∃ msg, e = InvalidInputError msg).
Proof.
  unfold process_item.
  destruct (validate_features _ _ _) as [features|e'] eqn:EV.
  - cbn [mbind result_bind].
    destruct (validate_final _) as [final|e''] eqn:EF; cbn [mbind result_bind];
      [discriminate|].
    intros [= <-]. right. exists features. repeat split.
    unfold validate_final in EF.
    destruct (item_final_exam_score item); try discriminate;
      (destruct (_validate_range final_exam_score _) eqn:ER;
       cbn [mbind result_bind] in EF; [discriminate|];
       injection EF as <-; by eapply validate_range_Raise).
  - destruct (validate_features_Raise _ _ _ _ EV) as (msg & ->).
    cbn [mbind result_bind]. intros [= <-]. left. eauto.
Qed.

(** A batch with an invalid item fails as a whole with
    [InvalidInputError], returns no result and never reaches the
    model. *)
Lemma predict_batch_fail_fast self data item :
  item ∈ data → is_ok (process_item item) = false →
  ∃ msg, predict_batch self data =
           {| inferences := []; outcome := Raise (InvalidInputError msg) |}.
Proof.
  intros Hi Hf.
  destruct (forM_fails process_item data item Hi Hf) as (y & e & _ & Ey & EF).
  unfold predict_batch. rewrite EF.
  apply process_item_Raise in Ey as [(exc & _ & ->)|(_ & _ & _ & msg & ->)]; eauto.
Qed.
End PredictorFacts.

(** ** The predictor on the concrete run *)

Lemma demo_exp_nonneg (t : Q) : 0 <= demo_exp t.
Proof.
  unfold demo_exp. destruct (Qltb t 0) eqn:E.
  - apply Qltb_lt in E. apply Qle_shift_div_l; lra.
  - apply Qltb_ge in E. lra.
Qed.

Lemma squash_range (z : Q) : 0 <= squash z ∧ squash z <= 1.
Proof.
  unfold squash.
  assert (P : 0 < 2 * (1 + Qabs z)) by (pose proof (Qabs_nonneg z); lra).
  assert (L : - Qabs z <= z ∧ z <= Qabs z).
  { split; [|apply Qle_Qabs].
    pose proof (Qle_Qabs (- z)) as A. rewrite Qabs_opp in A. lra. }
  assert (B1 : - (1 # 2) <= z / (2 * (1 + Qabs z))) by (apply Qle_shift_div_l; lra).
  assert (B2 : z / (2 * (1 + Qabs z)) <= 1 # 2) by (apply Qle_shift_div_r; lra).
  lra.
Qed.

Lemma demo_fit_calibrated_range rs data m x :
  demo_fit_calibrated rs data = Ok m →
  0 <= predict_proba_row m x ∧ predict_proba_row m x <= 1.
Proof.
  unfold demo_fit_calibrated. destruct (demo_fit rs data); [|discriminate].
  cbn [mbind result_bind]. intros [= <-]. apply squash_range.
Qed.

Lemma demo_model_range (x : list Q) :
  0 <= predict_proba_row demo_model x ∧ predict_proba_row demo_model x <= 1.
Proof.
  pose proof demo_trained_eq as E. apply train_model_Ok in E
    as (X & y & _ & _ & _ & _ & _ & _ & _ & _ & EC & _).
  by eapply demo_fit_calibrated_range.
Qed.

Lemma demo_predictor_eq : _load_model_and_metadata None demo_fs = Ok demo_predictor.
Proof.
  assert (O : is_ok (_load_model_and_metadata None demo_fs) = true)
    by (vm_compute; reflexivity).
  unfold demo_predictor.
  destruct (_load_model_and_metadata None demo_fs); [reflexivity | discriminate].
Qed.

Lemma load_model_file `{Runtime} env fs self :
  _load_model_and_metadata env fs = Ok self → model_file fs = Some (model self).
Proof.
  unfold _load_model_and_metadata.
  destruct (model_file fs) as [loaded|]; [|discriminate].
  destruct (match metadata_file fs with
            | Some Corrupt => _ | Some (Doc j) => _ | None => _ end) as [md|];
    cbn [mbind result_bind]; [|discriminate].
  destruct (_resolve_threshold env md); cbn [mbind result_bind]; [|discriminate].
  intros [= <-]. reflexivity.
Qed.

Lemma demo_predictor_model : model demo_predictor = demo_model.
Proof.
  pose proof (load_model_file _ _ _ demo_predictor_eq) as E.
  pose proof demo_trained_eq as T. apply train_model_Ok in T
    as (? & ? & ? & ? & ? & ? & produced & _ & _ & _ & _ & _ & _ & _ & _ & _ & _ & W).
  apply save_metadata_frame in W as (_ & W & _).
  change (model_file demo_fs = Some demo_model) in W.
  congruence.
Qed.

Lemma demo_predictor_range (x : list Q) :
  0 <= predict_proba_row (model demo_predictor) x
  ∧ predict_proba_row (model demo_predictor) x <= 1.
Proof. rewrite demo_predictor_model. apply demo_model_range. Qed.

Example resolve_env_wins :
  _resolve_threshold (Some "0.75") (JObj admin_metadata) = Ok (3 # 4).
Proof. vm_compute. reflexivity. Qed.

Example resolve_env_out_of_range :
  _resolve_threshold (Some "1.5") (JObj admin_metadata) = Ok (2 # 5).
Proof. vm_compute. reflexivity. Qed.

Example resolve_env_not_a_number :
  _resolve_threshold (Some "high") (JObj admin_metadata) = Ok (2 # 5).
Proof. vm_compute. reflexivity. Qed.

Example resolve_env_nan :
  _resolve_threshold (Some "nan") (JObj admin_metadata) = Ok (2 # 5).
Proof. vm_compute. reflexivity. Qed.

Example resolve_user_malformed :
  _resolve_threshold None (JObj (<["user_threshold" := JStr "0.4"]> ∅)) = Ok (3 # 5).
Proof. vm_compute. reflexivity. Qed.

Example resolve_source :
  match _resolve_threshold_with_source None admin_fs with
  | Ok r => Some (snd r)
  | Raise _ => None
  end = Some from_metadata_user.
Proof. vm_compute. reflexivity. Qed.

Lemma probability_and_label_witness :
  (∀ x, 0 <= predict_proba_row (model demo_predictor) x
        ∧ predict_proba_row (model demo_predictor) x <= 1)
  ∧ ∃ resp,
      outcome (predict demo_predictor (num 56) (num 0) (num 70) PNone) = Ok resp
      ∧ consistent (threshold demo_predictor) (probability resp) (threshold_used resp)
                   (predicted_result resp).
Proof.
  split; [exact demo_predictor_range|].
  assert (O : is_ok (outcome (predict demo_predictor (num 56) (num 0) (num 70) PNone)) = true)
    by (vm_compute; reflexivity).
  destruct (outcome (predict demo_predictor (num 56) (num 0) (num 70) PNone))
    as [resp|e] eqn:E; [|discriminate O].
  exists resp. split; [reflexivity|].
  exact (proj1 (probability_and_label demo_predictor demo_predictor_range) _ _ _ _ resp E).
Defined.


Lemma suggestions_bounded_and_ranked_witness :
  (∀ t, 0 <= np_exp t)
  ∧ (∀ x, 0 <= predict_proba_row (model demo_predictor) x
          ∧ predict_proba_row (model demo_predictor) x <= 1)
  ∧ ∃ resp,
      outcome (predict demo_predictor (num 56) (num 0) (num 100) PNone) = Ok resp
      ∧ ∃ features,
          validate_features (num 56) (num 0) (num 100) = Ok features
          ∧ Forall (λ s,
              value_of features (feature s) = Some (current_value s)
              ∧ 0 < allowed_increase (feature s) (current_value s)
              ∧ current_value s + allowed_increase (feature s) (current_value s) <= 100
              ∧ change_by (suggested_change s) =
                  py_round (allowed_increase (feature s) (current_value s))
              ∧ change_to (suggested_change s) =
                  py_round (current_value s + allowed_increase (feature s) (current_value s))
              ∧ (change_to (suggested_change s) ≤ 100)%Z
              ∧ 0 <= estimated_probability_gain s
              ∧ estimated_probability_gain s <= 1 - probability resp) (feedback resp)
          ∧ (∀ feat v, value_of features feat = Some v → allowed_increase feat v <= 0 →
               Forall (λ s, feature s ≠ feat) (feedback resp))
          ∧ StronglySorted suggestion_le (feedback resp).
Proof.
  split; [exact demo_exp_nonneg|]. split; [exact demo_predictor_range|].
  assert (O : is_ok (outcome (predict demo_predictor (num 56) (num 0) (num 100) PNone)) = true)
    by (vm_compute; reflexivity).
  destruct (outcome (predict demo_predictor (num 56) (num 0) (num 100) PNone))
    as [resp|e] eqn:E; [|discriminate O].
  exists resp. split; [reflexivity|].
  exact (suggestions_bounded_and_ranked demo_predictor _ _ _ _ resp
           demo_exp_nonneg demo_predictor_range E).
Defined.

Example feedback_skips_full_feature :
  match outcome (predict demo_predictor (num 56) (num 0) (num 100) PNone) with
  | Ok resp => Some (feature <$> feedback resp)
  | Raise _ => None
  end = Some [marks; attendance].
Proof. vm_compute. reflexivity. Qed.

Lemma suspicion_is_advisory_witness :
  let features := {| f_attendance := 30; f_marks := 85; f_internal_score := 70 |} in
  validate_features (num 30) (num 85) (num 70) = Ok features
  ∧ validate_final (num 10) = Ok (Some 10)
  ∧ ∃ resp,
      outcome (predict demo_predictor (num 30) (num 85) (num 70) (num 10)) = Ok resp
      ∧ (_collect_suspicion_markers features (Some 10) ≠ []
           ↔ rule_zero_marks features ∨ rule_low_attendance features
             ∨ rule_low_final features (Some 10))
      ∧ (suspicious_input resp = true
           ↔ _collect_suspicion_markers features (Some 10) ≠ [])
      ∧ (_collect_suspicion_markers features (Some 10) ≠ [] →
           suspicious_reasons resp = Some (_collect_suspicion_markers features (Some 10)))
      ∧ probability resp = predict_proba_row (model demo_predictor) (raw_vector_of features)
      ∧ predicted_result resp =
          label_of (predict_proba_row (model demo_predictor) (raw_vector_of features))
                   (threshold demo_predictor)
      ∧ (∀ fin' resp',
           outcome (predict demo_predictor (num 30) (num 85) (num 70) fin') = Ok resp' →
           probability resp' = probability resp
           ∧ predicted_result resp' = predicted_result resp).
Proof.
  intros features.
  assert (EV : validate_features (num 30) (num 85) (num 70) = Ok features)
    by reflexivity.
  assert (EF : validate_final (num 10) = Ok (Some 10)) by reflexivity.
  split; [exact EV|]. split; [exact EF|].
  assert (O : is_ok (outcome (predict demo_predictor (num 30) (num 85) (num 70) (num 10))) = true)
    by (vm_compute; reflexivity).
  destruct (outcome (predict demo_predictor (num 30) (num 85) (num 70) (num 10)))
    as [resp|e] eqn:E; [|discriminate O].
  exists resp. split; [reflexivity|].
  exact (suspicion_is_advisory demo_predictor _ _ _ _ features (Some 10) resp EV EF E).
Defined.

Example suspicion_notes_of_low_attendance :
  _collect_suspicion_markers
    {| f_attendance := 30; f_marks := 85; f_internal_score := 70 |} (Some 10)
  = [note_low_attendance; note_low_final].
Proof. vm_compute. reflexivity. Qed.

(** C7, the case the code misses: the second item of this batch has a
    final exam score of 150. The call fails as a whole and the model is
    never asked, but the error is the bare validation message for
    [final_exam_score]: it is not wrapped with the item, as the errors of
    the three features are, so nothing in it tells which item was wrong. *)
Theorem predict_batch_final_exam_not_located :
  let good := item (num 56) (num 0) (num 70) PNone in
  let bad := item (num 50) (num 50) (num 50) (num 150) in
  predict_batch demo_predictor [good; bad] =
    {| inferences := [];
       outcome := Raise (InvalidInputError
                           (OutOfRange final_exam_score 0 100 (Finite 150))) |}
  ∧ outcome (predict_batch demo_predictor
               [good; item (num 50) (num 500) (num 50) (num 150)]) =
      Raise (InvalidInputError
               (InvalidBatchItem (item (num 50) (num 500) (num 50) (num 150))
                                 (OutOfRange marks 0 100 (Finite 500)))).
Proof. split; vm_compute; reflexivity. Qed.

(** C10, the case the code misses: with a scale vector of two entries
    [_compute_feedback] still answers (the absent third scale counts as
    1), but [_standardize] cannot broadcast three features against two
    scales, so [predict] raises on a valid input. *)
Theorem predict_short_scale_vector :
  outcome (predict short_scale_predictor (num 50) (num 50) (num 50) PNone)
    = Raise (ValueError (CannotBroadcast 3 2))
  ∧ _standardize (metadata short_scale_predictor) [50; 50; 50]
    = Raise (ValueError (CannotBroadcast 3 2))
  ∧ is_ok (_compute_feedback (metadata short_scale_predictor) [50; 50; 50] (1 # 2))
    = true.
Proof. repeat split; vm_compute; reflexivity. Qed.

(** * Further properties of the code *)

(** ** Validation *)

Section MoreValidation.
Context `{Runtime}.


(** X2: [predict_batch] stops at the first item that fails validation:
    the call returns no result, never asks the model, and raises the
    [InvalidInputError] of that item; when the failure is in one of the
    three features the error carries the item itself. *)
Theorem predict_batch_stops_at_first_invalid self good bad rest e :
  Forall (λ z, is_ok (process_item z) = true) good →
  process_item bad = Raise e →
  predict_batch self (good ++ bad :: rest) = {| inferences := []; outcome := Raise e |}
  ∧ (∃ msg, e = InvalidInputError msg)
  ∧ (∀ exc, validate_features (item_attendance bad) (item_marks bad)
                              (item_internal_score bad) = Raise (InvalidInputError exc) →
       e = InvalidInputError (InvalidBatchItem bad exc)).
Proof.
  intros Hgood Hbad.
  assert (F : forM process_item (good ++ bad :: rest) = Raise e).
  { induction Hgood as [|z zs Hz _ IH]; cbn [app forM].
    - rewrite Hbad. reflexivity.
    - destruct (process_item z); [|discriminate]. cbn [mbind result_bind].
      rewrite IH. reflexivity. }
  split; [unfold predict_batch; by rewrite F|].
  apply process_item_Raise in Hbad as [(exc & EV & ->)|(features & EV & _ & msg & ->)].
  - split; [eauto|]. intros exc' EV'. congruence.
  - split; [eauto|]. intros exc' EV'. congruence.
Qed.
End MoreValidation.

Lemma predict_batch_stops_at_first_invalid_witness :
  let good := [item (num 56) (num 0) (num 70) PNone] in
  let bad := item (num 50) (num 500) (num 50) PNone in
  let e := InvalidInputError (InvalidBatchItem bad (OutOfRange marks 0 100 (Finite 500))) in
  Forall (λ z, is_ok (process_item z) = true) good
  ∧ process_item bad = Raise e
  ∧ predict_batch demo_predictor (good ++ bad :: [item (num 1) (num 2) (num 3) PNone])
    = {| inferences := []; outcome := Raise e |}.
Proof.
  intros good bad e.
  assert (H1 : Forall (λ z, is_ok (process_item z) = true) good)
    by (repeat constructor).
  assert (H2 : process_item bad = Raise e) by reflexivity.
  split; [exact H1|]. split; [exact H2|].
  exact (proj1 (predict_batch_stops_at_first_invalid demo_predictor good bad
                  [item (num 1) (num 2) (num 3) PNone] e H1 H2)).
Defined.

(** ** Batches and single predictions *)

Section MoreBatch.
Context `{Runtime}.

#[local] Arguments _build_explanation : simpl never.
#[local] Arguments _compute_feedback : simpl never.
#[local] Arguments _collect_suspicion_markers : simpl never.
#[local] Arguments _build_feedback_paragraph : simpl never.
#[local] Arguments validate_features : simpl never.
#[local] Arguments validate_final : simpl never.
#[local] Arguments raw_vector_of : simpl never.
#[local] Arguments label_of : simpl never.

Lemma enumerate_lookup {A} (l : list A) (base k : nat) (x : A) :
  l !! k = Some x → zip (seq base (length l)) l !! k = Some ((base + k)%nat, x).
Proof.
  revert base k. induction l as [|y l IH]; intros base k Hk; [discriminate|].
  destruct k as [|k]; simpl in *.
  - injection Hk as ->. by rewrite Nat.add_0_r.
  - rewrite (IH (S base) k Hk). f_equal. f_equal. lia.
Qed.

Lemma process_item_Ok item p :
  process_item item = Ok p →
  ∃ features final,
    validate_features (item_attendance item) (item_marks item)
                      (item_internal_score item) = Ok features
    ∧ validate_final (item_final_exam_score item) = Ok final
    ∧ p = (item, features, _collect_suspicion_markers features final).
Proof.
  unfold process_item.
  destruct (validate_features _ _ _) as [features|[]] eqn:EV;
    cbn [mbind result_bind]; try discriminate.
  destruct (validate_final _) as [final|] eqn:EF; cbn [mbind result_bind];
    [|discriminate].
  intros [= <-]. eauto.
Qed.

(** X3: a result of [predict_batch] is what [predict] answers for the
    same item: same probability, label, threshold, suspicion flag and
    reasons, and explanation, in the position of the item and with its
    identifiers. *)
Theorem predict_batch_agrees_with_predict self data results k item resp :
  outcome (predict_batch self data) = Ok results →
  data !! k = Some item →
  outcome (predict self (item_attendance item) (item_marks item)
                   (item_internal_score item) (item_final_exam_score item)) = Ok resp →
  ∃ r, results !! k = Some r
       ∧ b_student_id r = student_id item
       ∧ b_course_id r = course_id item
       ∧ b_probability r = probability resp
       ∧ b_predicted_result r = predicted_result resp
       ∧ b_threshold_used r = threshold_used resp
       ∧ b_suspicious_input r = suspicious_input resp
       ∧ b_suspicious_reasons r = suspicious_reasons resp
       ∧ b_explanation r = explanation resp.
Proof.
  intros EB Hk EP.
  apply predict_Ok in EP
    as (features & final & EV & EF & _ & Eproba & Elabel & Ethr & Eflag & Ereasons & Eexpl & _).
  unfold predict_batch in EB.
  destruct (forM process_item data) as [processed|] eqn:EPr; simpl in EB; [|discriminate].
  apply forM_Ok_Forall2 in EPr.
  destruct (Forall2_lookup_l _ _ _ _ _ EPr Hk) as (p & Hp & Eitem).
  apply process_item_Ok in Eitem as (features' & final' & EV' & EF' & ->).
  rewrite EV in EV'. injection EV' as <-. rewrite EF in EF'. injection EF' as <-.
  unfold predict_proba in EB.
  destruct (_ <$> processed) as [|row0 rows0] eqn:EM; [discriminate|].
  rewrite <- EM in EB. clear EM row0 rows0. cbn [mbind result_bind] in EB.
  apply forM_Ok_Forall2 in EB.
  pose proof (enumerate_lookup processed 0 k _ Hp) as Hen.
  destruct (Forall2_lookup_l _ _ _ _ _ EB Hen) as (r & Hr & Er).
  exists r. split; [exact Hr|].
  simpl in Er. unfold batch_result, index in Er.
  rewrite list_lookup_fmap, list_lookup_fmap, Hp in Er. simpl in Er.
  rewrite Eexpl in Er. simpl in Er. injection Er as <-. simpl.
  rewrite Eproba, Elabel, Ethr, Eflag, Ereasons, Eproba.
  repeat split; destruct (_collect_suspicion_markers features final); reflexivity.
Qed.

Lemma build_explanation_no_zero_division metadata raw :
  _build_explanation metadata raw ≠ Raise ZeroDivisionError.
Proof.
  unfold _build_explanation.
  destruct (_standardize metadata raw) as [z|e] eqn:EZ; cbn [mbind result_bind].
  2:{ intros [= ->]. by apply standardize_never_divides_by_zero in EZ. }
  destruct (forM _ (enumerate FEATURES)) as [cs|e] eqn:EC; cbn [mbind result_bind];
    [discriminate|].
  intros [= ->]. apply forM_Raise_first in EC as (good & [idx feat] & rest & _ & EC & _).
  destruct (py_get _ (name_of feat) _) as [wj|e] eqn:EG; cbn [mbind result_bind] in EC.
  2:{ unfold py_get in EG. destruct (dict_get_or _ "coefficients" _); congruence. }
  destruct (py_float wj) as [w|e] eqn:EP; cbn [mbind result_bind] in EC.
  2:{ destruct wj; simpl in EP; congruence. }
  unfold index in EC. destruct (z !! idx); discriminate.
Qed.

(** X4: whatever the metadata document holds, neither [predict] nor
    [predict_batch] ends in a division by zero: a zero scale is replaced
    by 1 before dividing, and the denominators of the logit and the
    sigmoid are positive. *)
Theorem predict_never_divides_by_zero self :
  (∀ t, 0 <= np_exp t) →
  (∀ a m i fin, outcome (predict self a m i fin) ≠ Raise ZeroDivisionError)
  ∧ (∀ data, outcome (predict_batch self data) ≠ Raise ZeroDivisionError).
Proof.
  intros Hexp. split.
  - intros a m i fin. unfold predict.
    destruct (validate_features a m i) as [features|e] eqn:EV; cbn [mbind result_bind].
    2:{ apply validate_features_Raise in EV as (msg & ->). discriminate. }
    destruct (validate_final fin) as [final|e] eqn:EF; cbn [mbind result_bind].
    2:{ simpl. intros [= ->]. unfold validate_final in EF.
        destruct fin; try discriminate;
          (destruct (_validate_range final_exam_score _) eqn:ER;
           cbn [mbind result_bind] in EF; [discriminate|];
           injection EF as ->; by apply validate_range_Raise in ER as (? & ?)). }
    simpl. unfold index. simpl.
    destruct (_build_explanation _ _) as [ex|e] eqn:EE; cbn [mbind result_bind].
    2:{ intros [= ->]. by apply build_explanation_no_zero_division in EE. }
    destruct (_compute_feedback _ _ _) as [fb|e] eqn:EC; cbn [mbind result_bind];
      [discriminate|].
    intros [= ->]. by apply (compute_feedback_never_divides_by_zero _ _ _ Hexp) in EC.
  - intros data. unfold predict_batch.
    destruct (forM process_item data) as [processed|e] eqn:EPr.
    2:{ simpl. intros [= ->].
        apply forM_Raise_first in EPr as (_ & x & _ & _ & Ex & _).
        apply process_item_Raise in Ex as [(? & _ & ?)|(? & _ & _ & ? & ?)]; discriminate. }
    simpl. unfold predict_proba.
    destruct (_ <$> processed) as [|row0 rows0]; [discriminate|].
    cbn [mbind result_bind].
    destruct (forM _ (enumerate processed)) as [rs|e] eqn:ER; [discriminate|].
    intros [= ->].
    apply forM_Raise_first in ER as (_ & [idx [[meta features] item_notes]] & _ & _ & Ex & _).
    unfold batch_result, index in Ex.
    destruct (_ !! idx); cbn [mbind result_bind] in Ex; [|discriminate].
    destruct (_build_explanation _ _) as [ex|e] eqn:EE; cbn [mbind result_bind] in Ex;
      [discriminate|].
    injection Ex as ->. by apply build_explanation_no_zero_division in EE.
Qed.
End MoreBatch.

Lemma predict_batch_agrees_with_predict_witness :
  let flagged := item (num 30) (num 85) (num 70) (num 10) in
  let data := [item (num 56) (num 0) (num 70) PNone; flagged] in
  ∃ results resp,
    outcome (predict_batch demo_predictor data) = Ok results
    ∧ data !! 1%nat = Some flagged
    ∧ outcome (predict demo_predictor (num 30) (num 85) (num 70) (num 10)) = Ok resp
    ∧ ∃ r, results !! 1%nat = Some r
         ∧ b_student_id r = student_id flagged
         ∧ b_course_id r = course_id flagged
         ∧ b_probability r = probability resp
         ∧ b_predicted_result r = predicted_result resp
         ∧ b_threshold_used r = threshold_used resp
         ∧ b_suspicious_input r = suspicious_input resp
         ∧ b_suspicious_reasons r = suspicious_reasons resp
         ∧ b_explanation r = explanation resp.
Proof.
  intros flagged data.
  assert (O1 : is_ok (outcome (predict_batch demo_predictor data)) = true)
    by (vm_compute; reflexivity).
  assert (O2 : is_ok (outcome (predict demo_predictor (num 30) (num 85) (num 70) (num 10)))
               = true) by (vm_compute; reflexivity).
  destruct (outcome (predict_batch demo_predictor data)) as [results|] eqn:E1;
    [|discriminate O1].
  destruct (outcome (predict demo_predictor (num 30) (num 85) (num 70) (num 10)))
    as [resp|] eqn:E2; [|discriminate O2].
  exists results, resp. split; [reflexivity|]. split; [reflexivity|].
  split; [reflexivity|].
  exact (predict_batch_agrees_with_predict demo_predictor data results 1 flagged resp
           E1 eq_refl E2).
Defined.

Lemma predict_never_divides_by_zero_witness :
  (∀ t, 0 <= np_exp t)
  ∧ outcome (predict short_scale_predictor (num 50) (num 50) (num 50) PNone)
    ≠ Raise ZeroDivisionError.
Proof.
  split; [exact demo_exp_nonneg|].
  exact (proj1 (predict_never_divides_by_zero short_scale_predictor demo_exp_nonneg)
           (num 50) (num 50) (num 50) PNone).
Defined.

(** ** Training *)

Section MoreTraining.
Context `{Sklearn}.

#[local] Arguments _save_metadata : simpl never.
#[local] Arguments train_model : simpl never.


(** X9: [_save_metadata] never touches the model file and always leaves
    a metadata document equal to the dict it returns; a
    ["user_threshold"] that the new document defines is kept as given,
    and when the previous file is absent, unreadable, not a dict or has
    no ["user_threshold"] the document is written exactly as given. *)
Theorem save_metadata_writes_given_document fs (metadata : gmap string json) :
  let '(fs', md) := _save_metadata fs metadata in
  model_file fs' = model_file fs
  ∧ metadata_file fs' = Some (Doc (JObj md))
  ∧ (is_Some (metadata !! "user_threshold") → md = metadata)
  ∧ ((∀ existing, metadata_file fs = Some (Doc (JObj existing)) →
        existing !! "user_threshold" = None) → md = metadata).
Proof.
  unfold _save_metadata. repeat split.
  - intros [v Hv]. destruct (metadata_file fs) as [[|[]]|]; try reflexivity.
    destruct (m !! "user_threshold"); [|reflexivity]. by rewrite Hv.
  - intros Hno. destruct (metadata_file fs) as [[|[]]|]; try reflexivity.
    by rewrite (Hno m eq_refl).
Qed.
End MoreTraining.

Section MoreScan.
Variables (y : list Z) (y_scores : list Q).

Lemma scan_first_invariant (thresholds : list Q) (b0 f0 : Q) :
  let r := fold_left (threshold_step y y_scores) thresholds (b0, f0) in
  (r = (b0, f0) ∧ ∀ t, t ∈ thresholds → f1_at y y_scores t <= f0)
  ∨ (∃ earlier later,
       thresholds = earlier ++ fst r :: later
       ∧ snd r = f1_at y y_scores (fst r)
       ∧ f0 < f1_at y y_scores (fst r)
       ∧ (∀ t, t ∈ earlier → f1_at y y_scores t < f1_at y y_scores (fst r))
       ∧ (∀ t, t ∈ later → f1_at y y_scores t <= f1_at y y_scores (fst r))).
Proof.
  revert b0 f0. induction thresholds as [|t ts IH]; intros b0 f0; simpl.
  - left. split; [reflexivity|]. intros t Ht. by apply elem_of_nil in Ht.
  - replace (threshold_step y y_scores (b0, f0) t)
      with (if Qltb f0 (f1_at y y_scores t) then (t, f1_at y y_scores t) else (b0, f0))
      by reflexivity.
    destruct (Qltb f0 (f1_at y y_scores t)) eqn:E.
    + apply Qltb_lt in E. right.
      destruct (IH t (f1_at y y_scores t))
        as [[-> D]|(earlier & later & Ets & Es & Elt & Dearly & Dlate)].
      * exists [], ts. simpl. repeat split; try assumption.
        intros u Hu. by apply elem_of_nil in Hu.
      * exists (t :: earlier), later. rewrite Ets at 1. simpl.
        repeat split; try assumption; [lra|].
        intros u Hu. apply elem_of_cons in Hu as [->|Hu]; [exact Elt | by apply Dearly].
    + apply Qltb_ge in E.
      destruct (IH b0 f0) as [[-> D]|(earlier & later & Ets & Es & Elt & Dearly & Dlate)].
      * left. split; [reflexivity|].
        intros u Hu. apply elem_of_cons in Hu as [->|Hu]; [exact E | by apply D].
      * right. exists (t :: earlier), later. rewrite Ets at 1. simpl.
        repeat split; try assumption.
        intros u Hu. apply elem_of_cons in Hu as [->|Hu]; [lra | by apply Dearly].
Qed.

(** X6: among the thresholds of the ROC curve the scan keeps the first
    one, in the order of the curve, that reaches the largest F1: every
    earlier threshold has a strictly smaller F1 and no later one a larger
    F1. *)
Theorem scan_keeps_first_maximum (thresholds : list Q) :
  thresholds ≠ [] →
  ∃ earlier later,
    let best := fst (scan_thresholds y y_scores thresholds) in
    thresholds = earlier ++ best :: later
    ∧ (∀ t, t ∈ earlier → f1_at y y_scores t < f1_at y y_scores best)
    ∧ (∀ t, t ∈ later → f1_at y y_scores t <= f1_at y y_scores best).
Proof.
  intros NE. unfold scan_thresholds.
  destruct (scan_first_invariant thresholds (3 # 5) (- (1)))
    as [[_ D]|(earlier & later & Ets & _ & _ & Dearly & Dlate)].
  - destruct thresholds as [|t0 ts]; [done|].
    pose proof (D t0 ltac:(apply elem_of_cons; by left)) as L.
    pose proof (f1_score_nonneg y (predictions_at y_scores t0)) as P.
    unfold f1_at in L. lra.
  - exists earlier, later. simpl. repeat split; assumption.
Qed.
End MoreScan.

Lemma scan_keeps_first_maximum_witness :
  let y := [1; 0; 1; 0]%Z in
  let scores := [9 # 10; 4 # 5; 2 # 5; 1 # 5] in
  let thresholds := [19 # 10; 9 # 10; 4 # 5; 2 # 5; 1 # 5] in
  thresholds ≠ []
  ∧ ∃ earlier later,
      let best := fst (scan_thresholds y scores thresholds) in
      thresholds = earlier ++ best :: later
      ∧ (∀ t, t ∈ earlier → f1_at y scores t < f1_at y scores best)
      ∧ (∀ t, t ∈ later → f1_at y scores t <= f1_at y scores best).
Proof.
  intros y scores thresholds.
  assert (NE : thresholds ≠ []) by discriminate.
  split; [exact NE|].
  exact (scan_keeps_first_maximum y scores thresholds NE).
Defined.

Example scan_on_four_scores :
  fst (scan_thresholds [1; 0; 1; 0]%Z [9 # 10; 4 # 5; 2 # 5; 1 # 5]
         [19 # 10; 9 # 10; 4 # 5; 2 # 5; 1 # 5]) = 2 # 5.
Proof. reflexivity. Qed.

(** ** Imputation and importances *)

Section MoreImputation.
Context `{Sklearn}.

Lemma insert_stable_length {A} (before : A → A → bool) (x : A) (l : list A) :
  length (insert_stable before x l) = S (length l).
Proof.
  induction l as [|y l IH]; simpl; [reflexivity|].
  destruct (before y x); simpl; [by rewrite IH | reflexivity].
Qed.

Lemma sort_stable_length {A} (before : A → A → bool) (l : list A) :
  length (sort_stable before l) = length l.
Proof.
  induction l as [|x l IH]; simpl; [reflexivity|].
  by rewrite insert_stable_length, IH.
Qed.

Lemma median_is_Some (values : list Q) : values ≠ [] → is_Some (median values).
Proof.
  intros NE. unfold median. rewrite sort_stable_length.
  destruct values as [|v vs]; [done|]. simpl length.
  destruct (Nat.even (S (length vs))); simpl; eauto.
Qed.

Lemma prepare_column_cells (data : DataFrame) (col : field) :
  fst (prepare_column data col) = imputed data col <$> rows data.
Proof.
  unfold prepare_column, imputed, column_median.
  destruct (0 <? length (filter (λ v, v = None) (cell col <$> rows data)))%nat eqn:E;
    cbn [fst].
  - by rewrite <- list_fmap_compose.
  - apply Nat.ltb_ge in E.
    assert (F : filter (λ v, v = None) (cell col <$> rows data) = [])
      by (apply nil_length_inv; lia).
    clear E. generalize (median (omap id (cell col <$> rows data))). intros med.
    induction (rows data) as [|r rs IH]; [reflexivity|].
    rewrite fmap_cons in F. rewrite !fmap_cons.
    destruct (cell col r) as [q|] eqn:Ec.
    + rewrite filter_cons_False in F by done. f_equal. by apply IH.
    + rewrite filter_cons_True in F by done. discriminate.
Qed.

Lemma imputed_is_Some (data : DataFrame) (col : field) (r : Enrollment) :
  (∃ r', r' ∈ rows data ∧ is_Some (cell col r')) → is_Some (imputed data col r).
Proof.
  intros (r' & Hr' & [q Hq]). unfold imputed.
  destruct (cell col r); [eauto|].
  apply median_is_Some. intros E.
  assert (M : q ∈ omap id (cell col <$> rows data)).
  { apply list_elem_of_omap. exists (Some q). split; [|reflexivity].
    apply list_elem_of_fmap. exists r'. auto. }
  rewrite E in M. by apply elem_of_nil in M.
Qed.

Lemma labels_present (rs : list Enrollment) :
  (∀ r, r ∈ rs → is_Some (e_result r)) →
  forM (λ r, match e_result r with
             | Some v => Ok v
             | None => Raise (ValueError InputContainsNaN)
             end) rs = Ok (omap e_result rs)
  ∧ length (omap e_result rs) = length rs.
Proof.
  induction rs as [|r rs IH]; intros Hrs; [split; reflexivity|].
  destruct (Hrs r ltac:(apply elem_of_cons; by left)) as [v Hv].
  destruct IH as [IH1 IH2]; [intros r' Hr'; apply Hrs, elem_of_cons; by right|].
  cbn [forM omap list_omap]. rewrite Hv. cbn [mbind result_bind].
  rewrite IH1. split; [reflexivity|]. simpl. by rewrite IH2.
Qed.

(** The training set of a frame whose rows all have a result and whose
    feature columns all have a present cell. *)
Lemma training_set_of_frame (data : DataFrame) :
  (∀ r, r ∈ rows data → is_Some (e_result r)) →
  (∀ col, col ∈ FEATURES → ∃ r, r ∈ rows data ∧ is_Some (cell col r)) →
  training_set data =
    Ok ((λ r, (λ col, default 0 (imputed data col r)) <$> FEATURES) <$> rows data,
        omap e_result (rows data)).
Proof.
  intros Hres Hcol.
  assert (S : ∀ col r, col ∈ FEATURES → is_Some (imputed data col r))
    by (intros col r Hc; by apply imputed_is_Some, Hcol).
  destruct (labels_present (rows data) Hres) as [Y1 Y2].
  unfold training_set. rewrite Y1. cbn [mbind result_bind].
  unfold _prepare_features, FEATURES. cbn [fmap list_fmap fst].
  rewrite !prepare_column_cells.
  assert (R : rows_of (length (rows data))
                [imputed data attendance <$> rows data;
                 imputed data marks <$> rows data;
                 imputed data internal_score <$> rows data]
              = (λ r, [imputed data attendance r; imputed data marks r;
                       imputed data internal_score r]) <$> rows data).
  { unfold rows_of. apply list_eq. intros i.
    rewrite !list_lookup_fmap.
    destruct (rows data !! i) as [r|] eqn:Er.
    - rewrite (lookup_seq_lt _ _ _ (lookup_lt_Some _ _ _ Er)). simpl.
      rewrite !nth_lookup, !list_lookup_fmap, Er. reflexivity.
    - rewrite lookup_seq_ge by (by apply lookup_ge_None). reflexivity. }
  rewrite R. clear R Y1 Y2 Hres Hcol.
  assert (F : ∀ rs,
            require_finite ((λ r, [imputed data attendance r; imputed data marks r;
                                   imputed data internal_score r]) <$> rs)
            = Ok ((λ r, [default 0 (imputed data attendance r);
                         default 0 (imputed data marks r);
                         default 0 (imputed data internal_score r)]) <$> rs)).
  { unfold require_finite. induction rs as [|r rs IH]; [reflexivity|].
    rewrite !fmap_cons. cbn [forM].
    destruct (S attendance r ltac:(unfold FEATURES; rewrite !elem_of_cons; tauto)) as [qa ->].
    destruct (S marks r ltac:(unfold FEATURES; rewrite !elem_of_cons; tauto)) as [qm ->].
    destruct (S internal_score r ltac:(unfold FEATURES; rewrite !elem_of_cons; tauto)) as [qi ->].
    cbn [mbind result_bind]. rewrite IH. reflexivity. }
  rewrite F. reflexivity.
Qed.

(** X7: when every row has a result and every feature column has at
    least one present cell, [train_model]'s training set has one row per
    row of the frame, in order, whose cells are the present values
    unchanged and, where a value is missing, the median of the present
    values of the column; the labels are the results. *)
Theorem imputed_training_set (data : DataFrame) :
  (∀ r, r ∈ rows data → is_Some (e_result r)) →
  (∀ col, col ∈ FEATURES → ∃ r, r ∈ rows data ∧ is_Some (cell col r)) →
  training_set data =
    Ok ((λ r, (λ col, default 0 (imputed data col r)) <$> FEATURES) <$> rows data,
        omap e_result (rows data))
  ∧ (∀ col r, col ∈ FEATURES → is_Some (imputed data col r))
  ∧ length (omap e_result (rows data)) = length (rows data).
Proof.
  intros Hres Hcol. split; [by apply training_set_of_frame|]. split.
  - intros col r Hc. by apply imputed_is_Some, Hcol.
  - by apply labels_present.
Qed.



End MoreImputation.

Import fixture_more.

Example training_set_of_gappy_frame :
  training_set gappy_frame
  = Ok ([[80; 50; 70]; [60; 50; 70]; [60; 90; 90]; [40; 20; 30]], [1; 0; 1; 0]%Z).
Proof. reflexivity. Qed.

Lemma imputed_training_set_witness :
  (∀ r, r ∈ rows gappy_frame → is_Some (e_result r))
  ∧ (∀ col, col ∈ FEATURES → ∃ r, r ∈ rows gappy_frame ∧ is_Some (cell col r))
  ∧ training_set gappy_frame =
      Ok ((λ r, (λ col, default 0 (imputed gappy_frame col r)) <$> FEATURES)
            <$> rows gappy_frame,
          omap e_result (rows gappy_frame)).
Proof.
  assert (H1 : ∀ r, r ∈ rows gappy_frame → is_Some (e_result r)).
  { intros r Hr. simpl in Hr.
    repeat (apply elem_of_cons in Hr as [->|Hr]); simpl; eauto.
    by apply elem_of_nil in Hr. }
  assert (H2 : ∀ col, col ∈ FEATURES → ∃ r, r ∈ rows gappy_frame ∧ is_Some (cell col r)).
  { intros col Hc. exists {| e_attendance := Some 40; e_marks := Some 20;
                             e_internal_score := Some 30; e_result := Some 0%Z |}.
    split; [simpl; rewrite !elem_of_cons; tauto|].
    destruct col; simpl; eauto.
    unfold FEATURES in Hc.
    repeat (apply elem_of_cons in Hc as [Hc|Hc]; [discriminate|]).
    by apply elem_of_nil in Hc. }
  split; [exact H1|]. split; [exact H2|].
  exact (proj1 (imputed_training_set gappy_frame H1 H2)).
Defined.

(** ** Explanations, suggestions and the response model *)

Section MoreExplanation.
Context `{Runtime}.

#[local] Arguments _build_explanation : simpl never.
#[local] Arguments _compute_feedback : simpl never.
#[local] Arguments _standardize : simpl never.

Lemma insert_stable_perm {A} (before : A → A → bool) (x : A) (l : list A) :
  insert_stable before x l ≡ₚ x :: l.
Proof.
  induction l as [|y l IH]; simpl; [reflexivity|].
  destruct (before y x); [|reflexivity].
  rewrite IH. apply Permutation_swap.
Qed.

Lemma sort_stable_perm {A} (before : A → A → bool) (l : list A) :
  sort_stable before l ≡ₚ l.
Proof.
  induction l as [|x l IH]; simpl; [reflexivity|].
  by rewrite insert_stable_perm, IH.
Qed.




Lemma suggest_feature coefficients scales raw base_prob base_logit idx feat o :
  suggest coefficients scales raw base_prob base_logit idx feat = Ok o →
  ∃ cur, raw !! idx = Some cur
         ∧ match o with
           | Some s => feature s = feat ∧ 0 < allowed_increase feat cur
           | None => allowed_increase feat cur <= 0
           end.
Proof.
  unfold suggest, index.
  destruct (raw !! idx) as [cur|]; simpl; [|discriminate].
  destruct (max_increase feat) as [cap|] eqn:EC; simpl; [|discriminate].
  assert (EA : Qmin cap (100 - cur) = allowed_increase feat cur).
  { destruct feat; simpl in EC; try discriminate; injection EC as <-; reflexivity. }
  rewrite EA. clear EA EC cap.
  destruct (Qle_bool (allowed_increase feat cur) 0) eqn:ED.
  - intros [= <-]. apply Qle_bool_iff in ED. eauto.
  - apply Qle_bool_gt in ED.
    destruct (py_get coefficients (name_of feat) (JNum 0)) as [cj|]; simpl; [|discriminate].
    destruct (py_float cj) as [coef|]; simpl; [|discriminate].
    destruct (py_div _ _) as [ds|]; simpl; [|discriminate].
    destruct (_sigmoid _) as [np|]; simpl; [|discriminate].
    intros [= <-]. simpl. eauto.
Qed.

(** X12: the suggestions of a response are about exactly the features
    whose allowed increase is positive, one suggestion for each. *)
Theorem feedback_covers_improvable_features self a m i fin resp features :
  validate_features a m i = Ok features →
  outcome (predict self a m i fin) = Ok resp →
  feature <$> feedback resp
  ≡ₚ List.filter (λ feat, match value_of features feat with
                          | Some v => Qltb 0 (allowed_increase feat v)
                          | None => false
                          end) FEATURES.
Proof.
  intros EV E.
  apply predict_Ok in E as (features' & final & EV' & _ & _ & _ & _ & _ & _ & _ & _ & EF).
  rewrite EV in EV'. injection EV' as <-.
  apply compute_feedback_Ok in EF as (cs & sc & bl & o1 & o2 & o3 & E1 & E2 & E3 & ->).
  rewrite sort_stable_perm.
  apply suggest_feature in E1 as (c1 & R1 & P1).
  apply suggest_feature in E2 as (c2 & R2 & P2).
  apply suggest_feature in E3 as (c3 & R3 & P3).
  injection R1 as <-. injection R2 as <-. injection R3 as <-.
  match goal with |- ?l ≡ₚ ?r => assert (E : l = r); [|by rewrite E] end.
  unfold FEATURES. cbn [List.filter value_of].
  destruct o1 as [s1|], o2 as [s2|], o3 as [s3|]; cbn [omap list_omap id fmap list_fmap];
    repeat match goal with
           | P : _ ∧ _ |- _ => destruct P as [-> ?]
           end;
    repeat match goal with
           | P : 0 < ?x |- context [Qltb 0 ?x] =>
               rewrite (proj2 (Qltb_lt 0 x) P)
           | P : ?x <= 0 |- context [Qltb 0 ?x] =>
               rewrite (proj2 (Qltb_ge 0 x) P)
           end;
    reflexivity.
Qed.





(** X10: the threshold that [GET /api/settings/threshold] resolves is
    the one a predictor loaded from the same files and environment
    applies. *)
Theorem reported_threshold_is_applied env fs self :
  _load_model_and_metadata env fs = Ok self →
  ∃ source, _resolve_threshold_with_source env fs = Ok (threshold self, source).
Proof.
  unfold _load_model_and_metadata, _resolve_threshold_with_source, _resolve_threshold.
  destruct (model_file fs) as [loaded|]; [|discriminate].
  destruct (metadata_file fs) as [[|j]|]; cbn [mbind result_bind]; [discriminate| |].
  - destruct (env_override env) as [[t|]|]; cbn [mbind result_bind]; try discriminate.
    + intros [= <-]. simpl. eauto.
    + destruct j as [| | | | |md]; simpl;
        try (intros [= <-]; simpl; eauto).
      destruct (metadata_threshold (md !! "user_threshold"));
        [intros [= <-]; simpl; eauto|].
      destruct (metadata_threshold (md !! "recommended_threshold"));
        intros [= <-]; simpl; eauto.
  - destruct (env_override env) as [[t|]|]; cbn [mbind result_bind]; try discriminate;
      simpl; intros [= <-]; simpl; eauto.
Qed.


End MoreExplanation.

(** ** The endpoints *)

Section MoreEndpoints.
Context `{Runtime} `{Sklearn}.

#[local] Arguments _build_explanation : simpl never.
#[local] Arguments _compute_feedback : simpl never.
#[local] Arguments _standardize : simpl never.
#[local] Arguments _collect_suspicion_markers : simpl never.
#[local] Arguments _build_feedback_paragraph : simpl never.
#[local] Arguments validate_features : simpl never.
#[local] Arguments validate_final : simpl never.
#[local] Arguments raw_vector_of : simpl never.
#[local] Arguments label_of : simpl never.























End MoreEndpoints.

Section MoreBatchEndpoint.
Context `{Runtime}.

#[local] Arguments _build_explanation : simpl never.
#[local] Arguments _collect_suspicion_markers : simpl never.
#[local] Arguments validate_features : simpl never.
#[local] Arguments validate_final : simpl never.
#[local] Arguments raw_vector_of : simpl never.
#[local] Arguments label_of : simpl never.
#[local] Arguments process_item : simpl never.

Lemma Forall2_compose {A B C} (P : A → B → Prop) (Q : B → C → Prop) l1 l2 l3 :
  Forall2 P l1 l2 → Forall2 Q l2 l3 → Forall2 (λ x z, ∃ y, P x y ∧ Q y z) l1 l3.
Proof.
  intros F. revert l3. induction F as [|x y l1 l2 Pxy F IH]; intros l3 G.
  - inversion G. constructor.
  - inversion G as [|? z ? l3' Qyz G']; subst. constructor; [eauto|]. by apply IH.
Qed.

Lemma prediction_items_of_rows (db : list crud.EnrollmentRow) :
  Forall2 (λ row it, endpoints.prediction_item row = Some it)
          (List.filter has_features db) (omap endpoints.prediction_item db).
Proof.
  induction db as [|row db IH]; [constructor|].
  cbn [List.filter omap list_omap]. unfold has_features at 1.
  unfold endpoints.prediction_item at 2 3.
  destruct (crud.row_attendance row) as [a|] eqn:Ea,
           (crud.row_marks row) as [m|] eqn:Em,
           (crud.row_internal_score row) as [i|] eqn:Ei;
    rewrite ?bool_decide_true by eauto;
    rewrite ?(bool_decide_false (is_Some None)) by (intros [? ?]; discriminate);
    cbn [andb]; try exact IH.
  constructor; [|exact IH].
  unfold endpoints.prediction_item. by rewrite Ea, Em, Ei.
Qed.

Lemma prediction_item_Some row it :
  endpoints.prediction_item row = Some it →
  ∃ a m i,
    crud.row_attendance row = Some a ∧ crud.row_marks row = Some m
    ∧ crud.row_internal_score row = Some i
    ∧ it = {| student_id := Some (crud.row_student_id row);
              course_id := Some (crud.row_course_id row);
              item_attendance := PFloat (Finite a);
              item_marks := PFloat (Finite m);
              item_internal_score := PFloat (Finite i);
              item_final_exam_score := PNone |}.
Proof.
  unfold endpoints.prediction_item.
  destruct (crud.row_attendance row) as [a|], (crud.row_marks row) as [m|],
           (crud.row_internal_score row) as [i|]; try discriminate.
  intros [= <-]. by exists a, m, i.
Qed.

Lemma validate_features_Ok_vector a m i features :
  validate_features (PFloat (Finite a)) (PFloat (Finite m)) (PFloat (Finite i))
    = Ok features →
  raw_vector_of features = [a; m; i].
Proof.
  unfold validate_features.
  destruct (_validate_range attendance _) as [a'|] eqn:Ea; cbn [mbind result_bind];
    [|discriminate].
  destruct (_validate_range marks _) as [m'|] eqn:Em; cbn [mbind result_bind];
    [|discriminate].
  destruct (_validate_range internal_score _) as [i'|] eqn:Ei; cbn [mbind result_bind];
    [|discriminate].
  intros [= <-].
  apply validate_range_Ok in Ea as ([= <-] & _).
  apply validate_range_Ok in Em as ([= <-] & _).
  apply validate_range_Ok in Ei as ([= <-] & _).
  reflexivity.
Qed.

(** X15: a body of [POST /api/predict_batch] lists one prediction for
    every enrollment whose three features are stored, in the order of
    the table and under its student and course, computed by the loaded
    model from exactly these three values; [total] is their number. *)
Theorem predict_batch_endpoint_lists_complete_rows env fs db predictions total :
  endpoints.predict_batch env fs db = endpoints.Respond (predictions, total) →
  total = length (List.filter has_features db)
  ∧ total ≠ 0%nat
  ∧ ∃ self,
      _load_model_and_metadata env fs = Ok self
      ∧ Forall2 (λ row r,
                   b_student_id r = Some (crud.row_student_id row)
                   ∧ b_course_id r = Some (crud.row_course_id row)
                   ∧ b_threshold_used r = threshold self
                   ∧ b_predicted_result r = label_of (b_probability r) (threshold self)
                   ∧ ∃ a m i,
                       crud.row_attendance row = Some a
                       ∧ crud.row_marks row = Some m
                       ∧ crud.row_internal_score row = Some i
                       ∧ b_probability r = predict_proba_row (model self) [a; m; i])
                (List.filter has_features db) predictions.
Proof.
  unfold endpoints.predict_batch, crud.get_all_enrollments_for_batch_prediction.
  destruct (_load_model_and_metadata env fs) as [self|e] eqn:EL.
  2:{ destruct e; discriminate. }
  pose proof (prediction_items_of_rows db) as FR.
  destruct (omap endpoints.prediction_item db) as [|it its] eqn:EO; [discriminate|].
  rewrite <- EO in *.
  destruct (outcome (predict_batch self _)) as [results|e] eqn:EB.
  2:{ destruct e; discriminate. }
  intros [= <- <-].
  apply predict_batch_Ok in EB as (processed & EP & FP).
  apply forM_Ok_Forall2 in EP.
  pose proof (Forall2_compose _ _ _ _ _ FR (Forall2_compose _ _ _ _ _ EP FP)) as F.
  assert (LEN : length results = length (List.filter has_features db)).
  { symmetry. eapply Forall2_length. exact F. }
  split; [exact LEN|]. split.
  { rewrite LEN, (Forall2_length _ _ _ FR), EO. discriminate. }
  exists self. split; [reflexivity|].
  eapply Forall2_impl; [exact F|].
  intros row r (item & EI & p & EPi & Epr & Elab & Ethr & Esid & Ecid & _).
  apply prediction_item_Some in EI as (a & m & i & Ea & Em & Ei & ->).
  apply process_item_Ok in EPi as (features & final & EV & _ & ->).
  cbn [item_attendance item_marks item_internal_score] in EV.
  apply validate_features_Ok_vector in EV.
  cbn [fst snd student_id course_id] in *.
  rewrite EV in Epr.
  repeat split; try assumption. by exists a, m, i.
Qed.
End MoreBatchEndpoint.

Section MoreBatchStatuses.
Context `{Runtime}.

#[local] Arguments _build_explanation : simpl never.
#[local] Arguments _collect_suspicion_markers : simpl never.
#[local] Arguments validate_features : simpl never.
#[local] Arguments validate_final : simpl never.
#[local] Arguments raw_vector_of : simpl never.
#[local] Arguments label_of : simpl never.
#[local] Arguments process_item : simpl never.






End MoreBatchStatuses.

Section MoreThreshold.
Context `{Runtime} `{Sklearn}.

#[local] Arguments _save_metadata : simpl never.
#[local] Arguments train_model : simpl never.

Lemma in_open_unit_true t : 0 < t → t < 1 → in_open_unit t = true.
Proof.
  intros L U. unfold in_open_unit.
  apply andb_true_iff. split; by apply Qltb_lt.
Qed.

(** The document that [update_threshold] writes. *)
Lemma update_threshold_Ok now t fs :
  0 < t → t < 1 →
  ∃ written : gmap string json,
    endpoints.update_threshold now t fs =
      ({| model_file := model_file fs;
          metadata_file := Some (Doc (JObj written)) |},
       endpoints.Respond (t, "metadata"))
    ∧ written !! "user_threshold" = Some (JNum t)
    ∧ written !! "user_threshold_set_at" = Some (JStr now)
    ∧ (∀ old : gmap string json,
         match metadata_file fs with
         | Some (Doc (JObj loaded)) => old = loaded
         | _ => old = ∅
         end →
         written !! "recommended_threshold" =
           Some (default (JNum (Qmax (3 # 5) t)) (old !! "recommended_threshold"))
         ∧ ∀ k, k ≠ "user_threshold" → k ≠ "user_threshold_set_at" →
                k ≠ "recommended_threshold" → written !! k = old !! k).
Proof.
  intros L U. unfold endpoints.update_threshold.
  rewrite (in_open_unit_true t L U). cbn [negb].
  set (old := match metadata_file fs with
              | Some (Doc (JObj loaded)) => loaded
              | _ => ∅
              end).
  assert (EO : ∀ o : gmap string json,
             match metadata_file fs with
             | Some (Doc (JObj loaded)) => o = loaded
             | _ => o = ∅
             end → o = old).
  { intros o. unfold old. by destruct (metadata_file fs) as [[|[]]|]. }
  eexists. split; [reflexivity|].
  split; [|split].
  - rewrite lookup_insert_ne by done.
    destruct (_ !! "recommended_threshold") eqn:E.
    + by rewrite lookup_insert_eq.
    + rewrite lookup_insert_ne by done. by rewrite lookup_insert_eq.
  - by rewrite lookup_insert_eq.
  - intros o Ho. apply EO in Ho as ->. split.
    + rewrite lookup_insert_ne by done.
      rewrite lookup_insert_ne by done.
      destruct (old !! "recommended_threshold") eqn:E; cbn [default].
      * rewrite lookup_insert_ne by done. exact E.
      * by rewrite lookup_insert_eq.
    + intros k K1 K2 K3. rewrite lookup_insert_ne by done.
      destruct (_ !! "recommended_threshold").
      * by rewrite lookup_insert_ne.
      * rewrite lookup_insert_ne by done. by rewrite lookup_insert_ne.
Qed.

(** X17: a threshold stored through [POST /api/settings/threshold] is
    the one in force afterwards, when the environment does not override
    it: [GET /api/settings/threshold] reports it with source
    ["metadata:user"], and every predictor loaded from then on applies
    it. The model file is not touched. *)
Theorem update_threshold_round_trip now t env fs :
  0 < t → t < 1 →
  env_override env = Ok None →
  let '(fs', answer) := endpoints.update_threshold now t fs in
  answer = endpoints.Respond (t, "metadata")
  ∧ model_file fs' = model_file fs
  ∧ endpoints.get_threshold env fs' = endpoints.Respond (t, from_metadata_user)
  ∧ ∀ self, _load_model_and_metadata env fs' = Ok self → threshold self = t.
Proof.
  intros L U EE.
  destruct (update_threshold_Ok now t fs L U) as (written & -> & EU & _).
  assert (MT : metadata_threshold (Some (JNum t)) = Some t).
  { unfold metadata_threshold. by rewrite (in_open_unit_true t L U). }
  split; [reflexivity|]. split; [reflexivity|]. split.
  - unfold endpoints.get_threshold, _resolve_threshold_with_source.
    rewrite EE. cbn [mbind result_bind metadata_file]. by rewrite EU, MT.
  - intros self. unfold _load_model_and_metadata, _resolve_threshold.
    cbn [model_file metadata_file].
    destruct (model_file fs); [|discriminate]. cbn [mbind result_bind].
    rewrite EE. cbn [mbind result_bind dict_get]. rewrite EU, MT.
    by intros [= <-].
Qed.

End MoreThreshold.

Section MoreRetrain.
Context `{Runtime} `{Sklearn}.

#[local] Arguments _save_metadata : simpl never.
#[local] Arguments train_model : simpl never.
#[local] Arguments metadata_document : simpl never.

Lemma training_data_complete (db : list crud.EnrollmentRow) row :
  row ∈ crud.get_training_data db →
  row ∈ db
  ∧ is_Some (crud.row_attendance row) ∧ is_Some (crud.row_marks row)
  ∧ is_Some (crud.row_internal_score row) ∧ is_Some (crud.row_result row).
Proof.
  unfold crud.get_training_data. intros M.
  apply list_elem_of_In, filter_In in M as [IN B].
  apply andb_true_iff in B as [B B4]. apply andb_true_iff in B as [B B3].
  apply andb_true_iff in B as [B1 B2].
  apply bool_decide_eq_true in B1, B2, B3, B4.
  split; [by apply list_elem_of_In|]. auto.
Qed.

Lemma filter_all {A} (P : A → Prop) `{∀ x, Decision (P x)} (l : list A) :
  (∀ x, x ∈ l → P x) → filter P l = l.
Proof.
  induction l as [|x l IH]; intros F; [reflexivity|].
  rewrite filter_cons_True by (apply F, elem_of_cons; by left).
  f_equal. apply IH. intros y Hy. apply F, elem_of_cons. by right.
Qed.

(** The frame that the endpoint hands to [train_model]: the complete
    rows, all of them. *)
Lemma training_frame (db : list crud.EnrollmentRow) :
  crud.get_training_data db ≠ [] →
  _to_dataframe_from_enrollments
    (endpoints.training_record <$> crud.get_training_data db)
  = Ok {| columns := ["attendance"; "marks"; "internal_score"; "result"];
          rows := endpoints.training_record <$> crud.get_training_data db |}.
Proof.
  intros NE. pose proof (training_data_complete db) as C.
  assert (F : filter (λ r, is_Some (e_result r))
                (endpoints.training_record <$> crud.get_training_data db)
              = endpoints.training_record <$> crud.get_training_data db).
  { apply filter_all. intros r Hr.
    apply list_elem_of_fmap in Hr as (row' & -> & Hrow).
    apply C in Hrow as (_ & _ & _ & _ & R). exact R. }
  unfold _to_dataframe_from_enrollments, pd_DataFrame, dropna_result.
  destruct (crud.get_training_data db) as [|row rest]; [done|].
  rewrite fmap_cons in *. cbn [columns rows].
  rewrite bool_decide_eq_true_2 by (rewrite !elem_of_cons; tauto).
  by rewrite F.
Qed.



(** The keys of the document that [train_model] returns. *)
Lemma train_model_Ok_keys now data fs rs fs' m metrics (md : gmap string json) k :
  train_model now data fs rs = (fs', Ok (m, metrics, md)) →
  is_Some (md !! k) →
  k ∈ ["generated_at"; "feature_names"; "class_counts"; "class_distribution";
       "imputation"; "coefficients"; "intercept"; "permutation_importance";
       "metrics_cv"; "roc_auc"; "recommended_threshold"; "scaler";
       "user_threshold"].
Proof.
  unfold train_model.
  destruct (_validate_columns data) as [[]|]; cbn [mbind result_bind]; [|congruence].
  destruct (_prepare_features data) as [X_cols imputation_stats].
  destruct (forM _ (rows data)) as [y|]; cbn [mbind result_bind]; [|congruence].
  destruct (length (remove_dups y) <? 2)%nat; [congruence|].
  destruct (forM _ (value_counts y)) as [cd|]; cbn [mbind result_bind]; [|congruence].
  destruct (require_finite _) as [X|]; cbn [mbind result_bind]; [|congruence].
  destruct (_compute_metrics (X, y) rs) as [[[met cf] ic]|]; cbn [mbind result_bind];
    [|congruence].
  destruct (fit rs (X, y)) as [base|]; cbn [mbind result_bind]; [|congruence].
  destruct (_train_calibrated_model (X, y) rs) as [cal|]; cbn [mbind result_bind];
    [|congruence].
  destruct (predict_proba cal X) as [ys|]; cbn [mbind result_bind]; [|congruence].
  match goal with
  | |- context [_save_metadata ?f ?p] =>
      destruct (_save_metadata f p) as [fs2 md2] eqn:EW;
      assert (K : ∀ k, is_Some (p !! k) →
                k ∈ ["generated_at"; "feature_names"; "class_counts";
                     "class_distribution"; "imputation"; "coefficients"; "intercept";
                     "permutation_importance"; "metrics_cv"; "roc_auc";
                     "recommended_threshold"; "scaler"; "user_threshold"])
  end.
  { intros k'. unfold metadata_document.
    rewrite !lookup_insert_is_Some, lookup_empty, !elem_of_cons.
    intros S. repeat (destruct S as [S|[_ S]]; [auto 20|]).
    by destruct S. }
  intros [= <- <- <- <-] S.
  destruct (decide (k = "user_threshold")) as [->|NK].
  { rewrite !elem_of_cons. auto 20. }
  apply save_metadata_frame in EW as (_ & _ & EK).
  rewrite (EK k NK) in S. by apply K.
Qed.

(** X20: a successful [POST /api/retrain] has trained on exactly the
    complete enrollments, at least ten, with nothing imputed: the model
    it writes is the calibrated fit on their three features and results,
    in table order. The metadata it writes holds the recommended
    threshold of the answer, which is at least 0.6, and the user
    threshold of the answer. *)
Theorem retrain_endpoint_success now timestamp fs db fs' body :
  endpoints.retrain now timestamp fs db = (fs', endpoints.Respond body) →
  let complete := crud.get_training_data db in
  endpoints.r_samples_used body = length complete
  ∧ (10 ≤ length complete)%nat
  ∧ endpoints.r_timestamp body = timestamp
  ∧ ∃ m (md : gmap string json) X y best,
      model_file fs' = Some m
      ∧ metadata_file fs' = Some (Doc (JObj md))
      ∧ fit_calibrated 42 (X, y) = Ok m
      ∧ Forall2 (λ row x, [crud.row_attendance row; crud.row_marks row;
                           crud.row_internal_score row] = Some <$> x) complete X
      ∧ Forall2 (λ row v, crud.row_result row = Some v) complete y
      ∧ endpoints.r_recommended_threshold body = JNum best
      ∧ md !! "recommended_threshold" = Some (JNum best)
      ∧ 3 # 5 <= best
      ∧ endpoints.r_user_threshold body = md !! "user_threshold".
Proof.
  intros E complete. unfold endpoints.retrain in E. fold complete in E.
  destruct (length complete <? 10)%nat eqn:EL; [discriminate|].
  apply Nat.ltb_ge in EL.
  destruct (train_from_db now _ fs) as [fs2 [[[m metrics] md]|e]] eqn:ET.
  2:{ destruct (endpoints.is_ValueError e); discriminate. }
  injection E as <- <-. cbn [endpoints.r_samples_used endpoints.r_timestamp
    endpoints.r_recommended_threshold endpoints.r_user_threshold].
  split; [reflexivity|]. split; [exact EL|]. split; [reflexivity|].
  assert (NE : complete ≠ []) by (intros N; rewrite N in EL; simpl in EL; lia).
  pose proof (training_frame db NE) as TF. fold complete in TF.
  unfold train_from_db in ET. rewrite TF in ET. clear TF.
  cbn [rows] in ET. rewrite length_fmap in ET.
  destruct (length complete <? 10)%nat eqn:EL'; [apply Nat.ltb_lt in EL'; lia|].
  apply train_model_Ok in ET
    as (X & y & cf & ic & base & ys & produced & ES & _ & _ & EC & _ & _ & _ & _ & ER & _ & EW).
  apply save_metadata_frame in EW as (EM & EF & EK). cbn [model_file] in EF.
  exists m, md, X, y, (recommended_threshold y ys (roc_curve y ys)).
  assert (R : md !! "recommended_threshold"
              = Some (JNum (recommended_threshold y ys (roc_curve y ys)))).
  { rewrite EK by done. exact ER. }
  rewrite R. cbn [default].
  split; [exact EF|]. split; [exact EM|]. split; [exact EC|].
  assert (C : ∀ row, row ∈ complete →
            is_Some (crud.row_attendance row) ∧ is_Some (crud.row_marks row)
            ∧ is_Some (crud.row_internal_score row) ∧ is_Some (crud.row_result row)).
  { intros row Hrow. by apply training_data_complete in Hrow as (_ & ?). }
  set (data := {| columns := ["attendance"; "marks"; "internal_score"; "result"];
                  rows := endpoints.training_record <$> complete |}) in *.
  rewrite (training_set_of_frame data) in ES.
  2:{ intros r Hr. cbn [rows data] in Hr.
      apply list_elem_of_fmap in Hr as (row & -> & Hrow). by apply C. }
  2:{ intros col Hcol. destruct complete as [|row rest] eqn:EQ; [done|].
      exists (endpoints.training_record row). split.
      - cbn [rows data]. rewrite fmap_cons. apply elem_of_cons. by left.
      - destruct (C row ltac:(apply elem_of_cons; by left)) as (Ca & Cm & Ci & _).
        unfold FEATURES in Hcol. rewrite !elem_of_cons in Hcol.
        destruct Hcol as [->|[->|[->|Hcol]]]; [done..|by apply elem_of_nil in Hcol]. }
  injection ES as <- <-. cbn [rows data].
  split; [|split; [|split; [reflexivity|split; [reflexivity|split; [|reflexivity]]]]].
  - apply Forall2_fmap_r, Forall2_fmap_r, Forall_Forall2_diag, Forall_forall.
    intros row Hrow. destruct (C row Hrow) as ([a Ea] & [b Eb] & [c Ec] & _).
    unfold FEATURES, imputed. cbn [fmap list_fmap cell endpoints.training_record
      e_attendance e_marks e_internal_score].
    unfold compose. cbn [endpoints.training_record e_attendance e_marks
      e_internal_score].
    by rewrite Ea, Eb, Ec.
  - clear -C. induction complete as [|row l IH]; [constructor|].
    rewrite fmap_cons. cbn [omap list_omap e_result endpoints.training_record].
    destruct (C row ltac:(apply elem_of_cons; by left)) as (_ & _ & _ & [v Ev]).
    rewrite Ev. constructor; [exact Ev|]. apply IH.
    intros r Hr. apply C, elem_of_cons. by right.
  - apply recommended_threshold_floor.
Qed.

(** A successful [retrain], as a successful [train_model] on the frame
    of the complete rows. *)
Lemma retrain_Respond now timestamp fs db fs' body :
  endpoints.retrain now timestamp fs db = (fs', endpoints.Respond body) →
  ∃ m metrics (md : gmap string json),
    train_model now
      {| columns := ["attendance"; "marks"; "internal_score"; "result"];
         rows := endpoints.training_record <$> crud.get_training_data db |} fs 42
    = (fs', Ok (m, metrics, md))
    ∧ endpoints.r_user_threshold body = md !! "user_threshold".
Proof.
  unfold endpoints.retrain.
  destruct (length (crud.get_training_data db) <? 10)%nat eqn:EL; [discriminate|].
  apply Nat.ltb_ge in EL.
  assert (NE : crud.get_training_data db ≠ [])
    by (intros N; rewrite N in EL; simpl in EL; lia).
  unfold train_from_db. rewrite (training_frame db NE). cbn [rows].
  rewrite length_fmap.
  destruct (length (crud.get_training_data db) <? 10)%nat eqn:EL';
    [apply Nat.ltb_lt in EL'; lia|].
  destruct (train_model now _ fs 42) as [fs2 [[[m metrics] md]|e]] eqn:ET.
  2:{ destruct (endpoints.is_ValueError e); discriminate. }
  intros [= <- <-]. by exists m, metrics, md.
Qed.

(** X21: a threshold stored through [POST /api/settings/threshold]
    outlives a retraining through [POST /api/retrain]: the answer of the
    retraining reports it, the new metadata document holds it, and,
    unless the environment overrides it, it is still the threshold in
    force. The time at which it was set is not carried over. *)
Theorem stored_threshold_outlives_retrain now1 now2 timestamp t env fs db fs2 body :
  0 < t → t < 1 →
  endpoints.retrain now2 timestamp (fst (endpoints.update_threshold now1 t fs)) db
    = (fs2, endpoints.Respond body) →
  endpoints.r_user_threshold body = Some (JNum t)
  ∧ (∃ md : gmap string json,
       metadata_file fs2 = Some (Doc (JObj md))
       ∧ md !! "user_threshold" = Some (JNum t)
       ∧ md !! "user_threshold_set_at" = None)
  ∧ (env_override env = Ok None →
     endpoints.get_threshold env fs2 = endpoints.Respond (t, from_metadata_user)
     ∧ ∀ self, _load_model_and_metadata env fs2 = Ok self → threshold self = t).
Proof.
  intros L U E.
  destruct (update_threshold_Ok now1 t fs L U) as (written & EU & EW & _).
  rewrite EU in E. cbn [fst] in E.
  apply retrain_Respond in E as (m & metrics & md & ET & ->).
  pose proof (train_model_Ok_keys _ _ _ _ _ _ _ _ "user_threshold_set_at" ET) as K.
  apply train_model_Ok in ET
    as (X & y & cf & ic & base & ys & produced & _ & _ & _ & _ & _ & EN & _ & _ & _ & _ & ES).
  rewrite (save_metadata_carry _ produced written (JNum t)) in ES
    by (reflexivity || assumption).
  injection ES as <- <-. cbn [metadata_file model_file].
  assert (MT : metadata_threshold (Some (JNum t)) = Some t).
  { unfold metadata_threshold. by rewrite (in_open_unit_true t L U). }
  split; [by rewrite lookup_insert_eq|]. split.
  - eexists. split; [reflexivity|]. split; [by rewrite lookup_insert_eq|].
    destruct (_ !! "user_threshold_set_at") eqn:EK; [|reflexivity].
    specialize (K ltac:(eauto)). clear -K. exfalso.
    rewrite !elem_of_cons in K.
    repeat (destruct K as [K|K]; [discriminate|]). by apply elem_of_nil in K.
  - intros EE. split.
    + unfold endpoints.get_threshold, _resolve_threshold_with_source.
      rewrite EE. cbn [mbind result_bind metadata_file].
      by rewrite lookup_insert_eq, MT.
    + intros self. unfold _load_model_and_metadata, _resolve_threshold.
      cbn [model_file metadata_file mbind result_bind].
      rewrite EE. cbn [mbind result_bind dict_get].
      rewrite lookup_insert_eq, MT. by intros [= <-].
Qed.
End MoreRetrain.

(** ** Pagination *)

Section MorePagination.
Local Open Scope Z_scope.


End MorePagination.

(** ** The admin token *)

Section MoreAdminToken.

Lemma replace_from_skip (old new t s : string) :
  endpoints.replace_from old new (String.length t) (String.append t s)
  = endpoints.replace_from old new 0 s.
Proof.
  induction t as [|c t IH]; simpl.
  - destruct s; reflexivity.
  - exact IH.
Qed.

Lemma prefix_append (t s : string) : String.prefix t (String.append t s) = true.
Proof.
  induction t as [|c t IH]; simpl.
  - by destruct s.
  - destruct (Ascii.ascii_dec c c); [exact IH | done].
Qed.

Lemma str_replace_prefix (c : Ascii.ascii) (old new s : string) :
  endpoints.str_replace (String c old) new (String.append (String c old) s)
  = String.append new (endpoints.str_replace (String c old) new s).
Proof.
  unfold endpoints.str_replace.
  change (String.append (String c old) s) with (String c (String.append old s)).
  cbn [endpoints.replace_from].
  change (String c (String.append old s)) with (String.append (String c old) s).
  rewrite prefix_append. cbn [String.length]. rewrite Nat.sub_succ, Nat.sub_0_r.
  by rewrite replace_from_skip.
Qed.

Lemma str_replace_absent (old new s : string) :
  occurs old s = false → endpoints.str_replace old new s = s.
Proof.
  unfold endpoints.str_replace. induction s as [|c s IH]; [reflexivity|].
  cbn [occurs endpoints.replace_from]. intros O.
  apply orb_false_iff in O as [P O]. rewrite P. by rewrite IH.
Qed.

(** X24: [verify_admin_token] lets a request pass when the header is
    the admin token behind ["Bearer "], and also when it is the bare
    token without any scheme. Every refusal is a 401, and the detail
    ["Invalid admin token"] is never sent: the exception that carries it
    is caught by the function's own [except Exception]. *)
Theorem admin_token_with_or_without_scheme (ADMIN_TOKEN : string) :
  ADMIN_TOKEN ≠ "" →
  occurs "Bearer " ADMIN_TOKEN = false →
  endpoints.verify_admin_token ADMIN_TOKEN
    (Some (String.append "Bearer " ADMIN_TOKEN)) = endpoints.Respond ()
  ∧ endpoints.verify_admin_token ADMIN_TOKEN (Some ADMIN_TOKEN) = endpoints.Respond ()
  ∧ ∀ authorization,
      match endpoints.verify_admin_token ADMIN_TOKEN authorization with
      | endpoints.Respond _ =>
          ∃ header, authorization = Some header ∧ header ≠ ""
                    ∧ endpoints.str_replace "Bearer " "" header = ADMIN_TOKEN
      | endpoints.HTTPException status d =>
          status = 401%nat ∧ d ≠ endpoints.InvalidAdminToken
      | endpoints.Unhandled _ => False
      end.
Proof.
  intros NE NO. split; [|split].
  - unfold endpoints.verify_admin_token.
    change (String.eqb (String.append "Bearer " ADMIN_TOKEN) "") with false.
    cbv zeta. rewrite (str_replace_prefix _ "earer " "" ADMIN_TOKEN).
    cbn [String.append]. rewrite (str_replace_absent _ _ _ NO).
    by rewrite String.eqb_refl.
  - unfold endpoints.verify_admin_token.
    destruct (String.eqb ADMIN_TOKEN "") eqn:E; [by apply String.eqb_eq in E|].
    cbv zeta. rewrite (str_replace_absent _ _ _ NO).
    by rewrite String.eqb_refl.
  - intros [header|]; unfold endpoints.verify_admin_token; [|done].
    destruct (String.eqb header "") eqn:E; [done|]. cbv zeta.
    destruct (String.eqb (endpoints.str_replace "Bearer " "" header) ADMIN_TOKEN) eqn:ET;
      cbn [negb]; [|done].
    apply String.eqb_eq in ET. apply String.eqb_neq in E. eauto.
Qed.
End MoreAdminToken.

Lemma admin_token_with_or_without_scheme_witness :
  "changeme" ≠ ""
  ∧ occurs "Bearer " "changeme" = false
  ∧ endpoints.verify_admin_token "changeme" (Some "Bearer changeme")
    = endpoints.Respond ()
  ∧ endpoints.verify_admin_token "changeme" (Some "changeme") = endpoints.Respond ().
Proof.
  assert (H1 : "changeme" ≠ "") by discriminate.
  assert (H2 : occurs "Bearer " "changeme" = false) by reflexivity.
  split; [exact H1|]. split; [exact H2|].
  pose proof (admin_token_with_or_without_scheme "changeme" H1 H2) as (A & B & _).
  split; [exact A | exact B].
Defined.

(** ** The further properties on the concrete run *)

Lemma reported_threshold_is_applied_witness :
  _load_model_and_metadata None demo_fs = Ok demo_predictor
  ∧ ∃ source,
      _resolve_threshold_with_source None demo_fs = Ok (threshold demo_predictor, source).
Proof.
  split; [exact demo_predictor_eq|].
  exact (reported_threshold_is_applied None demo_fs demo_predictor demo_predictor_eq).
Defined.


Lemma feedback_covers_improvable_features_witness :
  ∃ features resp,
    validate_features (num 95) (num 100) (num 70) = Ok features
    ∧ outcome (predict demo_predictor (num 95) (num 100) (num 70) PNone) = Ok resp
    ∧ feature <$> feedback resp
      ≡ₚ List.filter (λ feat, match value_of features feat with
                              | Some v => Qltb 0 (allowed_increase feat v)
                              | None => false
                              end) FEATURES.
Proof.
  assert (O : is_ok (outcome (predict demo_predictor (num 95) (num 100) (num 70) PNone))
              = true) by (vm_compute; reflexivity).
  destruct (outcome (predict demo_predictor (num 95) (num 100) (num 70) PNone))
    as [resp|] eqn:E; [|discriminate O].
  exists {| f_attendance := 95; f_marks := 100; f_internal_score := 70 |}, resp.
  assert (V : validate_features (num 95) (num 100) (num 70)
              = Ok {| f_attendance := 95; f_marks := 100; f_internal_score := 70 |})
    by reflexivity.
  split; [exact V|]. split; [reflexivity|].
  exact (feedback_covers_improvable_features demo_predictor _ _ _ PNone resp _ V E).
Defined.


Lemma predict_batch_endpoint_lists_complete_rows_witness :
  ∃ predictions total,
    endpoints.predict_batch None demo_fs demo_db
      = endpoints.Respond (predictions, total)
    ∧ total = length (List.filter has_features demo_db)
    ∧ total ≠ 0%nat
    ∧ ∃ self,
        _load_model_and_metadata None demo_fs = Ok self
        ∧ Forall2 (λ row r,
                     b_student_id r = Some (crud.row_student_id row)
                     ∧ b_course_id r = Some (crud.row_course_id row)
                     ∧ b_threshold_used r = threshold self
                     ∧ b_predicted_result r = label_of (b_probability r) (threshold self)
                     ∧ ∃ a m i,
                         crud.row_attendance row = Some a
                         ∧ crud.row_marks row = Some m
                         ∧ crud.row_internal_score row = Some i
                         ∧ b_probability r = predict_proba_row (model self) [a; m; i])
                  (List.filter has_features demo_db) predictions.
Proof.
  assert (O : match endpoints.predict_batch None demo_fs demo_db with
              | endpoints.Respond _ => true
              | _ => false
              end = true) by (vm_compute; reflexivity).
  destruct (endpoints.predict_batch None demo_fs demo_db)
    as [[predictions total]| |] eqn:E; try discriminate O.
  exists predictions, total. split; [reflexivity|].
  exact (predict_batch_endpoint_lists_complete_rows None demo_fs demo_db
           predictions total E).
Defined.

Lemma update_threshold_round_trip_witness :
  0 < 7 # 10 ∧ 7 # 10 < 1
  ∧ env_override None = Ok None
  ∧ let '(fs', answer) := endpoints.update_threshold demo_now (7 # 10) demo_fs in
    answer = endpoints.Respond (7 # 10, "metadata")
    ∧ model_file fs' = model_file demo_fs
    ∧ endpoints.get_threshold None fs' = endpoints.Respond (7 # 10, from_metadata_user)
    ∧ ∀ self, _load_model_and_metadata None fs' = Ok self → threshold self = 7 # 10.
Proof.
  assert (H1 : 0 < 7 # 10) by reflexivity.
  assert (H2 : 7 # 10 < 1) by reflexivity.
  assert (H3 : env_override None = Ok None) by reflexivity.
  split; [exact H1|]. split; [exact H2|]. split; [exact H3|].
  exact (update_threshold_round_trip demo_now (7 # 10) None demo_fs H1 H2 H3).
Defined.

Lemma retrain_endpoint_success_witness :
  ∃ fs' body,
    endpoints.retrain demo_now demo_now empty_fs demo_db = (fs', endpoints.Respond body)
    ∧ endpoints.r_samples_used body = length (crud.get_training_data demo_db)
    ∧ (10 ≤ length (crud.get_training_data demo_db))%nat
    ∧ endpoints.r_timestamp body = demo_now
    ∧ ∃ m (md : gmap string json) X y best,
        model_file fs' = Some m
        ∧ metadata_file fs' = Some (Doc (JObj md))
        ∧ fit_calibrated 42 (X, y) = Ok m
        ∧ Forall2 (λ row x, [crud.row_attendance row; crud.row_marks row;
                             crud.row_internal_score row] = Some <$> x)
                  (crud.get_training_data demo_db) X
        ∧ Forall2 (λ row v, crud.row_result row = Some v)
                  (crud.get_training_data demo_db) y
        ∧ endpoints.r_recommended_threshold body = JNum best
        ∧ md !! "recommended_threshold" = Some (JNum best)
        ∧ 3 # 5 <= best
        ∧ endpoints.r_user_threshold body = md !! "user_threshold".
Proof.
  assert (O : match snd (endpoints.retrain demo_now demo_now empty_fs demo_db) with
              | endpoints.Respond _ => true
              | _ => false
              end = true) by (vm_compute; reflexivity).
  destruct (endpoints.retrain demo_now demo_now empty_fs demo_db)
    as [fs' [body| |]] eqn:E; try discriminate O.
  exists fs', body. split; [reflexivity|].
  exact (retrain_endpoint_success demo_now demo_now empty_fs demo_db fs' body E).
Defined.

Lemma stored_threshold_outlives_retrain_witness :
  0 < 7 # 10 ∧ 7 # 10 < 1
  ∧ ∃ fs2 body,
      endpoints.retrain demo_now demo_now
        (fst (endpoints.update_threshold demo_now (7 # 10) empty_fs)) demo_db
        = (fs2, endpoints.Respond body)
      ∧ endpoints.r_user_threshold body = Some (JNum (7 # 10))
      ∧ (∃ md : gmap string json,
           metadata_file fs2 = Some (Doc (JObj md))
           ∧ md !! "user_threshold" = Some (JNum (7 # 10))
           ∧ md !! "user_threshold_set_at" = None)
      ∧ (env_override None = Ok None →
         endpoints.get_threshold None fs2
           = endpoints.Respond (7 # 10, from_metadata_user)
         ∧ ∀ self, _load_model_and_metadata None fs2 = Ok self →
                   threshold self = 7 # 10).
Proof.
  assert (H1 : 0 < 7 # 10) by reflexivity.
  assert (H2 : 7 # 10 < 1) by reflexivity.
  split; [exact H1|]. split; [exact H2|].
  assert (O : match snd (endpoints.retrain demo_now demo_now
                           (fst (endpoints.update_threshold demo_now (7 # 10) empty_fs))
                           demo_db) with
              | endpoints.Respond _ => true
              | _ => false
              end = true) by (vm_compute; reflexivity).
  destruct (endpoints.retrain demo_now demo_now
              (fst (endpoints.update_threshold demo_now (7 # 10) empty_fs)) demo_db)
    as [fs2 [body| |]] eqn:E; try discriminate O.
  exists fs2, body. split; [reflexivity|].
  exact (stored_threshold_outlives_retrain demo_now demo_now demo_now (7 # 10) None
           empty_fs demo_db fs2 body H1 H2 E).
Defined.


Example students_page_two_of_three :
  endpoints.get_students demo_students 2%Z 3%Z
  = endpoints.Respond
      {| endpoints.items :=
           (λ k, {| crud.s_student_id := k; crud.s_name := "Student";
                    crud.s_dept_id := None |}) <$> [4; 5; 6]%Z;
         endpoints.total := 7; endpoints.page := 2; endpoints.limit := 3;
         endpoints.pages := 3 |}.
Proof. reflexivity. Qed.

Example students_limit_zero :
  endpoints.get_students demo_students 1%Z 0%Z = endpoints.Unhandled ZeroDivisionError.
Proof. reflexivity. Qed.

Example batch_without_complete_rows :
  endpoints.predict_batch None demo_fs (drop 10 demo_db)
  = endpoints.HTTPException 500
      (endpoints.BatchPredictionErrorOf 400 endpoints.NoCompleteEnrollments).
Proof. vm_compute. reflexivity. Qed.
